(** * Full-tele-bot: the message handlers, the voice synthesizer and the
      avatar video renderer

    A shallow embedding of [bot.py], [apify_scraper.py], [voice_gen.py],
    [video_gen.py] and [snscrape_scraper.py].  The Python code is effectful:
    it mutates the module-level dictionary [USER_STATES], reads and writes
    local files, talks to Telegram, OpenAI, ElevenLabs and HeyGen, sleeps, and
    raises and catches exceptions.  All of that is threaded through one state
    and exception monad [M]; the remote services are oracles of an
    environment [Env], each consulted with the history of calls made so far. *)

From Stdlib Require Import ZArith String Ascii List Lia.
From stdpp Require Import base gmap strings list fin_maps pretty.

Local Open Scope string_scope.
Local Open Scope Z_scope.
Local Open Scope list_scope.

(** ** Python values and exceptions *)

(** The exception classes the five files raise or can receive.  Every one of
    them is a subclass of [Exception]; [RequestException] stands for
    [requests.exceptions.RequestException] and its subclasses (connection
    errors, timeouts, and, in current versions of requests, JSON decoding
    errors). *)
Inductive exn : Type :=
| ValueError (msg : string)
| FileNotFoundError (msg : string)
| KeyError (key : string)
| AttributeError (msg : string)
| TypeError (msg : string)
| UnboundLocalError (var : string)
| RequestException (msg : string)
| Exception (msg : string)
| ServiceError (msg : string)
| OverflowError (msg : string).

Definition squote (s : string) : string := "'" +:+ s +:+ "'".

(** [str(e)], as the f-strings of the [except] clauses print it. *)
Definition str_exn (e : exn) : string :=
  match e with
  | KeyError key => squote key
  | UnboundLocalError var =>
      "cannot access local variable " +:+ squote var
      +:+ " where it is not associated with a value"
  | ValueError msg | FileNotFoundError msg | AttributeError msg
  | TypeError msg | RequestException msg | Exception msg
  | ServiceError msg | OverflowError msg => msg
  end.

Definition is_RequestException (e : exn) : bool :=
  match e with RequestException _ => true | _ => false end.

(** Truthiness of [str] and of [Optional[str]] ([os.getenv] returns [None]
    for an unset variable). *)
Definition truthy (s : string) : bool :=
  match s with EmptyString => false | String _ _ => true end.

Definition truthy_opt (o : option string) : bool :=
  match o with None => false | Some s => truthy s end.

(** A Python [str] is held as its UTF-8 encoding, one [ascii] per byte, the
    way the string literals of this file are.  The characters for which
    [str.isspace] holds, and which [str.strip()] removes, are: tab, newline,
    vertical tab, form feed, carriage return, the four separators U+001C to
    U+001F and the space, one byte each; ... *)
Definition isspace (c : ascii) : bool :=
  let n := nat_of_ascii c in
  ((9 <=? n)%nat && (n <=? 13)%nat) || ((28 <=? n)%nat && (n <=? 32)%nat).

(** ... U+0085 and U+00A0, two bytes each ([C2 85] and [C2 A0]); ... *)
Definition isspace2 (c1 c2 : ascii) : bool :=
  (nat_of_ascii c1 =? 194)%nat
  && ((nat_of_ascii c2 =? 133)%nat || (nat_of_ascii c2 =? 160)%nat).

(** ... and U+1680 ([E1 9A 80]), U+2000 to U+200A ([E2 80 80] to
    [E2 80 8A]), U+2028, U+2029 and U+202F ([E2 80 A8], [E2 80 A9],
    [E2 80 AF]), U+205F ([E2 81 9F]) and U+3000 ([E3 80 80]), three bytes
    each. *)
Definition isspace3 (c1 c2 c3 : ascii) : bool :=
  let n1 := nat_of_ascii c1 in
  let n2 := nat_of_ascii c2 in
  let n3 := nat_of_ascii c3 in
  ((n1 =? 225)%nat && (n2 =? 154)%nat && (n3 =? 128)%nat)
  || ((n1 =? 226)%nat && (n2 =? 128)%nat
      && (((128 <=? n3)%nat && (n3 <=? 138)%nat)
          || (n3 =? 168)%nat || (n3 =? 169)%nat || (n3 =? 175)%nat))
  || ((n1 =? 226)%nat && (n2 =? 129)%nat && (n3 =? 159)%nat)
  || ((n1 =? 227)%nat && (n2 =? 128)%nat && (n3 =? 128)%nat).

(** The string without the white space it begins with.  With [backwards]
    the string is read from its end, so that the bytes of a character come
    last byte first. *)
Fixpoint skip_space (backwards : bool) (s : string) : string :=
  match s with
  | EmptyString => EmptyString
  | String c1 s1 =>
      if isspace c1 then skip_space backwards s1
      else
        match s1 with
        | EmptyString => s
        | String c2 s2 =>
            if (if backwards then isspace2 c2 c1 else isspace2 c1 c2)
            then skip_space backwards s2
            else
              match s2 with
              | EmptyString => s
              | String c3 s3 =>
                  if (if backwards then isspace3 c3 c2 c1 else isspace3 c1 c2 c3)
                  then skip_space backwards s3
                  else s
              end
        end
  end.

Definition lstrip (s : string) : string := skip_space false s.

Definition rstrip (s : string) : string :=
  String.rev (skip_space true (String.rev s)).

(** [str.strip()]. *)
Definition strip (s : string) : string := rstrip (lstrip s).

(** The value of a local variable that the handlers' [finally] block
    inspects: a path string, or the file object that [with open(...) as
    audio_file] binds in [apify_scraper.py]. *)
Inductive pyval : Type :=
| PStr (s : string)
| PFile (path : string).

(** A [requests.Response] ([resp_text] is its [.text]).  [json] is the
    parsed body when it is an object of objects with string leaves, the
    shape of the answers the code reads.  For any other body [json] is
    [None] and [json_error] is the exception that reading it raises:
    [.json()] itself when the body is not JSON, with a class that depends
    on the version of requests and a message that depends on the body, or
    the subscript of a value that is not an object. *)
Record response : Type := {
  status_code : Z;
  resp_text : string;
  content : string;
  json : option (gmap string (gmap string string));
  json_error : exn
}.

(** What [.json()] raises, in current versions of requests, for a body that
    does not begin with a JSON value. *)
Definition not_json : exn :=
  RequestException "Expecting value: line 1 column 1 (char 0)".

(** ** Events, the world and the environment *)

(** The calls that leave the process, in the order they are made. *)
Inductive event : Type :=
| EvAnswer
| EvEditMessage (msg : string)
| EvReplyText (msg : string)
| EvReplyAudio (path : string)
| EvReplyVideo (path : string)
| EvGetFile
| EvDownloadToDrive (path : string)
| EvTranscribe (path : string)
| EvChatCompletion (prompt : string)
| EvScrape (query : string)
| EvPost (url : string)
| EvGet (url : string)
| EvSleep (seconds : Z)
| EvWrite (path : string)
| EvRemove (path : string).

Global Instance event_eq_dec : EqDecision event.
Proof. solve_decision. Defined.

(** The local variables of a running [process_content] that its [finally]
    block looks up through [locals()]: [audio_file_path] and
    [video_file_path] in [bot.py], [audio_file] and [video_file] in
    [apify_scraper.py]. *)
Record Frame : Type := {
  audio_var : option pyval;
  video_var : option pyval
}.

Definition empty_frame : Frame := {| audio_var := None; video_var := None |}.

Record World : Type := {
  USER_STATES : gmap Z (gmap string string);
  files : gmap string string;
  trace : list event;
  frame : Frame
}.

(** The collaborators outside the repository.  Every oracle receives the
    history of events so far, so the same request may be answered differently
    each time; [inl e] is a call that raises [e]. *)
Record Env : Type := {
  telegram : list event → option exn;
  voice_note : list event → string;
  mkstemp : list event → string;
  whisper : list event → exn + gmap string string;
  chat_completion : list event → string → exn + string;
  snscrape : list event → string → exn + list string;
  getenv : string → option string;
  requests_post : list event → string → exn + response;
  requests_get : list event → string → exn + response;
  uuid4_hex : list event → string;
  time_time : list event → Z
}.

(** ** The monad of the embedding *)

(** How a block of statements ends: it falls through with a value, executes a
    bare [return], raises, or never ends (the fuel of a loop ran out). *)
Inductive outcome (A : Type) : Type :=
| Normal (a : A)
| Returned
| Raised (e : exn)
| Diverged.
Arguments Normal {A} a.
Arguments Returned {A}.
Arguments Raised {A} e.
Arguments Diverged {A}.

Definition M (A : Type) : Type := World → outcome A * World.

Global Instance M_ret : MRet M := λ A a w, (Normal a, w).

Global Instance M_bind : MBind M := λ A B f m w,
  match m w with
  | (Normal a, w') => f a w'
  | (Returned, w') => (Returned, w')
  | (Raised e, w') => (Raised e, w')
  | (Diverged, w') => (Diverged, w')
  end.

Definition act {A} (f : World → outcome A * World) : M A := f.

Definition raise {A} (e : exn) : M A := λ w, (Raised e, w).
Definition return_ {A} : M A := λ w, (Returned, w).
Definition diverge {A} : M A := λ w, (Diverged, w).

(** [try: body except Exception as e: handler e]. *)
Definition try_except {A} (body : M A) (handler : exn → M A) : M A := λ w,
  match body w with
  | (Raised e, w') => handler e w'
  | r => r
  end.

(** [try: body finally: final].  The [finally] block runs however the body
    ended, unless the body never ends; an exception raised by the [finally]
    block replaces the body's outcome. *)
Definition try_finally {A} (body : M A) (final : M unit) : M A := λ w,
  match body w with
  | (Diverged, w') => (Diverged, w')
  | (o, w') =>
      match final w' with
      | (Normal _, w'') => (o, w'')
      | (Returned, w'') => (Returned, w'')
      | (Raised e, w'') => (Raised e, w'')
      | (Diverged, w'') => (Diverged, w'')
      end
  end.

(** A call of a function whose body is [body]: a bare [return] ends the call
    normally. *)
Definition call (body : M unit) : M unit := λ w,
  match body w with
  | (Returned, w') => (Normal (), w')
  | r => r
  end.

(** The world after the events [evs] were appended to its trace. *)
Definition log (evs : list event) (w : World) : World :=
  {| USER_STATES := USER_STATES w; files := files w;
     trace := trace w ++ evs; frame := frame w |}.

Definition emit (e : event) : M unit := λ w, (Normal (), log [e] w).

Definition history : M (list event) := λ w, (Normal (trace w), w).

Definition of_sum {A} (r : exn + A) : M A :=
  match r with inl e => raise e | inr a => mret a end.

(** ** The local file system *)

Definition set_files (fs : gmap string string) (w : World) : World :=
  {| USER_STATES := USER_STATES w; files := fs;
     trace := trace w; frame := frame w |}.

(** [files] holds the regular files.  [os.path.exists(path)], for a path
    that names a regular file or nothing at all; directories and other
    kinds of entries are not part of the model. *)
Definition os_path_exists (path : string) : M bool := λ w,
  (Normal (bool_decide (is_Some (files w !! path))), w).

(** [open(path, "wb")] followed by [f.write(data)]. *)
Definition write_file (path data : string) : M unit :=
  emit (EvWrite path);;
  act (λ w, (Normal (), set_files (<[path := data]> (files w)) w)).

(** [open(path, "rb")]. *)
Definition open_rb (path : string) : M string := λ w,
  match files w !! path with
  | Some data => (Normal data, w)
  | None => (Raised (FileNotFoundError ("No such file or directory: " +:+ squote path)), w)
  end.

(** [os.remove(path)] raises when there is no such file. *)
Definition os_remove (path : string) : M unit :=
  emit (EvRemove path);;
  act (λ w,
    match files w !! path with
    | Some _ => (Normal (), set_files (delete path (files w)) w)
    | None => (Raised (FileNotFoundError ("No such file or directory: " +:+ squote path)), w)
    end).

(** [d[key]] on a dictionary. *)
Definition getitem {V} (d : gmap string V) (key : string) : M V :=
  match d !! key with
  | Some v => mret v
  | None => raise (KeyError key)
  end.

(** ** voice_gen.py *)

Section voice_gen.
Variable env : Env.

Definition default_voice_id : string := "21m00Tcm4TlvDq8ikWAM".

Definition post (url : string) : M response :=
  h ← history;
  emit (EvPost url);;
  of_sum (requests_post env h url).

Definition get (url : string) : M response :=
  h ← history;
  emit (EvGet url);;
  of_sum (requests_get env h url).

(** The two [except] clauses that close [generate_voice] and
    [generate_avatar_video]. *)
Definition wrap_errors {A} (body : M A) : M A :=
  try_except body (λ e,
    if is_RequestException e
    then raise (Exception ("Network error: " +:+ str_exn e))
    else raise (Exception ("Unexpected error: " +:+ str_exn e))).

Definition generate_voice (text : string) (eleven_api_key : option string)
    (voice_id : string) : M string :=
  if negb (truthy (strip text)) then
    raise (ValueError "Text cannot be empty.")
  else if negb (truthy_opt eleven_api_key) then
    raise (ValueError "ElevenLabs API key is required.")
  else
    let url := "https://api.elevenlabs.io/v1/text-to-speech/" +:+ voice_id in
    wrap_errors (
      response ← post url;
      if negb (status_code response =? 200) then
        raise (Exception ("Voice generation failed. Status code: "
                          +:+ pretty (status_code response)
                          +:+ ", Response: " +:+ resp_text response))
      else
        h ← history;
        let audio_path := "output_" +:+ uuid4_hex env h +:+ ".mp3" in
        write_file audio_path (content response);;
        mret audio_path).
End voice_gen.

(** ** video_gen.py *)

Section video_gen.
Variable env : Env.

Definition upload_url : string := "https://api.heygen.com/v1/audio/upload".
Definition generate_url : string := "https://api.heygen.com/v1/video/generate".
Definition status_url (video_id : string) : string :=
  "https://api.heygen.com/v1/video/status?video_id=" +:+ video_id.

(** [resp.json()["data"]].  Nothing happens between this and the
    subscripts that follow it in the source, so that a reading that fails
    at a later subscript is not told apart from one that fails here. *)
Definition json_data (r : response) : M (gmap string string) :=
  match json r with
  | None => raise (json_error r)
  | Some j => getitem j "data"
  end.

(** The longest time [time.sleep] accepts, in seconds: the time is held in
    nanoseconds in a signed 64-bit integer. *)
Definition sleep_max : Z := 9223372036.

(** [time.sleep(seconds)] for an [int] (CPython 3.7 to 3.12): the
    conversion to nanoseconds raises [OverflowError] when the result does
    not fit, then a negative time raises [ValueError]. *)
Definition sleep (seconds : Z) : M unit :=
  if (seconds <? - sleep_max) || (sleep_max <? seconds) then
    raise (OverflowError "timestamp too large to convert to C _PyTime_t")
  else if seconds <? 0 then
    raise (ValueError "sleep length must be non-negative")
  else emit (EvSleep seconds).

Section poll.
Variables (video_id : string) (max_retries poll_interval : Z).

(** One pass through the body of the [while] loop of step 3, from the
    values of [video_url] and [retries] before it to their values after
    it ([continue] ends the pass early). *)
Definition poll_body (video_url : option string) (retries : Z)
    : M (option string * Z) :=
  status_resp ← get env (status_url video_id);
  if negb (status_code status_resp =? 200) then
    sleep poll_interval;;
    mret (video_url, retries + 1)
  else
    status_data ← json_data status_resp;
    status ← getitem status_data "status";
    if String.eqb status "completed" then
      url ← getitem status_data "video_url";
      mret (Some url, retries)
    else if String.eqb status "failed" then
      raise (Exception "Video generation failed.")
    else
      sleep poll_interval;;
      mret (video_url, retries + 1).

(** [while not video_url and retries < max_retries: ...].  Nothing in
    the source bounds the number of passes, so the loop takes fuel and
    diverges when it runs out. *)
Fixpoint poll_loop (fuel : nat) (video_url : option string) (retries : Z)
    : M (option string) :=
  if negb (truthy_opt video_url) && (retries <? max_retries) then
    match fuel with
    | O => diverge
    | S fuel' =>
        st ← poll_body video_url retries;
        poll_loop fuel' (fst st) (snd st)
    end
  else mret video_url.
End poll.

Definition generate_avatar_video (fuel : nat) (audio_path : string)
    (api_key avatar_id : option string) (max_retries poll_interval : Z)
    : M string :=
  found ← os_path_exists audio_path;
  if negb found then
    raise (FileNotFoundError ("Audio file not found: " +:+ audio_path))
  else if negb (truthy_opt api_key) then
    raise (ValueError "HeyGen API key is required.")
  else if negb (truthy_opt avatar_id) then
    raise (ValueError "Avatar ID is required.")
  else
    wrap_errors (
      open_rb audio_path;;
      audio_resp ← post env upload_url;
      if negb (status_code audio_resp =? 200) then
        raise (Exception ("Audio upload failed. Status code: "
                          +:+ pretty (status_code audio_resp)
                          +:+ ", Response: " +:+ resp_text audio_resp))
      else
        audio_data ← json_data audio_resp;
        audio_url ← getitem audio_data "url";
        vid_resp ← post env generate_url;
        if negb (status_code vid_resp =? 200) then
          raise (Exception ("Video generation request failed. Status code: "
                            +:+ pretty (status_code vid_resp)
                            +:+ ", Response: " +:+ resp_text vid_resp))
        else
          vid_data ← json_data vid_resp;
          video_id ← getitem vid_data "video_id";
          video_url ← poll_loop video_id max_retries poll_interval fuel None 0;
          if negb (truthy_opt video_url) then
            raise (Exception ("Video generation did not complete after "
                              +:+ pretty max_retries +:+ " retries."))
          else
            vid ← get env (default "" video_url);
            h ← history;
            let file_path :=
              "output_video_" +:+ pretty (time_time env h) +:+ ".mp4" in
            write_file file_path (content vid);;
            mret file_path).
End video_gen.

(** ** What the two bots share *)

(** An incoming [update.message]: [text] is [None] for a voice message,
    [voice] tells whether a voice note is attached. *)
Record Message : Type := {
  from_user_id : Z;
  text : option string;
  voice : bool
}.

Definition nl : string := String (ascii_of_nat 10) "".
Definition dquote : string := String (ascii_of_nat 34) "".

Definition set_states (s : gmap Z (gmap string string)) (w : World) : World :=
  {| USER_STATES := s; files := files w; trace := trace w; frame := frame w |}.

Definition set_frame (fr : Frame) (w : World) : World :=
  {| USER_STATES := USER_STATES w; files := files w; trace := trace w;
     frame := fr |}.

(** [USER_STATES.get(user_id)]. *)
Definition states_get (user_id : Z) : M (option (gmap string string)) :=
  act (λ w, (Normal (USER_STATES w !! user_id), w)).

(** [USER_STATES[user_id] = d]. *)
Definition states_set (user_id : Z) (d : gmap string string) : M unit :=
  act (λ w, (Normal (), set_states (<[user_id := d]> (USER_STATES w)) w)).

(** [USER_STATES[user_id][key] = value].  The dictionary stored under
    [user_id] is the very object the handler holds as [user_state]; the
    handler does not read [user_state] again after such a write. *)
Definition states_setitem (user_id : Z) (key value : string) : M unit :=
  act (λ w,
    match USER_STATES w !! user_id with
    | Some d =>
        (Normal (), set_states (<[user_id := <[key := value]> d]> (USER_STATES w)) w)
    | None => (Raised (KeyError (pretty user_id)), w)
    end).

(** [USER_STATES.pop(user_id, None)]. *)
Definition states_pop (user_id : Z) : M unit :=
  act (λ w, (Normal (), set_states (delete user_id (USER_STATES w)) w)).

Definition assign_audio (v : pyval) : M unit :=
  act (λ w, (Normal (),
             set_frame {| audio_var := Some v; video_var := video_var (frame w) |} w)).

Definition assign_video (v : pyval) : M unit :=
  act (λ w, (Normal (),
             set_frame {| audio_var := audio_var (frame w); video_var := Some v |} w)).

Definition locals : M Frame := act (λ w, (Normal (frame w), w)).

(** A call of [process_content]: the callee starts with none of its local
    variables bound, and a bare [return] ends it normally. *)
Definition call_handler (body : M unit) : M unit :=
  call (act (λ w, (Normal (), set_frame empty_frame w));; body).

Definition path_type_error : exn :=
  TypeError "stat: path should be string, bytes, os.PathLike or integer, not BufferedReader".

(** [os.path.exists(v)] does not catch the [TypeError] that [os.stat] raises
    for a file object. *)
Definition exists_val (v : pyval) : M bool :=
  match v with
  | PStr path => os_path_exists path
  | PFile _ => raise path_type_error
  end.

Definition remove_val (v : pyval) : M unit :=
  match v with
  | PStr path => os_remove path
  | PFile _ => raise path_type_error
  end.

(** [if 'x' in locals() and os.path.exists(x): os.remove(x)]. *)
Definition remove_if_bound (var : option pyval) : M unit :=
  match var with
  | None => mret ()
  | Some v =>
      found ← exists_val v;
      if found : bool then remove_val v else mret ()
  end.

(** The [finally] block of both [process_content] functions. *)
Definition cleanup (user_id : Z) : M unit :=
  states_pop user_id;;
  fr ← locals;
  remove_if_bound (audio_var fr);;
  fr ← locals;
  remove_if_bound (video_var fr).

Section services.
Variable env : Env.

(** A call of the Telegram API; it may raise. *)
Definition send (e : event) : M unit :=
  h ← history;
  emit e;;
  match telegram env h with
  | Some ex => raise ex
  | None => mret ()
  end.

Definition reply_text (msg : string) : M unit := send (EvReplyText msg).

(** [update.message.text.strip()]. *)
Definition text_strip (msg : Message) : M string :=
  match text msg with
  | Some t => mret (strip t)
  | None => raise (AttributeError "'NoneType' object has no attribute 'strip'")
  end.

(** [tempfile.NamedTemporaryFile(delete=False, suffix=...)]: the file is
    created empty and its name returned. *)
Definition named_temporary_file (suffix : string) : M string :=
  h ← history;
  let name := mkstemp env h +:+ suffix in
  act (λ w : World, (Normal name, set_files (<[name := ""]> (files w)) w)).

Definition download_to_drive (path : string) : M unit :=
  h ← history;
  send (EvDownloadToDrive path);;
  act (λ w, (Normal (), set_files (<[path := voice_note env h]> (files w)) w)).

(** [openai.Audio.transcribe(model="whisper-1", file=audio_file)]. *)
Definition transcribe (path : string) : M (gmap string string) :=
  h ← history;
  emit (EvTranscribe path);;
  of_sum (whisper env h).

Definition script_request (prompt : string) : string :=
  "Create a 60-second video script using this input:" +:+ nl +:+ prompt
  +:+ nl +:+ nl +:+ "Requirements:" +:+ nl
  +:+ "1. Conversational, easy-to-understand language." +:+ nl
  +:+ "2. Natural pauses for voiceover." +:+ nl
  +:+ "3. Include scene descriptions in [brackets]." +:+ nl
  +:+ "4. Max 300 words.".

Definition generate_gpt_script (prompt : string) : M string :=
  h ← history;
  emit (EvChatCompletion (script_request prompt));;
  answer ← of_sum (chat_completion env h (script_request prompt));
  mret (strip answer).

(** snscrape_scraper.py: the contents of the first five items of the
    search. *)
Definition scrape_twitter_content (handle keyword : string) : M (list string) :=
  let query := "from:" +:+ handle +:+ " " +:+ dquote +:+ keyword +:+ dquote in
  h ← history;
  emit (EvScrape query);;
  items ← of_sum (snscrape env h query);
  mret (take 5 items).
End services.

(** ** bot.py *)

Module Bot.
Section bot.
Variable env : Env.

Definition prompts : gmap string string :=
  list_to_map
    [("direct", "✍️ Send your full script text (1-2 paragraphs):");
     ("twitter", "🔗 Send a Twitter handle (without @), e.g., 'elonmusk':");
     ("voice", "🎤 Send a voice message explaining your reel idea:")].

Definition handle_button (user_id : Z) (data : string) : M unit :=
  send env EvAnswer;;
  let input_type := data in
  states_set user_id {[ "input_type" := input_type ]};;
  prompt ← getitem prompts input_type;
  send env (EvEditMessage prompt).

(** The [if/elif] chain that binds [script]; [None] when no branch ran and
    the name stays unbound. *)
Definition read_script (msg : Message) (input_type : string)
    : M (option string) :=
  if String.eqb input_type "direct" then
    script ← text_strip msg;
    reply_text env "📝 Processing your script...";;
    mret (Some script)
  else if String.eqb input_type "voice" then
    if voice msg then
      reply_text env "🎤 Transcribing your voice message...";;
      send env EvGetFile;;
      temp_path ← named_temporary_file env ".ogg";
      download_to_drive env temp_path;;
      open_rb temp_path;;
      transcript ← transcribe env temp_path;
      os_remove temp_path;;
      prompt ← getitem transcript "text";
      reply_text env ("🖋️ Transcribed Idea:" +:+ nl +:+ prompt);;
      reply_text env "📝 Generating script from your idea...";;
      script ← generate_gpt_script env prompt;
      mret (Some script)
    else
      reply_text env "⚠️ Please send a voice message.";;
      return_
  else if String.eqb input_type "twitter" then
    reply_text env "⚠️ Twitter scraping is currently paused. Use /start to choose another option.";;
    return_
  else mret None.

(** The body of the [try] statement. *)
Definition try_block (fuel : nat) (msg : Message)
    (user_state : gmap string string) : M unit :=
  input_type ← getitem user_state "input_type";
  bound ← read_script msg input_type;
  script ← from_option mret (raise (UnboundLocalError "script")) bound;
  reply_text env ("📄 Generated Script:" +:+ nl +:+ nl +:+ script);;
  reply_text env "🔊 Generating voiceover...";;
  audio_file_path ←
    generate_voice env script (getenv env "ELEVEN_LABS_API_KEY")
      default_voice_id;
  assign_audio (PStr audio_file_path);;
  open_rb audio_file_path;;
  send env (EvReplyAudio audio_file_path);;
  reply_text env "🎬 Creating avatar video...";;
  video_file_path ←
    generate_avatar_video env fuel audio_file_path
      (getenv env "HEYGEN_API_KEY") (getenv env "AVATAR_ID") 3 10;
  assign_video (PStr video_file_path);;
  open_rb video_file_path;;
  send env (EvReplyVideo video_file_path).

(** The body of [except Exception as e]. *)
Definition except_block (e : exn) : M unit :=
  reply_text env ("⚠️ An error occurred: " +:+ str_exn e).

Definition process_content (fuel : nat) (msg : Message) : M unit :=
  call_handler (
    let user_id := from_user_id msg in
    user_state ← states_get user_id;
    match user_state with
    | None =>
        reply_text env "⚠️ Please start with /start";;
        return_
    | Some user_state =>
        try_finally
          (try_except (try_block fuel msg user_state) except_block)
          (cleanup user_id)
    end).
End bot.
End Bot.

(** ** apify_scraper.py *)

Module ApifyScraper.
Section apify_scraper.
Variable env : Env.

Definition prompts : gmap string string :=
  list_to_map
    [("direct", "Send your full script text (1-2 paragraphs):");
     ("twitter", "Send a Twitter handle (without @), e.g., 'elonmusk':");
     ("voice", "Send a voice message explaining your reel idea:")].

Definition handle_button (user_id : Z) (data : string) : M unit :=
  send env EvAnswer;;
  let input_type := data in
  states_set user_id {[ "input_type" := input_type ]};;
  prompt ← getitem prompts input_type;
  send env (EvEditMessage prompt).

(** [key in d]. *)
Definition has_key (d : gmap string string) (key : string) : bool :=
  bool_decide (is_Some (d !! key)).

(** [not d] for a dictionary. *)
Definition dict_falsy (d : gmap string string) : bool :=
  bool_decide (d = ∅).

(** The second [if] and its [elif] chain, which bind [script]; [None] when
    no branch ran and the name stays unbound. *)
Definition read_script (msg : Message) (user_id : Z)
    (user_state : gmap string string) (input_type : string)
    : M (option string) :=
  if String.eqb input_type "twitter" && has_key user_state "handle"
     && negb (has_key user_state "keyword") then
    keyword ← text_strip msg;
    handle ← getitem user_state "handle";
    states_setitem user_id "keyword" keyword;;
    reply_text env ("Scraping tweets for @" +:+ handle +:+ " with keyword '"
                    +:+ keyword +:+ "'...");;
    tweets ← scrape_twitter_content env handle keyword;
    match tweets with
    | [] =>
        reply_text env "No tweets found.";;
        states_pop user_id;;
        return_
    | _ :: _ =>
        let prompt := String.concat nl (take 5 tweets) in
        script ← generate_gpt_script env prompt;
        mret (Some script)
    end
  else if String.eqb input_type "direct" then
    script ← text_strip msg;
    mret (Some script)
  else if String.eqb input_type "voice" then
    if voice msg then
      send env EvGetFile;;
      temp_path ← named_temporary_file env ".ogg";
      download_to_drive env temp_path;;
      open_rb temp_path;;
      assign_audio (PFile temp_path);;
      transcript ← transcribe env temp_path;
      os_remove temp_path;;
      prompt ← getitem transcript "text";
      reply_text env ("Transcribed Idea:" +:+ nl +:+ prompt);;
      script ← generate_gpt_script env prompt;
      mret (Some script)
    else
      reply_text env "Send a voice message.";;
      return_
  else mret None.

(** The body of the [try] statement. *)
Definition try_block (fuel : nat) (msg : Message)
    (user_state : gmap string string) : M unit :=
  let user_id := from_user_id msg in
  input_type ← getitem user_state "input_type";
  if String.eqb input_type "twitter" && negb (has_key user_state "handle") then
    handle ← text_strip msg;
    states_setitem user_id "handle" handle;;
    reply_text env ("Got handle @" +:+ handle +:+ nl
                    +:+ "Now send a keyword to search:");;
    return_
  else
    bound ← read_script msg user_id user_state input_type;
    script ← from_option mret (raise (UnboundLocalError "script")) bound;
    reply_text env ("Generated Script:" +:+ nl +:+ nl +:+ script);;
    reply_text env "Generating voiceover...";;
    audio_file ←
      generate_voice env script (getenv env "ELEVEN_LABS_API_KEY")
        default_voice_id;
    assign_audio (PStr audio_file);;
    reply_text env "Creating avatar video...";;
    video_file ←
      generate_avatar_video env fuel audio_file
        (getenv env "HEYGEN_API_KEY") (getenv env "AVATAR_ID") 3 10;
    assign_video (PStr video_file);;
    open_rb video_file;;
    send env (EvReplyVideo video_file).

(** The body of [except Exception as e]. *)
Definition except_block (e : exn) : M unit :=
  reply_text env ("Error occurred: " +:+ str_exn e).

Definition process_content (fuel : nat) (msg : Message) : M unit :=
  call_handler (
    let user_id := from_user_id msg in
    found ← states_get user_id;
    let user_state := default ∅ found in
    if dict_falsy user_state then
      reply_text env "Please start with /start";;
      return_
    else
      try_finally
        (try_except (try_block fuel msg user_state) except_block)
        (cleanup user_id)).
End apify_scraper.
End ApifyScraper.

(** ** Vocabulary of the statements *)

(** The number of status queries for [video_id] among the events [evs]. *)
Definition polls (video_id : string) (evs : list event) : nat :=
  count_occ event_eq_dec evs (EvGet (status_url video_id)).

Definition sleeps (seconds : Z) (evs : list event) : nat :=
  count_occ event_eq_dec evs (EvSleep seconds).

(** The remote service answers the status queries made after the history
    [h0], in order, with [answers 0], [answers 1], ... *)
Definition status_answers (env : Env) (video_id : string) (h0 : list event)
    (answers : nat → exn + response) : Prop :=
  ∀ evs, requests_get env (h0 ++ evs) (status_url video_id)
         = answers (polls video_id evs).

(** How [poll_body] reads one answer to a status query. *)
Inductive poll_answer : Type :=
| Transport (e : exn)
| HttpError
| Malformed (e : exn)
| Completed (url : string)
| Failed
| Pending.

Definition classify (a : exn + response) : poll_answer :=
  match a with
  | inl e => Transport e
  | inr r =>
      if negb (status_code r =? 200) then HttpError
      else match json r with
           | None => Malformed (json_error r)
           | Some j =>
               match j !! "data" with
               | None => Malformed (KeyError "data")
               | Some d =>
                   match d !! "status" with
                   | None => Malformed (KeyError "status")
                   | Some st =>
                       if String.eqb st "completed" then
                         match d !! "video_url" with
                         | None => Malformed (KeyError "video_url")
                         | Some url => Completed url
                         end
                       else if String.eqb st "failed" then Failed
                       else Pending
                   end
               end
           end
  end.

(** An HTTP-success answer whose body is [{"data": d}]. *)
Definition ok_response (body : string) (d : gmap string string) : response :=
  {| status_code := 200; resp_text := ""; content := body;
     json := Some {[ "data" := d ]}; json_error := not_json |}.

(** The renderer gets as far as its poll loop: the audio file exists, both
    credentials are set, and the upload and the job submission succeed, the
    latter returning the job id [video_id]. *)
Record reaches_poll (env : Env) (w : World) (audio_path : string)
    (api_key avatar_id : option string) (video_id : string) : Prop := {
  rp_audio : is_Some (files w !! audio_path);
  rp_key : truthy_opt api_key = true;
  rp_avatar : truthy_opt avatar_id = true;
  rp_upload : ∃ r j d, requests_post env (trace w) upload_url = inr r
                       ∧ status_code r = 200 ∧ json r = Some j
                       ∧ j !! "data" = Some d ∧ is_Some (d !! "url");
  rp_submit : ∃ r j d,
      requests_post env (trace w ++ [EvPost upload_url]) generate_url = inr r
      ∧ status_code r = 200 ∧ json r = Some j
      ∧ j !! "data" = Some d ∧ d !! "video_id" = Some video_id
}.

(** *** Concrete environments and worlds *)

Definition pending_answer : exn + response :=
  inr (ok_response "" {[ "status" := "processing" ]}).

Definition failed_answer : exn + response :=
  inr (ok_response "" {[ "status" := "failed" ]}).

Definition completed_answer (url : string) : exn + response :=
  inr (ok_response "" {[ "status" := "completed"; "video_url" := url ]}).

(** All services answer successfully; HeyGen accepts the upload, names the
    job [job] and answers its status queries with [answers]; every other
    URL serves the bytes [VIDEO]. *)
Definition scripted_env (answers : nat → exn + response) : Env := {|
  telegram := λ _, None;
  voice_note := λ _, "OGG";
  mkstemp := λ _, "/tmp/tmpk3x9";
  whisper := λ _, inr {[ "text" := "an idea" ]};
  chat_completion := λ _ _, inr "a script";
  snscrape := λ _ _, inr ["first tweet"; "second tweet"];
  getenv := λ _, Some "secret";
  requests_post := λ _ _,
    inr (ok_response "AUDIO" {[ "url" := "https://files/a.mp3"; "video_id" := "job" ]});
  requests_get := λ h url,
    if String.eqb url (status_url "job") then answers (polls "job" h)
    else inr (ok_response "VIDEO" ∅);
  uuid4_hex := λ _, "0f3a";
  time_time := λ _, 1700000000
|}.

Definition answers_pending_pending_completed (k : nat) : exn + response :=
  match k with
  | 0%nat | 1%nat => pending_answer
  | _ => completed_answer "https://files/v.mp4"
  end.

Definition answers_pending_failed (k : nat) : exn + response :=
  match k with
  | 0%nat => pending_answer
  | _ => failed_answer
  end.

Definition answers_connection_refused (k : nat) : exn + response :=
  inl (RequestException "Connection refused").

Definition answers_bad_gateway (k : nat) : exn + response :=
  inr {| status_code := 502; resp_text := "Bad Gateway"; content := "";
         json := None; json_error := not_json |}.

(** The first status query is answered with a 502, the next ones report
    the job completed. *)
Definition answers_bad_gateway_then_completed (k : nat) : exn + response :=
  match k with
  | 0%nat => answers_bad_gateway 0
  | _ => completed_answer "https://files/v.mp4"
  end.

(** The job is reported [completed] with an empty [video_url], forever. *)
Definition answers_completed_no_url (k : nat) : exn + response :=
  completed_answer "".

(** A world with an audio file on disk and nothing else. *)
Definition audio_world : World := {|
  USER_STATES := ∅;
  files := {[ "output_0f3a.mp3" := "AUDIO" ]};
  trace := [];
  frame := empty_frame
|}.

(** What [generate_avatar_video] does once the job is submitted: steps 3
    and 4. *)
Definition poll_and_download (env : Env) (fuel : nat) (video_id : string)
    (max_retries poll_interval : Z) : M string :=
  video_url ← poll_loop env video_id max_retries poll_interval fuel None 0;
  if negb (truthy_opt video_url) then
    raise (Exception ("Video generation did not complete after "
                      +:+ pretty max_retries +:+ " retries."))
  else
    vid ← get env (default "" video_url);
    h ← history;
    let file_path := "output_video_" +:+ pretty (time_time env h) +:+ ".mp4" in
    write_file file_path (content vid);;
    mret file_path.


(** One reading of "a transport failure during a status query is retried":
    the pass of the loop in which the query raises costs one retry and one
    sleep, and ends normally. *)
Definition transport_failure_retried (env : Env) (video_id : string)
    (poll_interval : Z) (w : World) : Prop :=
  ∀ video_url retries e,
    requests_get env (trace w) (status_url video_id) = inl e →
    poll_body env video_id poll_interval video_url retries w
    = (Normal (video_url, retries + 1),
       log [EvGet (status_url video_id); EvSleep poll_interval] w).

(** HeyGen cannot be reached at all. *)
Definition offline_env : Env := {|
  telegram := λ _, None;
  voice_note := λ _, "OGG";
  mkstemp := λ _, "/tmp/tmpk3x9";
  whisper := λ _, inr {[ "text" := "an idea" ]};
  chat_completion := λ _ _, inr "a script";
  snscrape := λ _ _, inr [];
  getenv := λ _, Some "secret";
  requests_post := λ _ _, inl (RequestException "Connection refused");
  requests_get := λ _ _, inl (RequestException "Connection refused");
  uuid4_hex := λ _, "0f3a";
  time_time := λ _, 1700000000
|}.

(** *** Effects of a block of statements *)

(** Every run of [m] relates the world it starts in to the one it ends in
    by [R], however it ends. *)
Definition steps (R : World → World → Prop) {A} (m : M A) : Prop :=
  ∀ w, R w (m w).2.

(** Partial correctness of [m]: from a world in [P], a normal end with
    value [a] leaves a world in [Q a], and a [return] or an exception one
    in [E]. *)
Definition hoare {A} (P : World → Prop) (m : M A) (Q : A → World → Prop)
    (E : World → Prop) : Prop :=
  ∀ w, P w →
    match m w with
    | (Normal a, w') => Q a w'
    | (Returned, w') | (Raised _, w') => E w'
    | (Diverged, _) => True
    end.

(** The session store is left as it was. *)
Definition same_states (w w' : World) : Prop :=
  USER_STATES w' = USER_STATES w.

(** The session store is changed at most at [user_id]. *)
Definition states_at (user_id : Z) (w w' : World) : Prop :=
  delete user_id (USER_STATES w') = delete user_id (USER_STATES w).

(** [path] ends with the extension [ext]. *)
Definition has_ext (ext path : string) : Prop := ∃ stem, path = stem +:+ ext.

(** Events that neither write nor remove a file. *)
Definition quiet_event (e : event) : Prop :=
  match e with
  | EvWrite _ | EvRemove _ => False
  | _ => True
  end.

(** Events that write no file and remove only temporary voice notes. *)
Definition temp_event (e : event) : Prop :=
  match e with
  | EvWrite _ => False
  | EvRemove path => has_ext ".ogg" path
  | _ => True
  end.

(** Neither the files nor the local variables change, and no file is
    written or removed. *)
Record quiet (w w' : World) : Prop := {
  quiet_files : files w' = files w;
  quiet_frame : frame w' = frame w;
  quiet_trace : ∃ evs, trace w' = trace w ++ evs ∧ Forall quiet_event evs
}.

(** What reading the user's input may do: create, fill and remove
    temporary voice notes, and bind the audio variable to a file object. *)
Record temp_step (w w' : World) : Prop := {
  temp_files : ∀ p, ¬ has_ext ".ogg" p → files w' !! p = files w !! p;
  temp_video : video_var (frame w') = video_var (frame w);
  temp_audio : audio_var (frame w') = audio_var (frame w)
               ∨ ∃ t, audio_var (frame w') = Some (PFile t);
  temp_trace : ∃ evs, trace w' = trace w ++ evs ∧ Forall temp_event evs
}.

(** A call that returns [path] after writing that one file. *)
Record produced (ext : string) (w : World) (path : string) (w' : World) : Prop := {
  produced_ext : has_ext ext path;
  produced_frame : frame w' = frame w;
  produced_trace : ∃ evs, trace w' = trace w ++ evs ++ [EvWrite path]
                          ∧ Forall quiet_event evs;
  produced_file : is_Some (files w' !! path);
  produced_others : ∀ q, q ≠ path → files w' !! q = files w !! q
}.

(** Quiet, and the session store is left as it was. *)
Definition silent (w w' : World) : Prop := same_states w w' ∧ quiet w w'.

(** *** The stages of the pipeline *)

Definition no_path (v : option pyval) : Prop := ∀ p, v ≠ Some (PStr p).

(** Where a [try] block that started with the trace [t0] can be: before
    any artifact was written, ... *)
Definition stage0 (t0 : list event) (w : World) : Prop :=
  (∃ evs, trace w = t0 ++ evs ∧ Forall temp_event evs)
  ∧ video_var (frame w) = None
  ∧ no_path (audio_var (frame w)).

(** ... after the audio artifact [pa] was written, ... *)
Definition written1 (t0 : list event) (pa : string) (w : World) : Prop :=
  has_ext ".mp3" pa
  ∧ (∃ evs1 evs2, trace w = t0 ++ evs1 ++ [EvWrite pa] ++ evs2
                  ∧ Forall temp_event evs1 ∧ Forall quiet_event evs2)
  ∧ is_Some (files w !! pa)
  ∧ video_var (frame w) = None.

(** ... and bound to the audio variable, ... *)
Definition stage1 (t0 : list event) (pa : string) (w : World) : Prop :=
  written1 t0 pa w ∧ audio_var (frame w) = Some (PStr pa).

(** ... after the video artifact [pv] was written as well, ... *)
Definition written2 (t0 : list event) (pa pv : string) (w : World) : Prop :=
  has_ext ".mp3" pa ∧ has_ext ".mp4" pv
  ∧ (∃ evs1 evs2 evs3,
       trace w = t0 ++ evs1 ++ [EvWrite pa] ++ evs2 ++ [EvWrite pv] ++ evs3
       ∧ Forall temp_event evs1 ∧ Forall quiet_event evs2
       ∧ Forall quiet_event evs3)
  ∧ is_Some (files w !! pa) ∧ is_Some (files w !! pv)
  ∧ audio_var (frame w) = Some (PStr pa).

(** ... and bound to the video variable. *)
Definition stage2 (t0 : list event) (pa pv : string) (w : World) : Prop :=
  written2 t0 pa pv w ∧ video_var (frame w) = Some (PStr pv).

(** The worlds in which a [try] block that started with the trace [t0]
    can be left. *)
Definition left_try (t0 : list event) (w : World) : Prop :=
  stage0 t0 w ∨ (∃ pa, stage1 t0 pa w) ∨ (∃ pa pv, stage2 t0 pa pv w).

(** What the handler leaves behind: every file written since the trace
    [t0] is gone again, removed by exactly one call of [os.remove]. *)
Definition cleaned (t0 : list event) (w : World) : Prop :=
  ∃ evs, trace w = t0 ++ evs
    ∧ ∀ p, EvWrite p ∈ evs →
        files w !! p = None
        ∧ count_occ event_eq_dec evs (EvRemove p) = 1%nat.

(** *** Termination *)

(** No run of [m] is cut short by the fuel of a loop. *)
Definition ends {A} (m : M A) : Prop := ∀ w, (m w).1 ≠ Diverged.

(** The render service never reports a job [completed] without saying
    where the video is. *)
Definition names_completed_videos (env : Env) : Prop :=
  ∀ h url, classify (requests_get env h url) ≠ Completed "".

(** *** Conversations *)

Definition hello_msg : Message :=
  {| from_user_id := 7; text := Some "Hello world"; voice := false |}.

Definition handle_msg : Message :=
  {| from_user_id := 7; text := Some "elonmusk"; voice := false |}.

Definition keyword_msg : Message :=
  {| from_user_id := 7; text := Some "ai"; voice := false |}.

(** User 7 has just chosen [input_type] from the menu. *)
Definition chosen (input_type : string) : World := {|
  USER_STATES := {[ 7 := {[ "input_type" := input_type ]} ]};
  files := ∅;
  trace := [];
  frame := empty_frame
|}.

(** Every session in the store has at least one key, as the sessions that
    [handle_button] creates do. *)
Definition sessions_nonempty (w : World) : Prop :=
  ∀ user_id user_state,
    USER_STATES w !! user_id = Some user_state → user_state ≠ ∅.

(** *** More of the renderer and the synthesizer *)

(** The URL [generate_voice] posts to. *)
Definition tts_url (voice_id : string) : string :=
  "https://api.elevenlabs.io/v1/text-to-speech/" +:+ voice_id.

(** The prefix the closing [except] clauses put before [str(e)]. *)
Definition wrapped (e : exn) : exn :=
  Exception ((if is_RequestException e then "Network error: "
              else "Unexpected error: ") +:+ str_exn e).

(** An answer to a status query after which the loop goes on: a
    non-success HTTP status, or a job that is neither completed nor
    failed. *)
Definition retried (a : exn + response) : Prop :=
  classify a = Pending ∨ classify a = HttpError.

(** The events of [n] passes of the poll loop that each end in a sleep. *)
Definition waits (video_id : string) (poll_interval : Z) (n : nat) : list event :=
  concat (replicate n [EvGet (status_url video_id); EvSleep poll_interval]).

(** Every POST is answered with the status [code] and the text [body];
    nothing else is available. *)
Definition rejecting_env (code : Z) (body : string) : Env := {|
  telegram := λ _, None;
  voice_note := λ _, "OGG";
  mkstemp := λ _, "/tmp/tmpk3x9";
  whisper := λ _, inl (ServiceError "unavailable");
  chat_completion := λ _ _, inl (ServiceError "unavailable");
  snscrape := λ _ _, inr [];
  getenv := λ _, Some "secret";
  requests_post := λ _ _,
    inr {| status_code := code; resp_text := body; content := ""; json := None; json_error := not_json |};
  requests_get := λ _ _, inl (RequestException "Connection refused");
  uuid4_hex := λ _, "0f3a";
  time_time := λ _, 1700000000
|}.

(** The job is accepted, and its status comes back as a page of HTML. *)
Definition answers_not_json (k : nat) : exn + response :=
  inr {| status_code := 200; resp_text := "<html>"; content := "<html>";
         json := None; json_error := not_json |}.

(** The job is accepted, and its status comes back without a [status]
    entry. *)
Definition answers_no_status (k : nat) : exn + response :=
  inr (ok_response "" {[ "progress" := "40" ]}).

(** The upload is accepted, every other POST is answered with a 500. *)
Definition submit_rejecting_env : Env := {|
  telegram := λ _, None;
  voice_note := λ _, "OGG";
  mkstemp := λ _, "/tmp/tmpk3x9";
  whisper := λ _, inl (ServiceError "unavailable");
  chat_completion := λ _ _, inl (ServiceError "unavailable");
  snscrape := λ _ _, inr [];
  getenv := λ _, Some "secret";
  requests_post := λ _ url,
    if String.eqb url upload_url
    then inr (ok_response "" {[ "url" := "https://files/a.mp3" ]})
    else inr {| status_code := 500; resp_text := "Internal Server Error";
                content := ""; json := None; json_error := not_json |};
  requests_get := λ _ _, inl (RequestException "Connection refused");
  uuid4_hex := λ _, "0f3a";
  time_time := λ _, 1700000000
|}.

(** The job is pending for the first four queries and completed at the
    fifth. *)
Definition answers_completed_at_fifth (k : nat) : exn + response :=
  if (k <? 4)%nat then pending_answer
  else completed_answer "https://files/v.mp4".

(** *** The menu *)

(** The buttons that [start] puts under its welcome message, in both
    files: label and [callback_data], one button per row. *)
Definition keyboard : list (string * string) :=
  [("📝 Direct Script", "direct");
   ("🐦 Twitter Handle", "twitter");
   ("🎤 Voice Idea", "voice")].

(** What both [handle_button] functions do, given their table of
    prompts. *)
Definition button_outcome (env : Env) (prompts : gmap string string)
    (user_id : Z) (data : string) (w : World) : outcome () * World :=
  match telegram env (trace w) with
  | Some ex => (Raised ex, log [EvAnswer] w)
  | None =>
      let w1 :=
        set_states (<[user_id := {[ "input_type" := data ]}]> (USER_STATES w))
          (log [EvAnswer] w) in
      match prompts !! data with
      | None => (Raised (KeyError data), w1)
      | Some prompt =>
          (match telegram env (trace w ++ [EvAnswer]) with
           | Some ex => Raised ex
           | None => Normal ()
           end, log [EvEditMessage prompt] w1)
      end
  end.

Definition is_remove (e : event) : Prop := ∃ path, e = EvRemove path.

(** Telegram always delivers. *)
Definition telegram_up (env : Env) : Prop := ∀ h, telegram env h = None.

(** Two users in the middle of a conversation. *)
Definition two_sessions : World :=
  {| USER_STATES :=
       {[ 7 := {[ "input_type" := "twitter"; "handle" := "elonmusk" ]};
          8 := {[ "input_type" := "voice" ]} ]};
     files := ∅; trace := []; frame := empty_frame |}.

(** A text message of user 7 that holds a no-break space (U+00A0) and a
    space. *)
Definition blank_msg : Message :=
  {| from_user_id := 7;
     text := Some (String (ascii_of_nat 194) (String (ascii_of_nat 160) " "));
     voice := false |}.

(** A voice message of user 7. *)
Definition voice_msg : Message :=
  {| from_user_id := 7; text := None; voice := true |}.

(** What a handler leaves behind when it begins in [w] and neither the
    service calls nor the files it wrote are of interest: it ended
    normally, having added [evs] to the trace, with the files as they were
    and the sender's session gone. *)
Definition answered (r : outcome () * World) (w : World) (user_id : Z)
    (evs : list event) : Prop :=
  r.1 = Normal ()
  ∧ trace r.2 = trace w ++ evs
  ∧ files r.2 = files w
  ∧ USER_STATES r.2 = delete user_id (USER_STATES w).

(** No variable of the environment is set. *)
Definition keyless_env : Env := {|
  telegram := λ _, None;
  voice_note := λ _, "OGG";
  mkstemp := λ _, "/tmp/tmpk3x9";
  whisper := λ _, inr {[ "text" := "an idea" ]};
  chat_completion := λ _ _, inr "a script";
  snscrape := λ _ _, inr [];
  getenv := λ _, None;
  requests_post := λ _ _, inl (RequestException "Connection refused");
  requests_get := λ _ _, inl (RequestException "Connection refused");
  uuid4_hex := λ _, "0f3a";
  time_time := λ _, 1700000000
|}.

(** The [ValueError] of [generate_voice] for a text and a key of which one
    at least is unusable: the text is looked at first. *)
Definition rejection (text : string) : string :=
  if truthy (strip text) then "ElevenLabs API key is required."
  else "Text cannot be empty.".

(** * Proofs *)

(** ** Running the monad *)

Lemma log_log evs1 evs2 w : log evs2 (log evs1 w) = log (evs1 ++ evs2) w.
Proof. unfold log; simpl. by rewrite <- (assoc_L (++)). Qed.

Lemma log_nil w : log [] w = w.
Proof. destruct w; unfold log; simpl. by rewrite app_nil_r. Qed.

Lemma bind_normal {A B} (m : M A) (f : A → M B) w a w' :
  m w = (Normal a, w') → (m ≫= f) w = f a w'.
Proof. intros H. unfold mbind, M_bind. by rewrite H. Qed.

Lemma bind_raised {A B} (m : M A) (f : A → M B) w e w' :
  m w = (Raised e, w') → (m ≫= f) w = (Raised e, w').
Proof. intros H. unfold mbind, M_bind. by rewrite H. Qed.

Lemma bind_diverged {A B} (m : M A) (f : A → M B) w w' :
  m w = (Diverged, w') → (m ≫= f) w = (Diverged, w').
Proof. intros H. unfold mbind, M_bind. by rewrite H. Qed.

Lemma bind_run {A B} (m : M A) (f : A → M B) w :
  (m ≫= f) w =
  match m w with
  | (Normal a, w') => f a w'
  | (Returned, w') => (Returned, w')
  | (Raised e, w') => (Raised e, w')
  | (Diverged, w') => (Diverged, w')
  end.
Proof. reflexivity. Qed.

Lemma ret_run {A} (a : A) w : (mret a : M A) w = (Normal a, w).
Proof. reflexivity. Qed.

Lemma getitem_run {V} (d : gmap string V) key v w :
  d !! key = Some v → getitem d key w = (Normal v, w).
Proof. intros H. unfold getitem. by rewrite H. Qed.

Lemma open_rb_run path data w :
  files w !! path = Some data → open_rb path w = (Normal data, w).
Proof. intros H. unfold open_rb. by rewrite H. Qed.

Lemma wrap_errors_ext {A} (m1 m2 : M A) w1 w2 :
  m1 w1 = m2 w2 → wrap_errors m1 w1 = wrap_errors m2 w2.
Proof. unfold wrap_errors, try_except. by intros ->. Qed.

Lemma get_run env url w :
  get env url w =
  (match requests_get env (trace w) url with
   | inl e => Raised e
   | inr r => Normal r
   end, log [EvGet url] w).
Proof.
  unfold get, history, emit, of_sum, mbind, M_bind; simpl.
  by destruct (requests_get env (trace w) url).
Qed.

Lemma post_run env url w :
  post env url w =
  (match requests_post env (trace w) url with
   | inl e => Raised e
   | inr r => Normal r
   end, log [EvPost url] w).
Proof.
  unfold post, history, emit, of_sum, mbind, M_bind; simpl.
  by destruct (requests_post env (trace w) url).
Qed.

(** ** Sleeping *)

(** [time.sleep] returns for the times it accepts, and raises without
    having slept for the others. *)
Lemma sleep_run seconds w :
  0 ≤ seconds ≤ sleep_max → sleep seconds w = (Normal (), log [EvSleep seconds] w).
Proof.
  intros [H0 Hmax]. unfold sleep.
  rewrite (proj2 (Z.ltb_ge _ _)) by (unfold sleep_max in *; lia).
  rewrite (proj2 (Z.ltb_ge _ _) Hmax), (proj2 (Z.ltb_ge _ _) H0).
  reflexivity.
Qed.

Lemma sleep_cases seconds w :
  (0 ≤ seconds ≤ sleep_max ∧ sleep seconds w = (Normal (), log [EvSleep seconds] w))
  ∨ (¬ 0 ≤ seconds ≤ sleep_max ∧ ∃ e, sleep seconds w = (Raised e, w)).
Proof.
  destruct (decide (0 ≤ seconds ≤ sleep_max)) as [H|H].
  - left. split; [done|]. by apply sleep_run.
  - right. split; [done|]. unfold sleep.
    destruct ((seconds <? - sleep_max) || (sleep_max <? seconds)) eqn:Hbig;
      [by eexists|].
    apply orb_false_iff in Hbig as [_ Hmax%Z.ltb_ge].
    destruct (seconds <? 0) eqn:Hneg; [by eexists|].
    apply Z.ltb_ge in Hneg. lia.
Qed.

Lemma sleep_10 : 0 ≤ 10 ≤ sleep_max.
Proof. unfold sleep_max. lia. Qed.

(** ** The poll loop of the renderer *)

Section poll_facts.
Context (env : Env) (video_id : string) (max_retries poll_interval : Z).

Local Abbreviation query := (EvGet (status_url video_id)).

(** One pass of the loop, by the kind of answer the status query gets. *)
Lemma poll_body_cases video_url retries w :
  poll_body env video_id poll_interval video_url retries w =
  match classify (requests_get env (trace w) (status_url video_id))
        return (outcome (option string * Z) * World)%type with
  | Transport e | Malformed e => (Raised e, log [query] w)
  | HttpError | Pending =>
      (sleep poll_interval;; mret (video_url, retries + 1)) (log [query] w)
  | Completed url => (Normal (Some url, retries), log [query] w)
  | Failed => (Raised (Exception "Video generation failed."), log [query] w)
  end.
Proof.
  unfold poll_body. rewrite bind_run, get_run.
  unfold classify.
  destruct (requests_get env (trace w) (status_url video_id)) as [e|r]; [done|].
  destruct (negb (status_code r =? 200)) eqn:Hcode; [done|].
  unfold json_data, getitem. rewrite bind_run.
  destruct (json r) as [j|]; [|done].
  destruct (j !! "data") as [d|]; [|done].
  rewrite ret_run, bind_run.
  destruct (d !! "status") as [st|]; [|done].
  rewrite ret_run.
  destruct (String.eqb st "completed").
  { rewrite bind_run. by destruct (d !! "video_url"). }
  by destruct (String.eqb st "failed").
Qed.

(** A pass that waits, when the interval is one [time.sleep] accepts. *)
Lemma retry_run (video_url : option string) retries w :
  0 ≤ poll_interval ≤ sleep_max →
  (sleep poll_interval;; mret (video_url, retries + 1)) (log [query] w)
  = (Normal (video_url, retries + 1), log [query; EvSleep poll_interval] w).
Proof. intros H. by rewrite bind_run, sleep_run, ret_run, log_log. Qed.

Lemma poll_body_run video_url retries w :
  0 ≤ poll_interval ≤ sleep_max →
  poll_body env video_id poll_interval video_url retries w =
  match classify (requests_get env (trace w) (status_url video_id)) with
  | Transport e | Malformed e => (Raised e, log [query] w)
  | HttpError | Pending =>
      (Normal (video_url, retries + 1), log [query; EvSleep poll_interval] w)
  | Completed url => (Normal (Some url, retries), log [query] w)
  | Failed => (Raised (Exception "Video generation failed."), log [query] w)
  end.
Proof.
  intros H. rewrite poll_body_cases.
  destruct (classify _); try done; by apply retry_run.
Qed.

Lemma poll_loop_unfold fuel video_url retries :
  poll_loop env video_id max_retries poll_interval fuel video_url retries =
  if negb (truthy_opt video_url) && (retries <? max_retries) then
    match fuel with
    | O => diverge
    | S fuel' =>
        st ← poll_body env video_id poll_interval video_url retries;
        poll_loop env video_id max_retries poll_interval fuel' (fst st) (snd st)
    end
  else mret video_url.
Proof. by destruct fuel. Qed.

Lemma polls_app evs1 evs2 :
  polls video_id (evs1 ++ evs2) = (polls video_id evs1 + polls video_id evs2)%nat.
Proof. apply count_occ_app. Qed.

Lemma polls_query : polls video_id [query] = 1%nat.
Proof. unfold polls. by rewrite count_occ_cons_eq. Qed.

Lemma polls_query_sleep : polls video_id [query; EvSleep poll_interval] = 1%nat.
Proof.
  unfold polls. rewrite count_occ_cons_eq by done. by rewrite count_occ_cons_neq.
Qed.

End poll_facts.


(** ** The renderer up to its poll loop *)

Section render_facts.
Context (env : Env).

Lemma render_run fuel w audio_path api_key avatar_id video_id max_retries poll_interval :
  reaches_poll env w audio_path api_key avatar_id video_id →
  generate_avatar_video env fuel audio_path api_key avatar_id max_retries poll_interval w
  = wrap_errors (poll_and_download env fuel video_id max_retries poll_interval)
      (log [EvPost upload_url; EvPost generate_url] w).
Proof.
  intros [[data Haudio] Hkey Havatar (r1 & j1 & d1 & Hup & Hc1 & Hj1 & Hd1 & [url Hurl])
          (r2 & j2 & d2 & Hsub & Hc2 & Hj2 & Hd2 & Hvid)].
  unfold generate_avatar_video.
  rewrite bind_run. unfold os_path_exists. rewrite Haudio.
  rewrite bool_decide_eq_true_2 by eauto. rewrite Hkey, Havatar.
  change (negb true) with false; cbv iota.
  apply wrap_errors_ext.
  rewrite bind_run, (open_rb_run _ _ _ Haudio).
  rewrite bind_run, post_run, Hup, Hc1, Z.eqb_refl. change (negb true) with false; cbv iota.
  unfold json_data. rewrite Hj1.
  rewrite bind_run, (getitem_run _ _ _ _ Hd1).
  rewrite bind_run, (getitem_run _ _ _ _ Hurl).
  rewrite bind_run, post_run. simpl trace. rewrite Hsub, Hc2, Z.eqb_refl. change (negb true) with false; cbv iota.
  rewrite Hj2.
  rewrite bind_run, (getitem_run _ _ _ _ Hd2).
  rewrite bind_run, (getitem_run _ _ _ _ Hvid).
  rewrite log_log. reflexivity.
Qed.

End render_facts.


Section scenarios.
Context (env : Env) (video_id : string) (poll_interval : Z).
Context (Hsleep : 0 ≤ poll_interval ≤ sleep_max).

Local Abbreviation query := (EvGet (status_url video_id)).
Local Abbreviation submitted := [EvPost upload_url; EvPost generate_url].

Lemma polls_cons_query evs : polls video_id (query :: evs) = S (polls video_id evs).
Proof. unfold polls. by rewrite count_occ_cons_eq. Qed.

Lemma polls_cons_other e evs :
  e ≠ query → polls video_id (e :: evs) = polls video_id evs.
Proof. intros. unfold polls. by rewrite count_occ_cons_neq. Qed.

(** A pass that gets a pending answer or an HTTP error costs one retry and
    one sleep, and the loop goes on. *)
Lemma poll_loop_retry max_retries fuel video_url retries w :
  truthy_opt video_url = false → retries < max_retries →
  classify (requests_get env (trace w) (status_url video_id)) = Pending
  ∨ classify (requests_get env (trace w) (status_url video_id)) = HttpError →
  poll_loop env video_id max_retries poll_interval (S fuel) video_url retries w
  = poll_loop env video_id max_retries poll_interval fuel video_url (retries + 1)
      (log [query; EvSleep poll_interval] w).
Proof.
  intros Hurl Hlt Hans. rewrite poll_loop_unfold, Hurl.
  rewrite (proj2 (Z.ltb_lt _ _) Hlt).
  change (negb false && true) with true; cbv iota.
  rewrite bind_run, poll_body_run by done.
  by destruct Hans as [-> | ->].
Qed.

Lemma poll_loop_exit max_retries fuel video_url retries w :
  truthy_opt video_url = true ∨ max_retries ≤ retries →
  poll_loop env video_id max_retries poll_interval fuel video_url retries w
  = (Normal video_url, w).
Proof.
  intros H. rewrite poll_loop_unfold.
  destruct H as [-> | H]; [done|].
  rewrite (proj2 (Z.ltb_ge _ _) H). by rewrite andb_false_r.
Qed.

Lemma poll_loop_completed max_retries fuel video_url retries url w :
  truthy_opt video_url = false → retries < max_retries →
  classify (requests_get env (trace w) (status_url video_id)) = Completed url →
  poll_loop env video_id max_retries poll_interval (S fuel) video_url retries w
  = poll_loop env video_id max_retries poll_interval fuel (Some url) retries
      (log [query] w).
Proof.
  intros Hurl Hlt Hans. rewrite poll_loop_unfold, Hurl.
  rewrite (proj2 (Z.ltb_lt _ _) Hlt).
  change (negb false && true) with true; cbv iota.
  by rewrite bind_run, poll_body_cases, Hans.
Qed.

Lemma poll_loop_raises max_retries fuel video_url retries w :
  truthy_opt video_url = false → retries < max_retries →
  poll_loop env video_id max_retries poll_interval (S fuel) video_url retries w
  = match classify (requests_get env (trace w) (status_url video_id)) with
    | Transport e | Malformed e => (Raised e, log [query] w)
    | Failed => (Raised (Exception "Video generation failed."), log [query] w)
    | _ => poll_loop env video_id max_retries poll_interval (S fuel) video_url retries w
    end.
Proof.
  intros Hurl Hlt.
  destruct (classify _) eqn:Hans; try reflexivity;
    rewrite poll_loop_unfold, Hurl, (proj2 (Z.ltb_lt _ _) Hlt);
    change (negb false && true) with true; cbv iota;
    by rewrite bind_run, poll_body_cases, Hans.
Qed.

Lemma answer_at w0 answers evs :
  status_answers env video_id (trace w0) answers →
  requests_get env (trace (log evs w0)) (status_url video_id)
  = answers (polls video_id evs).
Proof. intros H. apply H. Qed.

Lemma sleeps_cons_sleep evs :
  sleeps poll_interval (EvSleep poll_interval :: evs) = S (sleeps poll_interval evs).
Proof. unfold sleeps. by rewrite count_occ_cons_eq. Qed.

Lemma sleeps_cons_other e evs :
  e ≠ EvSleep poll_interval → sleeps poll_interval (e :: evs) = sleeps poll_interval evs.
Proof. intros. unfold sleeps. by rewrite count_occ_cons_neq. Qed.

End scenarios.

Ltac count_events :=
  repeat first
    [ rewrite polls_cons_query
    | rewrite polls_cons_other by discriminate
    | rewrite sleeps_cons_sleep
    | rewrite sleeps_cons_other by discriminate ];
  try reflexivity.




Section budget.
Context (env : Env) (video_id : string) (max_retries poll_interval : Z).
Context (w0 : World) (answers : nat → exn + response).
Hypothesis Hanswers : status_answers env video_id (trace w0) answers.

Local Abbreviation query := (EvGet (status_url video_id)).

(** When no answer is ever terminal, the loop spends its whole budget: it
    makes [max_retries - retries] queries, sleeps after each, and ends
    without a video URL. *)
Lemma poll_loop_spends_budget n fuel retries evs :
  0 ≤ poll_interval ≤ sleep_max →
  (∀ k, classify (answers k) = Pending ∨ classify (answers k) = HttpError) →
  retries + Z.of_nat n = max_retries →
  (n ≤ fuel)%nat →
  poll_loop env video_id max_retries poll_interval fuel None retries (log evs w0)
  = (Normal None,
     log (evs ++ concat (replicate n [query; EvSleep poll_interval])) w0).
Proof.
  intros Hsleep Hpend. revert fuel retries evs.
  induction n as [|n IH]; intros fuel retries evs Hsum Hfuel.
  - rewrite poll_loop_exit by (right; lia). simpl. by rewrite app_nil_r.
  - destruct fuel as [|fuel]; [lia|].
    rewrite (poll_loop_retry _ _ _ Hsleep); [|done|lia|].
    2:{ rewrite (answer_at _ _ _ answers) by done. apply Hpend. }
    rewrite log_log, IH by lia. simpl. by rewrite <- (assoc_L (++)).
Qed.

(** As long as a [completed] answer always carries a non-empty URL, no run
    of the loop makes more queries than its budget allows, and fuel equal to
    the budget is enough for it to end. *)
Lemma poll_loop_bounded fuel video_url retries evs :
  (∀ k, classify (answers k) ≠ Completed "") →
  ∃ evs',
    (poll_loop env video_id max_retries poll_interval fuel video_url retries
       (log evs w0)).2 = log (evs ++ evs') w0
    ∧ (polls video_id evs' ≤ Z.to_nat (max_retries - retries))%nat
    ∧ ((Z.to_nat (max_retries - retries) ≤ fuel)%nat →
       (poll_loop env video_id max_retries poll_interval fuel video_url retries
          (log evs w0)).1 ≠ Diverged).
Proof.
  intros Hgood. revert video_url retries evs.
  induction fuel as [|fuel IH]; intros video_url retries evs.
  - rewrite poll_loop_unfold.
    destruct (negb (truthy_opt video_url) && (retries <? max_retries)) eqn:Hc.
    + exists []. rewrite app_nil_r. split; [done|]. split; [cbn; lia|].
      apply andb_true_iff in Hc as [_ Hc%Z.ltb_lt]. lia.
    + exists []. rewrite app_nil_r. split; [done|]. split; [cbn; lia|done].
  - rewrite poll_loop_unfold.
    destruct (negb (truthy_opt video_url) && (retries <? max_retries)) eqn:Hc.
    2:{ exists []. rewrite app_nil_r. split; [done|]. split; [cbn; lia|done]. }
    apply andb_true_iff in Hc as [Hurl Hlt%Z.ltb_lt].
    set (retry := (sleep poll_interval;; mret (video_url, retries + 1))
                  ≫= λ st, poll_loop env video_id max_retries poll_interval fuel
                             st.1 st.2).
    assert (∃ evs',
      (retry (log [query] (log evs w0))).2 = log (evs ++ evs') w0
      ∧ (polls video_id evs' ≤ Z.to_nat (max_retries - retries))%nat
      ∧ ((Z.to_nat (max_retries - retries) ≤ S fuel)%nat →
         (retry (log [query] (log evs w0))).1 ≠ Diverged)) as Hretry.
    { subst retry. rewrite bind_run.
      destruct (sleep_cases poll_interval (log [query] (log evs w0)))
        as [[Hs Hrun]|[Hs [e Hrun]]].
      - rewrite bind_run, Hrun, ret_run, !log_log. cbn [fst snd].
        change ([query] ++ [EvSleep poll_interval])
          with [query; EvSleep poll_interval].
        destruct (IH video_url (retries + 1) (evs ++ [query; EvSleep poll_interval]))
          as (evs' & Hw & Hn & Hd).
        exists ([query; EvSleep poll_interval] ++ evs').
        rewrite (assoc_L (++) evs). split; [done|]. split.
        + rewrite polls_app, polls_query_sleep. lia.
        + intros. apply Hd. lia.
      - rewrite bind_run, Hrun, log_log. cbn [fst snd].
        exists [query]. split; [done|].
        split; [rewrite polls_query; lia|done]. }
    rewrite bind_run, poll_body_cases.
    rewrite (answer_at _ _ _ answers) by done.
    specialize (Hgood (polls video_id evs)).
    destruct (classify (answers (polls video_id evs))) as [e| |e|url| |] eqn:Hk.
    + exists [query]. rewrite log_log. split; [done|].
      split; [rewrite polls_query; lia|done].
    + exact Hretry.
    + exists [query]. rewrite log_log. split; [done|].
      split; [rewrite polls_query; lia|done].
    + rewrite log_log. simpl fst. simpl snd.
      rewrite poll_loop_exit.
      2:{ left. destruct url; [congruence|done]. }
      exists [query]. split; [done|]. split; [rewrite polls_query; lia|done].
    + exists [query]. rewrite log_log. split; [done|].
      split; [rewrite polls_query; lia|done].
    + exact Hretry.
Qed.

(** But a [completed] answer with an empty URL costs no retry and ends
    nothing: the loop queries again at once, for as long as it is run. *)
Lemma poll_loop_spins fuel video_url retries evs :
  (∀ k, classify (answers k) = Completed "") →
  truthy_opt video_url = false → retries < max_retries →
  poll_loop env video_id max_retries poll_interval fuel video_url retries (log evs w0)
  = (Diverged, log (evs ++ replicate fuel query) w0).
Proof.
  intros Hspin. revert video_url evs.
  induction fuel as [|fuel IH]; intros video_url evs Hurl Hlt.
  - rewrite poll_loop_unfold, Hurl, (proj2 (Z.ltb_lt _ _) Hlt). simpl.
    by rewrite app_nil_r.
  - rewrite (poll_loop_completed _ _ _ _ _ _ _ "") by
      (done || rewrite (answer_at _ _ _ answers) by done; apply Hspin).
    rewrite log_log, IH by done. simpl. by rewrite <- (assoc_L (++)).
Qed.

End budget.


Section more_polling.
Context (env : Env) (video_id : string) (max_retries poll_interval : Z).
Context (w0 : World) (answers : nat → exn + response).
Hypothesis Hanswers : status_answers env video_id (trace w0) answers.

Local Abbreviation query := (EvGet (status_url video_id)).

Lemma polls_waits n : polls video_id (waits video_id poll_interval n) = n.
Proof.
  induction n as [|n IH]; [done|]. unfold waits in *. cbn [replicate concat].
  by rewrite polls_app, polls_query_sleep, IH.
Qed.

Lemma sleeps_waits n : sleeps poll_interval (waits video_id poll_interval n) = n.
Proof.
  induction n as [|n IH]; [done|]. unfold waits in *. cbn [replicate concat].
  unfold sleeps in *. rewrite count_occ_app, IH.
  rewrite count_occ_cons_neq by done. by rewrite count_occ_cons_eq.
Qed.

(** [k] passes that are retried and one that finds the job completed. *)
Lemma poll_loop_completes url k fuel retries evs :
  0 ≤ poll_interval ≤ sleep_max →
  (∀ i, (i < k)%nat → retried (answers (polls video_id evs + i))) →
  classify (answers (polls video_id evs + k)) = Completed url →
  truthy url = true →
  retries + Z.of_nat k < max_retries →
  (k < fuel)%nat →
  poll_loop env video_id max_retries poll_interval fuel None retries (log evs w0)
  = (Normal (Some url),
     log (evs ++ waits video_id poll_interval k ++ [query]) w0).
Proof.
  intros Hsleep. revert fuel retries evs.
  induction k as [|k IH]; intros fuel retries evs Hretry Hdone Hurl Hlt Hfuel;
    (destruct fuel as [|fuel]; [lia|]).
  - rewrite (poll_loop_completed _ _ _ _ _ _ _ url); [|done|lia|].
    2:{ rewrite (answer_at _ _ _ answers) by done. by rewrite Nat.add_0_r in Hdone. }
    rewrite log_log. apply poll_loop_exit. by left.
  - rewrite (poll_loop_retry _ _ _ Hsleep); [|done|lia|].
    2:{ rewrite (answer_at _ _ _ answers) by done.
        specialize (Hretry 0%nat). rewrite Nat.add_0_r in Hretry.
        apply Hretry. lia. }
    rewrite log_log.
    assert (polls video_id (evs ++ [query; EvSleep poll_interval])
            = S (polls video_id evs)) as Hpolls.
    { rewrite polls_app, polls_query_sleep. lia. }
    rewrite (IH fuel (retries + 1)); [| | |done|lia|lia]; cycle 1.
    { intros i Hi. rewrite Hpolls.
      replace (S (polls video_id evs) + i)%nat
        with (polls video_id evs + S i)%nat by lia.
      apply Hretry. lia. }
    + rewrite Hpolls.
      by replace (S (polls video_id evs) + k)%nat
        with (polls video_id evs + S k)%nat by lia.
    + f_equal. unfold waits. cbn [replicate concat].
      by rewrite <- !(assoc_L (++)).
Qed.

End more_polling.

Lemma write_file_run path data w :
  (write_file path data;; mret path) w
  = (Normal path, log [EvWrite path] (set_files (<[path := data]> (files w)) w)).
Proof. reflexivity. Qed.

(** The renderer when the job is found completed at query number [k + 1],
    after [k] answers that were retried. *)
Lemma render_completes env w audio_path api_key avatar_id video_id poll_interval
    max_retries answers url video k fuel :
  reaches_poll env w audio_path api_key avatar_id video_id →
  status_answers env video_id (trace w) answers →
  (∀ i, (i < k)%nat → retried (answers i)) →
  classify (answers k) = Completed url →
  truthy url = true →
  (∀ h, requests_get env h url = inr video) →
  0 ≤ poll_interval ≤ sleep_max →
  Z.of_nat k < max_retries →
  (k < fuel)%nat →
  ∃ file_path w',
    generate_avatar_video env fuel audio_path api_key avatar_id max_retries
      poll_interval w = (Normal file_path, w')
    ∧ has_ext ".mp4" file_path
    ∧ trace w' = trace w ++ [EvPost upload_url; EvPost generate_url]
                 ++ waits video_id poll_interval k
                 ++ [EvGet (status_url video_id); EvGet url; EvWrite file_path]
    ∧ files w' !! file_path = Some (content video)
    ∧ (∀ path, path ≠ file_path → files w' !! path = files w !! path).
Proof.
  intros Hreach Hans Hretry Hdone Hurl Hget Hsleep Hlt Hfuel.
  rewrite (render_run _ _ _ _ _ _ video_id) by done.
  unfold wrap_errors, try_except, poll_and_download.
  rewrite bind_run.
  rewrite (poll_loop_completes env video_id max_retries poll_interval w answers
             Hans url k); [|done|by cbn| |done|lia|done].
  2:{ replace (polls video_id [EvPost upload_url; EvPost generate_url] + k)%nat
        with k; [done|].
      by do 2 rewrite polls_cons_other by discriminate. }
  change (truthy_opt (Some url)) with (truthy url). rewrite Hurl.
  change (negb true) with false; cbv iota.
  rewrite bind_run, get_run. change (default "" (Some url)) with url.
  rewrite Hget. cbv beta iota.
  rewrite bind_run. unfold history at 1. cbv beta iota zeta.
  rewrite write_file_run.
  eexists _, _. split; [reflexivity|]. split.
  { eexists ("output_video_" +:+ pretty (time_time env _)). reflexivity. }
  split; [cbn [trace log set_files]; by rewrite <- !(assoc_L (++))|].
  split; [apply lookup_insert_eq|].
  intros path Hne. cbn. by rewrite lookup_insert_ne.
Qed.

(** ** The scripted environment *)

Lemma scripted_reaches_poll answers api_key avatar_id :
  truthy_opt api_key = true → truthy_opt avatar_id = true →
  reaches_poll (scripted_env answers) audio_world "output_0f3a.mp3"
    api_key avatar_id "job".
Proof.
  intros Hkey Havatar. split; [by eexists|done|done|..].
  - eexists _, _, _. repeat split; [reflexivity..|]. by eexists.
  - eexists _, _, _. repeat split; reflexivity.
Qed.

Lemma scripted_status_answers answers :
  status_answers (scripted_env answers) "job" (trace audio_world) answers.
Proof.
  intros evs. unfold scripted_env. cbn [requests_get].
  by rewrite String.eqb_refl.
Qed.

Lemma polls_replicate video_id n :
  polls video_id (replicate n (EvGet (status_url video_id))) = n.
Proof.
  induction n as [|n IH]; [done|].
  cbn [replicate]. by rewrite polls_cons_query, IH.
Qed.

Lemma sleeps_replicate_query seconds url n :
  sleeps seconds (replicate n (EvGet url)) = 0%nat.
Proof.
  induction n as [|n IH]; [done|].
  cbn [replicate]. by rewrite sleeps_cons_other.
Qed.

(** C5, at the input where it fails.  With [max_retries = 2] and a job that
    is reported [completed] with an empty [video_url], the call never ends:
    run for [fuel] passes of the loop it has made [fuel] status queries,
    more than two as soon as [fuel] is, without a single sleep. *)
Theorem poll_budget_exceeded fuel :
  let r := generate_avatar_video (scripted_env answers_completed_no_url) fuel
             "output_0f3a.mp3" (Some "secret") (Some "avatar") 2 10 audio_world in
  r.1 = Diverged
  ∧ polls "job" (trace r.2) = fuel
  ∧ sleeps 10 (trace r.2) = 0%nat.
Proof.
  rewrite (render_run _ _ _ _ _ _ "job") by (by apply scripted_reaches_poll).
  unfold wrap_errors, try_except, poll_and_download.
  rewrite bind_run.
  rewrite (poll_loop_spins _ _ _ _ _ answers_completed_no_url);
    [|apply scripted_status_answers|done|done|lia].
  cbn [fst snd trace log audio_world]. rewrite app_nil_l.
  split; [done|]. split.
  - rewrite polls_app. do 2 rewrite polls_cons_other by discriminate.
    apply polls_replicate.
  - unfold sleeps. rewrite count_occ_app.
    do 2 rewrite count_occ_cons_neq by discriminate.
    apply sleeps_replicate_query.
Qed.

(** The half of C5 that holds: with a budget of [max_retries] and answers
    that are never terminal, the call makes exactly [max_retries] status
    queries, sleeps after each, and raises the timeout failure. *)
Lemma render_times_out env w audio_path api_key avatar_id video_id
    poll_interval answers (max_retries : nat) fuel :
  reaches_poll env w audio_path api_key avatar_id video_id →
  status_answers env video_id (trace w) answers →
  (∀ k, classify (answers k) = Pending ∨ classify (answers k) = HttpError) →
  0 ≤ poll_interval ≤ sleep_max →
  (max_retries ≤ fuel)%nat →
  let polled :=
    concat (replicate max_retries [EvGet (status_url video_id); EvSleep poll_interval]) in
  generate_avatar_video env fuel audio_path api_key avatar_id
    (Z.of_nat max_retries) poll_interval w
  = (Raised (Exception ("Unexpected error: Video generation did not complete after "
                        +:+ pretty (Z.of_nat max_retries) +:+ " retries.")),
     log ([EvPost upload_url; EvPost generate_url] ++ polled) w)
  ∧ polls video_id polled = max_retries.
Proof.
  intros Hreach Hans Hpend Hsleep Hfuel polled. split.
  - rewrite (render_run _ _ _ _ _ _ video_id) by done.
    unfold wrap_errors, try_except, poll_and_download.
    rewrite bind_run.
    rewrite (poll_loop_spends_budget env video_id (Z.of_nat max_retries)
               poll_interval w answers Hans max_retries) by (done || lia).
    reflexivity.
  - subst polled. induction max_retries as [|n IH]; [done|].
    cbn [replicate concat]. rewrite polls_app, polls_query_sleep, IH; lia.
Qed.

Example render_times_out_after_two :
  generate_avatar_video (scripted_env (λ _, pending_answer)) 2
    "output_0f3a.mp3" (Some "secret") (Some "avatar") 2 10 audio_world
  = (Raised (Exception "Unexpected error: Video generation did not complete after 2 retries."),
     log [EvPost upload_url; EvPost generate_url;
          EvGet (status_url "job"); EvSleep 10;
          EvGet (status_url "job"); EvSleep 10] audio_world).
Proof.
  apply (render_times_out (scripted_env (λ _, pending_answer)) audio_world
           "output_0f3a.mp3" (Some "secret") (Some "avatar") "job" 10
           (λ _, pending_answer) 2 2).
  - by apply scripted_reaches_poll.
  - apply scripted_status_answers.
  - intros _. by left.
  - apply sleep_10.
  - lia.
Qed.





(** C7.  When the text is empty (or only white space) or the API key is
    missing or empty, [generate_voice] raises a [ValueError] and leaves the
    world as it found it: no request was sent and no file written. *)
Theorem generate_voice_validates_first env text eleven_api_key voice_id w :
  truthy (strip text) = false ∨ truthy_opt eleven_api_key = false →
  ∃ msg,
    generate_voice env text eleven_api_key voice_id w = (Raised (ValueError msg), w).
Proof.
  intros H. unfold generate_voice.
  destruct (truthy (strip text)) eqn:Htext.
  - destruct H as [H|H]; [discriminate|]. rewrite H. by eexists.
  - by eexists.
Qed.

Lemma generate_voice_validates_first_witness :
  (∃ msg, generate_voice (scripted_env answers_bad_gateway) "" (Some "secret")
            default_voice_id audio_world
          = (Raised (ValueError msg), audio_world))
  ∧ (∃ msg, generate_voice (scripted_env answers_bad_gateway) "Hello world" (Some "")
              default_voice_id audio_world
            = (Raised (ValueError msg), audio_world))
  ∧ (∃ msg, generate_voice (scripted_env answers_bad_gateway) "Hello world" None
              default_voice_id audio_world
            = (Raised (ValueError msg), audio_world)).
Proof.
  split; [|split].
  - apply (generate_voice_validates_first _ "" (Some "secret")). left. reflexivity.
  - apply (generate_voice_validates_first _ "Hello world" (Some "")). right. reflexivity.
  - apply (generate_voice_validates_first _ "Hello world" None). right. reflexivity.
Defined.




(** ** Cleanup *)

Lemma os_path_exists_run path w :
  os_path_exists path w = (Normal (bool_decide (is_Some (files w !! path))), w).
Proof. reflexivity. Qed.

Lemma os_remove_run path w :
  os_remove path w =
  match files w !! path with
  | Some _ => (Normal (), log [EvRemove path] (set_files (delete path (files w)) w))
  | None =>
      (Raised (FileNotFoundError ("No such file or directory: " +:+ squote path)),
       log [EvRemove path] w)
  end.
Proof.
  unfold os_remove. rewrite bind_run. unfold emit, act. cbn [files log].
  by destruct (files w !! path).
Qed.

(** The guarded removal of one artifact, by whether the file is there. *)
Lemma remove_if_bound_run path w :
  remove_if_bound (Some (PStr path)) w =
  match files w !! path with
  | Some _ => (Normal (), log [EvRemove path] (set_files (delete path (files w)) w))
  | None => (Normal (), w)
  end.
Proof.
  unfold remove_if_bound, exists_val, remove_val.
  rewrite bind_run, os_path_exists_run.
  destruct (files w !! path) eqn:H.
  - rewrite bool_decide_eq_true_2 by eauto. by rewrite os_remove_run, H.
  - rewrite bool_decide_eq_false_2 by (by intros [? ?]). reflexivity.
Qed.

Lemma set_states_id w : set_states (USER_STATES w) w = w.
Proof. by destruct w. Qed.

(** The guarded removal of a variable that is unbound or holds a path:
    it never raises, touches only the files, and leaves the path absent. *)
Lemma remove_if_bound_path var w :
  (∀ t, var ≠ Some (PFile t)) →
  ∃ w', remove_if_bound var w = (Normal (), w')
        ∧ USER_STATES w' = USER_STATES w ∧ frame w' = frame w
        ∧ (∀ p, files w !! p = None → files w' !! p = None)
        ∧ (∀ p, var = Some (PStr p) → files w' !! p = None)
        ∧ ((∀ p, var = Some (PStr p) → files w !! p = None) → w' = w).
Proof.
  destruct var as [[p|t]|]; intros Hvar; [|by destruct (Hvar t)|].
  - rewrite remove_if_bound_run. destruct (files w !! p) eqn:Hp.
    + eexists. split; [done|]. split; [done|]. split; [done|]. split.
      * intros q Hq. cbn. destruct (decide (p = q)) as [->|].
        -- apply lookup_delete_eq.
        -- by rewrite lookup_delete_ne.
      * split.
        -- intros q [= <-]. apply lookup_delete_eq.
        -- intros Habs. specialize (Habs p eq_refl). congruence.
    + eexists. split; [done|]. repeat split; try done. by intros q [= <-].
  - exists w. repeat split; done.
Qed.

Lemma cleanup_run user_id w :
  cleanup user_id w =
  (remove_if_bound (audio_var (frame w));;
   fr ← locals;
   remove_if_bound (video_var fr))
    (set_states (delete user_id (USER_STATES w)) w).
Proof. reflexivity. Qed.

Lemma cleanup_paths user_id w :
  (∀ t, audio_var (frame w) ≠ Some (PFile t)) →
  (∀ t, video_var (frame w) ≠ Some (PFile t)) →
  ∃ w', cleanup user_id w = (Normal (), w')
        ∧ USER_STATES w' = delete user_id (USER_STATES w)
        ∧ frame w' = frame w
        ∧ (∀ p, audio_var (frame w) = Some (PStr p) → files w' !! p = None)
        ∧ (∀ p, video_var (frame w) = Some (PStr p) → files w' !! p = None)
        ∧ (USER_STATES w !! user_id = None →
           (∀ p, audio_var (frame w) = Some (PStr p) → files w !! p = None) →
           (∀ p, video_var (frame w) = Some (PStr p) → files w !! p = None) →
           w' = w).
Proof.
  intros Ha Hv. rewrite cleanup_run.
  set (wa := set_states (delete user_id (USER_STATES w)) w).
  destruct (remove_if_bound_path (audio_var (frame w)) wa Ha)
    as (wb & Hb & Hbs & Hbf & Hbk & Hbd & Hbi).
  rewrite bind_run, Hb. cbv beta iota.
  rewrite bind_run. unfold locals at 1, act. cbv beta iota.
  rewrite Hbf. change (frame wa) with (frame w).
  destruct (remove_if_bound_path (video_var (frame w)) wb Hv)
    as (wc & Hc & Hcs & Hcf & Hck & Hcd & Hci).
  rewrite Hc. exists wc. split; [done|].
  split; [by rewrite Hcs, Hbs|]. split; [by rewrite Hcf, Hbf|].
  split; [intros p Hp; by apply Hck, Hbd|]. split; [done|].
  intros Hs Hpa Hpv.
  assert (wa = w) as Hwa.
  { subst wa. rewrite delete_id by done. apply set_states_id. }
  assert (wb = w) as ->.
  { transitivity wa; [|done]. apply Hbi. by rewrite Hwa. }
  by apply Hci.
Qed.

(** C9.  Cleaning up an artifact whose file is absent neither raises nor
    changes anything, whereas [os.remove] itself would raise; so a second
    cleanup after one that deleted the file is a no-op, for one artifact
    and for the whole [finally] block. *)
Theorem cleanup_absent_is_noop path w :
  (files w !! path = None →
     remove_if_bound (Some (PStr path)) w = (Normal (), w)
     ∧ ∃ e, (os_remove path w).1 = Raised e)
  ∧ (let w1 := (remove_if_bound (Some (PStr path)) w).2 in
     files w1 !! path = None
     ∧ remove_if_bound (Some (PStr path)) w1 = (Normal (), w1))
  ∧ (∀ user_id,
       (∀ t, audio_var (frame w) ≠ Some (PFile t)) →
       (∀ t, video_var (frame w) ≠ Some (PFile t)) →
       let w1 := (cleanup user_id w).2 in
       cleanup user_id w1 = (Normal (), w1)).
Proof.
  split; [|split].
  - intros H. rewrite remove_if_bound_run, os_remove_run, H. eauto.
  - cbv zeta. rewrite remove_if_bound_run.
    destruct (files w !! path) eqn:H; cbn [snd].
    + assert (files (log [EvRemove path] (set_files (delete path (files w)) w))
              !! path = None) as H' by apply lookup_delete_eq.
      split; [done|]. by rewrite remove_if_bound_run, H'.
    + split; [done|]. by rewrite remove_if_bound_run, H.
  - intros user_id Ha Hv. cbv zeta.
    destruct (cleanup_paths user_id w Ha Hv) as (w1 & -> & Hs & Hf & Hpa & Hpv & _).
    cbn [snd]. rewrite <- Hf in Ha, Hv, Hpa, Hpv.
    destruct (cleanup_paths user_id w1 Ha Hv) as (w2 & -> & _ & _ & _ & _ & Hid).
    rewrite Hid; [done| |done|done].
    rewrite Hs. apply lookup_delete_eq.
Qed.

Lemma cleanup_absent_is_noop_witness :
  remove_if_bound (Some (PStr "output_video_1700000000.mp4")) audio_world
  = (Normal (), audio_world)
  ∧ ∃ e, (os_remove "output_video_1700000000.mp4" audio_world).1 = Raised e.
Proof.
  apply (proj1 (cleanup_absent_is_noop "output_video_1700000000.mp4" audio_world)).
  reflexivity.
Defined.


(** ** Rules for [steps] *)

Section steps_rules.
Context (R : World → World → Prop) `{!PreOrder R}.

Lemma steps_ret {A} (a : A) : steps R (mret a : M A).
Proof. intros w. reflexivity. Qed.

Lemma steps_raise {A} e : steps R (raise e : M A).
Proof. intros w. reflexivity. Qed.

Lemma steps_return {A} : steps R (return_ : M A).
Proof. intros w. reflexivity. Qed.

Lemma steps_diverge {A} : steps R (diverge : M A).
Proof. intros w. reflexivity. Qed.

Lemma steps_bind {A B} (m : M A) (f : A → M B) :
  steps R m → (∀ a, steps R (f a)) → steps R (m ≫= f).
Proof.
  intros Hm Hf w. rewrite bind_run. specialize (Hm w).
  destruct (m w) as [[a| |e|] w1]; cbn [snd] in *; try done.
  transitivity w1; [done|apply Hf].
Qed.

Lemma steps_try_except {A} (body : M A) handler :
  steps R body → (∀ e, steps R (handler e)) → steps R (try_except body handler).
Proof.
  intros Hm Hf w. unfold try_except. specialize (Hm w).
  destruct (body w) as [[a| |e|] w1]; cbn [snd] in *; try done.
  transitivity w1; [done|apply Hf].
Qed.

Lemma steps_try_finally {A} (body : M A) final :
  steps R body → steps R final → steps R (try_finally body final).
Proof.
  intros Hm Hf w. unfold try_finally. specialize (Hm w).
  destruct (body w) as [[a| |e|] w1]; cbn [snd] in *; try done;
    specialize (Hf w1); destruct (final w1) as [[[]| |e'|] w2]; cbn [snd] in *;
    by transitivity w1.
Qed.

Lemma steps_call body : steps R body → steps R (call body).
Proof.
  intros Hm w. unfold call. specialize (Hm w).
  by destruct (body w) as [[a| |e|] w1].
Qed.

Lemma steps_eq {A} (m : M A) : steps eq m → steps R m.
Proof. intros Hm w. by rewrite <- (Hm w). Qed.

End steps_rules.

Lemma steps_sub (R1 R2 : World → World → Prop) {A} (m : M A) :
  (∀ w w', R1 w w' → R2 w w') → steps R1 m → steps R2 m.
Proof. intros Hsub Hm w. apply Hsub, Hm. Qed.

Global Instance same_states_preorder : PreOrder same_states.
Proof.
  split; [by intros w|]. intros w1 w2 w3. unfold same_states. congruence.
Qed.

Global Instance states_at_preorder user_id : PreOrder (states_at user_id).
Proof.
  split; [by intros w|]. intros w1 w2 w3. unfold states_at. congruence.
Qed.

Global Instance quiet_preorder : PreOrder quiet.
Proof.
  split.
  - intros w. split; [done..|]. exists []. by rewrite app_nil_r.
  - intros w1 w2 w3 [Hf1 Hr1 (e1 & Ht1 & Hq1)] [Hf2 Hr2 (e2 & Ht2 & Hq2)].
    split; [congruence..|]. exists (e1 ++ e2).
    rewrite Ht2, Ht1, (assoc_L (++)). split; [done|]. by apply Forall_app.
Qed.

Global Instance silent_preorder : PreOrder silent.
Proof.
  split; [by intros w|].
  intros w1 w2 w3 [??] [??]. split; by etransitivity.
Qed.

Lemma silent_same_states w w' : silent w w' → same_states w w'.
Proof. by intros [? ?]. Qed.

Lemma silent_quiet w w' : silent w w' → quiet w w'.
Proof. by intros [? ?]. Qed.

Lemma same_states_at user_id w w' : same_states w w' → states_at user_id w w'.
Proof. unfold same_states, states_at. by intros ->. Qed.

Lemma silent_log evs w : Forall quiet_event evs → silent w (log evs w).
Proof. intros H. split; [done|]. split; [done..|]. by exists evs. Qed.

(** *** Statements that only look at the world *)

Lemma steps_history : steps eq history.
Proof. by intros w. Qed.

Lemma steps_of_sum {A} (r : exn + A) : steps eq (of_sum r).
Proof. intros w. by destruct r. Qed.

Lemma steps_getitem {V} (d : gmap string V) key : steps eq (getitem d key).
Proof. intros w. unfold getitem. by destruct (d !! key). Qed.

Lemma steps_os_path_exists path : steps eq (os_path_exists path).
Proof. by intros w. Qed.

Lemma steps_open_rb path : steps eq (open_rb path).
Proof. intros w. unfold open_rb. by destruct (files w !! path). Qed.

Lemma steps_states_get user_id : steps eq (states_get user_id).
Proof. by intros w. Qed.

Lemma steps_locals : steps eq locals.
Proof. by intros w. Qed.

Lemma steps_text_strip msg : steps eq (text_strip msg).
Proof. intros w. unfold text_strip. by destruct (text msg). Qed.

Lemma steps_json_data r : steps eq (json_data r).
Proof.
  intros w. unfold json_data. destruct (json r); [|done]. apply steps_getitem.
Qed.

(** *** Statements that only talk to the outside *)

Lemma steps_emit e : quiet_event e → steps silent (emit e).
Proof. intros H w. apply silent_log. by constructor. Qed.

Create HintDb steps discriminated.

Ltac steps_rule :=
  lazymatch goal with
  | |- steps _ (mret _) => refine (steps_ret _ _)
  | |- steps _ (raise _) => refine (steps_raise _ _)
  | |- steps _ return_ => refine (steps_return _)
  | |- steps _ diverge => refine (steps_diverge _)
  | |- steps _ (_ ≫= _) => refine (steps_bind _ _ _ _ _); [|intros ?]
  | |- steps _ (try_except _ _) => refine (steps_try_except _ _ _ _ _); [|intros ?]
  | |- steps _ (try_finally _ _) => refine (steps_try_finally _ _ _ _ _)
  | |- steps _ (call _) => refine (steps_call _ _ _)
  | |- steps _ (wrap_errors _) => unfold wrap_errors
  | |- steps _ history => refine (steps_eq _ _ steps_history)
  | |- steps _ (of_sum _) => refine (steps_eq _ _ (steps_of_sum _))
  | |- steps _ (getitem _ _) => refine (steps_eq _ _ (steps_getitem _ _))
  | |- steps _ (os_path_exists _) => refine (steps_eq _ _ (steps_os_path_exists _))
  | |- steps _ (open_rb _) => refine (steps_eq _ _ (steps_open_rb _))
  | |- steps _ (states_get _) => refine (steps_eq _ _ (steps_states_get _))
  | |- steps _ locals => refine (steps_eq _ _ steps_locals)
  | |- steps _ (text_strip _) => refine (steps_eq _ _ (steps_text_strip _))
  | |- steps _ (json_data _) => refine (steps_eq _ _ (steps_json_data _))
  | |- steps _ (if ?b then _ else _) => destruct b
  | |- steps _ (match ?x with _ => _ end) => destruct x
  | |- steps _ (from_option _ _ ?x) => destruct x; cbn [from_option]
  end.

Ltac steps_auto := repeat first [ steps_rule | solve [eauto 4 with steps] ].

Lemma steps_send env e : quiet_event e → steps silent (send env e).
Proof. intros H. unfold send. steps_auto. by apply steps_emit. Qed.

Lemma steps_reply_text env msg : steps silent (reply_text env msg).
Proof. by apply steps_send. Qed.

Lemma steps_post env url : steps silent (post env url).
Proof. unfold post. steps_auto. by apply steps_emit. Qed.

Lemma steps_get env url : steps silent (get env url).
Proof. unfold get. steps_auto. by apply steps_emit. Qed.

Lemma steps_sleep seconds : steps silent (sleep seconds).
Proof. unfold sleep. steps_auto. by apply steps_emit. Qed.

Lemma steps_transcribe env path : steps silent (transcribe env path).
Proof. unfold transcribe. steps_auto. by apply steps_emit. Qed.

Global Hint Resolve steps_reply_text steps_post steps_get steps_sleep
  steps_transcribe : steps.
Global Hint Extern 1 (steps silent (send _ _)) => (apply steps_send; exact I) : steps.

Lemma steps_generate_gpt_script env prompt :
  steps silent (generate_gpt_script env prompt).
Proof. unfold generate_gpt_script. steps_auto. by apply steps_emit. Qed.

Lemma steps_scrape_twitter_content env handle keyword :
  steps silent (scrape_twitter_content env handle keyword).
Proof. unfold scrape_twitter_content. cbv zeta. steps_auto. by apply steps_emit. Qed.

Lemma steps_poll_body env video_id poll_interval video_url retries :
  steps silent (poll_body env video_id poll_interval video_url retries).
Proof. unfold poll_body. steps_auto. Qed.

Lemma steps_poll_loop env video_id max_retries poll_interval fuel video_url retries :
  steps silent (poll_loop env video_id max_retries poll_interval fuel video_url retries).
Proof.
  revert video_url retries. induction fuel as [|fuel IH]; intros video_url retries;
    rewrite poll_loop_unfold.
  - steps_auto.
  - destruct (negb (truthy_opt video_url) && (retries <? max_retries)).
    + refine (steps_bind _ _ _ (steps_poll_body _ _ _ _ _) _). intros st. apply IH.
    + refine (steps_ret _ _).
Qed.

Global Hint Resolve steps_generate_gpt_script steps_scrape_twitter_content
  steps_poll_body steps_poll_loop : steps.


Global Hint Extern 5 (steps same_states _) =>
  refine (steps_sub silent _ _ silent_same_states _) : steps.
Global Hint Extern 5 (steps quiet _) =>
  refine (steps_sub silent _ _ silent_quiet _) : steps.
Global Hint Extern 6 (steps (states_at _) _) =>
  refine (steps_sub same_states _ _ (same_states_at _) _) : steps.

(** *** Statements that leave the session store alone *)

Lemma steps_write_file path data : steps same_states (write_file path data).
Proof. by intros w. Qed.

Lemma steps_os_remove path : steps same_states (os_remove path).
Proof. intros w. rewrite os_remove_run. by destruct (files w !! path). Qed.

Lemma steps_named_temporary_file env suffix :
  steps same_states (named_temporary_file env suffix).
Proof. by intros w. Qed.

Lemma steps_download_to_drive env path :
  steps same_states (download_to_drive env path).
Proof.
  unfold download_to_drive. steps_auto. by intros w.
Qed.

Lemma steps_assign_audio v : steps same_states (assign_audio v).
Proof. by intros w. Qed.

Lemma steps_assign_video v : steps same_states (assign_video v).
Proof. by intros w. Qed.

Global Hint Resolve steps_write_file steps_os_remove steps_named_temporary_file
  steps_download_to_drive steps_assign_audio steps_assign_video : steps.

Lemma steps_remove_if_bound var : steps same_states (remove_if_bound var).
Proof. unfold remove_if_bound, exists_val, remove_val. steps_auto. Qed.

Lemma steps_generate_voice env text eleven_api_key voice_id :
  steps same_states (generate_voice env text eleven_api_key voice_id).
Proof. unfold generate_voice. cbv zeta. steps_auto. Qed.

Lemma steps_generate_avatar_video env fuel audio_path api_key avatar_id
    max_retries poll_interval :
  steps same_states
    (generate_avatar_video env fuel audio_path api_key avatar_id max_retries
       poll_interval).
Proof. unfold generate_avatar_video. cbv zeta. steps_auto. Qed.

Global Hint Resolve steps_remove_if_bound steps_generate_voice
  steps_generate_avatar_video : steps.

(** *** The session store under the handlers *)

Lemma steps_states_setitem user_id key value :
  steps (states_at user_id) (states_setitem user_id key value).
Proof.
  intros w. unfold states_setitem, act.
  destruct (USER_STATES w !! user_id); [|done].
  unfold states_at. cbn. apply delete_insert_eq.
Qed.

Lemma steps_states_pop user_id : steps (states_at user_id) (states_pop user_id).
Proof. intros w. unfold states_at. cbn. apply delete_delete_eq. Qed.

Global Hint Resolve steps_states_setitem steps_states_pop : steps.

(** The [finally] block always ends with the user's session gone. *)
Lemma cleanup_states user_id w :
  USER_STATES (cleanup user_id w).2 = delete user_id (USER_STATES w).
Proof.
  rewrite cleanup_run.
  set (wa := set_states (delete user_id (USER_STATES w)) w).
  change (delete user_id (USER_STATES w)) with (USER_STATES wa).
  generalize wa. change (steps same_states
    (remove_if_bound (audio_var (frame w));; fr ← locals; remove_if_bound (video_var fr))).
  steps_auto.
Qed.

Lemma try_finally_world {A} (body : M A) final w :
  (try_finally body final w).1 ≠ Diverged →
  (try_finally body final w).2 = (final (body w).2).2.
Proof.
  unfold try_finally.
  destruct (body w) as [[a| |e|] w1]; cbn [fst snd]; try done;
    by destruct (final w1) as [[[]| |e'|] w2].
Qed.

Lemma call_handler_run body w :
  call_handler body w = call body (set_frame empty_frame w).
Proof. reflexivity. Qed.

Lemma call_world body w : (call body w).2 = (body w).2.
Proof. unfold call. by destruct (body w) as [[[]| |e|] w1]. Qed.

Lemma call_diverged body w : (call body w).1 ≠ Diverged → (body w).1 ≠ Diverged.
Proof. unfold call. by destruct (body w) as [[[]| |e|] w1]. Qed.

Lemma steps_bot_read_script env msg input_type :
  steps same_states (Bot.read_script env msg input_type).
Proof. unfold Bot.read_script. steps_auto. Qed.

Lemma steps_apify_read_script env msg user_id user_state input_type :
  steps (states_at user_id)
    (ApifyScraper.read_script env msg user_id user_state input_type).
Proof. unfold ApifyScraper.read_script. cbv zeta. steps_auto. Qed.

Global Hint Resolve steps_bot_read_script steps_apify_read_script : steps.


(** ** The handlers and the session store *)

Lemma reply_text_run env msg w :
  reply_text env msg w =
  (match telegram env (trace w) with
   | Some ex => Raised ex
   | None => Normal ()
   end, log [EvReplyText msg] w).
Proof.
  unfold reply_text, send, history, emit.
  rewrite bind_run. cbv beta iota. rewrite bind_run. cbv beta iota.
  by destruct (telegram env (trace w)).
Qed.

(** A message from a user without a session is answered with the request
    to start over, and nothing else happens. *)
Lemma bot_not_started env fuel msg w :
  USER_STATES w !! from_user_id msg = None →
  Bot.process_content env fuel msg w =
  (match telegram env (trace w) with
   | Some ex => Raised ex
   | None => Normal ()
   end, log [EvReplyText "⚠️ Please start with /start"] (set_frame empty_frame w)).
Proof.
  intros H. unfold Bot.process_content. rewrite call_handler_run. unfold call.
  cbv zeta. rewrite bind_run. unfold states_get at 1, act.
  cbv beta iota. change (USER_STATES (set_frame empty_frame w)) with (USER_STATES w).
  rewrite H. rewrite bind_run, reply_text_run.
  change (trace (set_frame empty_frame w)) with (trace w).
  by destruct (telegram env (trace w)).
Qed.

Lemma apify_not_started env fuel msg w :
  USER_STATES w !! from_user_id msg = None →
  ApifyScraper.process_content env fuel msg w =
  (match telegram env (trace w) with
   | Some ex => Raised ex
   | None => Normal ()
   end, log [EvReplyText "Please start with /start"] (set_frame empty_frame w)).
Proof.
  intros H. unfold ApifyScraper.process_content. rewrite call_handler_run.
  unfold call. cbv zeta. rewrite bind_run. unfold states_get at 1, act.
  cbv beta iota. change (USER_STATES (set_frame empty_frame w)) with (USER_STATES w).
  rewrite H. change (default ∅ None) with (∅ : gmap string string).
  unfold ApifyScraper.dict_falsy. rewrite bool_decide_eq_true_2 by done.
  rewrite bind_run, reply_text_run.
  change (trace (set_frame empty_frame w)) with (trace w).
  by destruct (telegram env (trace w)).
Qed.

(** C8.  For a user with no session, either handler answers with the
    request to start over and leaves the session store (and the files)
    untouched; the handler ends normally when the reply can be sent. *)
Theorem not_started_changes_nothing env fuel msg w :
  USER_STATES w !! from_user_id msg = None →
  let answered (warning : string) (r : outcome () * World) :=
    USER_STATES r.2 = USER_STATES w
    ∧ files r.2 = files w
    ∧ trace r.2 = trace w ++ [EvReplyText warning]
    ∧ (telegram env (trace w) = None → r.1 = Normal ()) in
  answered "⚠️ Please start with /start" (Bot.process_content env fuel msg w)
  ∧ answered "Please start with /start" (ApifyScraper.process_content env fuel msg w).
Proof.
  intros H answered. subst answered. cbv beta.
  rewrite bot_not_started, apify_not_started by done. cbn [fst snd].
  repeat split; try done; by intros ->.
Qed.

Lemma steps_bot_try env fuel msg user_state :
  steps (states_at (from_user_id msg))
    (try_except (Bot.try_block env fuel msg user_state) (Bot.except_block env)).
Proof. unfold Bot.try_block, Bot.except_block. steps_auto. Qed.

Lemma steps_apify_try env fuel msg user_state :
  steps (states_at (from_user_id msg))
    (try_except (ApifyScraper.try_block env fuel msg user_state)
       (ApifyScraper.except_block env)).
Proof.
  unfold ApifyScraper.try_block, ApifyScraper.except_block. cbv zeta. steps_auto.
Qed.

(** With a session in the store, [process_content] is its [try] statement,
    run in a fresh frame. *)
Lemma bot_started env fuel msg w user_state :
  USER_STATES w !! from_user_id msg = Some user_state →
  Bot.process_content env fuel msg w
  = call (try_finally
            (try_except (Bot.try_block env fuel msg user_state) (Bot.except_block env))
            (cleanup (from_user_id msg)))
      (set_frame empty_frame w).
Proof.
  intros H.
  unfold Bot.process_content. rewrite call_handler_run. unfold call.
  cbv zeta. rewrite bind_run. unfold states_get at 1, act.
  cbv beta iota. change (USER_STATES (set_frame empty_frame w)) with (USER_STATES w).
  by rewrite H.
Qed.

Lemma apify_started env fuel msg w user_state :
  USER_STATES w !! from_user_id msg = Some user_state → user_state ≠ ∅ →
  ApifyScraper.process_content env fuel msg w
  = call (try_finally
            (try_except (ApifyScraper.try_block env fuel msg user_state)
               (ApifyScraper.except_block env))
            (cleanup (from_user_id msg)))
      (set_frame empty_frame w).
Proof.
  intros H Hne.
  unfold ApifyScraper.process_content. rewrite call_handler_run. unfold call.
  cbv zeta. rewrite bind_run. unfold states_get at 1, act.
  cbv beta iota. change (USER_STATES (set_frame empty_frame w)) with (USER_STATES w).
  rewrite H. change (default ∅ (Some user_state)) with user_state.
  unfold ApifyScraper.dict_falsy. by rewrite bool_decide_eq_false_2.
Qed.

Lemma handler_pops_session body handler user_id w :
  steps (states_at user_id) (try_except body handler) →
  let r := call (try_finally (try_except body handler) (cleanup user_id))
             (set_frame empty_frame w) in
  r.1 ≠ Diverged → USER_STATES r.2 = delete user_id (USER_STATES w).
Proof.
  intros Hsteps r Hend. subst r.
  apply call_diverged in Hend. rewrite call_world.
  rewrite try_finally_world by done. rewrite cleanup_states.
  apply (Hsteps (set_frame empty_frame w)).
Qed.

(** Whenever a handler finds a session and returns, its world has the
    store of the world it started in, less that session. *)
Lemma handlers_pop_session env fuel msg w user_state :
  USER_STATES w !! from_user_id msg = Some user_state →
  ((Bot.process_content env fuel msg w).1 ≠ Diverged →
   USER_STATES (Bot.process_content env fuel msg w).2
   = delete (from_user_id msg) (USER_STATES w))
  ∧ (user_state ≠ ∅ →
     (ApifyScraper.process_content env fuel msg w).1 ≠ Diverged →
     USER_STATES (ApifyScraper.process_content env fuel msg w).2
     = delete (from_user_id msg) (USER_STATES w)).
Proof.
  intros H. split.
  - rewrite (bot_started env fuel msg w user_state H).
    intros Hend. by rewrite handler_pops_session by (done || apply steps_bot_try).
  - intros Hne. rewrite (apify_started env fuel msg w user_state H Hne).
    intros Hend. by rewrite handler_pops_session by (done || apply steps_apify_try).
Qed.

(** C10.  Whenever a handler finds a session for the user it is called
    for and returns, that session is gone from the store, and the store is
    otherwise as before: whichever branch was taken (the capture of the
    handle, the request for a voice message, the notice that Twitter is
    paused, the pipeline) and however it ended. *)
Theorem session_never_survives env fuel msg w user_state :
  USER_STATES w !! from_user_id msg = Some user_state →
  let gone (r : outcome () * World) :=
    r.1 ≠ Diverged →
    USER_STATES r.2 = delete (from_user_id msg) (USER_STATES w)
    ∧ USER_STATES r.2 !! from_user_id msg = None in
  gone (Bot.process_content env fuel msg w)
  ∧ (user_state ≠ ∅ → gone (ApifyScraper.process_content env fuel msg w)).
Proof.
  intros H gone. subst gone. cbv beta.
  destruct (handlers_pop_session env fuel msg w user_state H) as [Hbot Hapify].
  split.
  - intros Hend. rewrite Hbot by done. split; [done|apply lookup_delete_eq].
  - intros Hne Hend. rewrite Hapify by done. split; [done|apply lookup_delete_eq].
Qed.


(** ** File names *)

Lemma length_append s1 s2 :
  String.length (s1 +:+ s2) = (String.length s1 + String.length s2)%nat.
Proof. induction s1 as [|c s1 IH]; [done|]. simpl. by f_equal. Qed.

Lemma append_suffix_inj s1 s2 t1 t2 :
  String.length t1 = String.length t2 → s1 +:+ t1 = s2 +:+ t2 → t1 = t2.
Proof.
  revert s2. induction s1 as [|c s1 IH]; intros [|d s2] Hlen Heq.
  - done.
  - apply (f_equal String.length) in Heq.
    rewrite !length_append in Heq. simpl in Heq. lia.
  - apply (f_equal String.length) in Heq.
    rewrite !length_append in Heq. simpl in Heq. lia.
  - change (String c (s1 +:+ t1) = String d (s2 +:+ t2)) in Heq.
    injection Heq as _ Heq. by apply (IH s2).
Qed.

Lemma has_ext_unique ext1 ext2 path :
  String.length ext1 = String.length ext2 →
  has_ext ext1 path → has_ext ext2 path → ext1 = ext2.
Proof. intros Hlen [s1 ->] [s2 Heq]. by apply (append_suffix_inj s1 s2). Qed.

Lemma mp3_not_ogg path : has_ext ".mp3" path → ¬ has_ext ".ogg" path.
Proof.
  intros H1 H2. by pose proof (has_ext_unique ".mp3" ".ogg" _ eq_refl H1 H2).
Qed.

Lemma mp4_not_ogg path : has_ext ".mp4" path → ¬ has_ext ".ogg" path.
Proof.
  intros H1 H2. by pose proof (has_ext_unique ".mp4" ".ogg" _ eq_refl H1 H2).
Qed.

Lemma mp3_not_mp4 pa pv : has_ext ".mp3" pa → has_ext ".mp4" pv → pa ≠ pv.
Proof.
  intros H1 H2 ->. by pose proof (has_ext_unique ".mp3" ".mp4" _ eq_refl H1 H2).
Qed.

(** ** Quiet steps and steps on temporary files *)

Lemma quiet_temp_event e : quiet_event e → temp_event e.
Proof. by destruct e. Qed.

Lemma Forall_quiet_temp evs : Forall quiet_event evs → Forall temp_event evs.
Proof. intros H. eapply Forall_impl; [done|apply quiet_temp_event]. Qed.

Global Instance temp_step_preorder : PreOrder temp_step.
Proof.
  split.
  - intros w. split; [done|done|by left|]. exists []. by rewrite app_nil_r.
  - intros w1 w2 w3 [Hf1 Hv1 Ha1 (e1 & Ht1 & Hq1)] [Hf2 Hv2 Ha2 (e2 & Ht2 & Hq2)].
    split.
    + intros p Hp. by rewrite Hf2, Hf1.
    + congruence.
    + destruct Ha2 as [->|?]; [done|by right].
    + exists (e1 ++ e2). rewrite Ht2, Ht1, (assoc_L (++)).
      split; [done|]. by apply Forall_app.
Qed.

Lemma quiet_temp_step w w' : quiet w w' → temp_step w w'.
Proof.
  intros [Hf Hr (evs & Ht & Hq)]. split.
  - intros p _. by rewrite Hf.
  - by rewrite Hr.
  - left. by rewrite Hr.
  - exists evs. split; [done|]. by apply Forall_quiet_temp.
Qed.

Global Hint Extern 5 (steps temp_step _) =>
  refine (steps_sub quiet _ _ quiet_temp_step _) : steps.

Lemma steps_quiet_states_set user_id d : steps quiet (states_set user_id d).
Proof. intros w. split; [done..|]. exists []. by rewrite app_nil_r. Qed.

Lemma steps_quiet_states_setitem user_id key value :
  steps quiet (states_setitem user_id key value).
Proof.
  intros w. unfold states_setitem, act.
  destruct (USER_STATES w !! user_id); [|reflexivity].
  split; [done..|]. exists []. by rewrite app_nil_r.
Qed.

Lemma steps_quiet_states_pop user_id : steps quiet (states_pop user_id).
Proof. intros w. split; [done..|]. exists []. by rewrite app_nil_r. Qed.

Global Hint Resolve steps_quiet_states_set steps_quiet_states_setitem
  steps_quiet_states_pop : steps.

Lemma steps_temp_named_temporary_file env :
  steps temp_step (named_temporary_file env ".ogg").
Proof.
  unfold named_temporary_file. steps_auto. intros w. split; [|done|by left|].
  - intros p Hp. cbn. rewrite lookup_insert_ne; [done|].
    intros <-. apply Hp. by eexists.
  - exists []. by rewrite app_nil_r.
Qed.

Lemma steps_temp_download_to_drive env path :
  has_ext ".ogg" path → steps temp_step (download_to_drive env path).
Proof.
  intros Hext. unfold download_to_drive. steps_auto.
  intros w. split; [|done|by left|].
  - intros p Hp. cbn. rewrite lookup_insert_ne; [done|]. by intros <-.
  - exists []. by rewrite app_nil_r.
Qed.

Lemma steps_temp_os_remove path :
  has_ext ".ogg" path → steps temp_step (os_remove path).
Proof.
  intros Hext w. rewrite os_remove_run.
  destruct (files w !! path); (split; [|done|by left|]).
  - intros p Hp. cbn. rewrite lookup_delete_ne; [done|]. by intros <-.
  - exists [EvRemove path]. split; [done|]. by constructor.
  - done.
  - exists [EvRemove path]. split; [done|]. by constructor.
Qed.

Lemma steps_temp_assign_file path : steps temp_step (assign_audio (PFile path)).
Proof.
  intros w. split; [done|done|right; by eexists|].
  exists []. by rewrite app_nil_r.
Qed.

Global Hint Resolve steps_temp_named_temporary_file steps_temp_assign_file : steps.
Global Hint Extern 1 (steps temp_step (download_to_drive _ _)) =>
  (apply steps_temp_download_to_drive; assumption) : steps.
Global Hint Extern 1 (steps temp_step (os_remove _)) =>
  (apply steps_temp_os_remove; assumption) : steps.

Lemma steps_bind_val (R : World → World → Prop) `{!PreOrder R} {A B}
    (Q : A → Prop) (m : M A) (f : A → M B) :
  (∀ w a, (m w).1 = Normal a → Q a) →
  steps R m → (∀ a, Q a → steps R (f a)) → steps R (m ≫= f).
Proof.
  intros HQ Hm Hf w. rewrite bind_run. specialize (Hm w). specialize (HQ w).
  destruct (m w) as [[a| |e|] w1]; cbn [fst snd] in *; try done.
  transitivity w1; [done|]. by apply Hf, HQ.
Qed.

Lemma named_temporary_file_ext env suffix w path :
  (named_temporary_file env suffix w).1 = Normal path → has_ext suffix path.
Proof. cbn. intros [= <-]. by eexists. Qed.

Lemma steps_temp_bot_read_script env msg input_type :
  steps temp_step (Bot.read_script env msg input_type).
Proof.
  unfold Bot.read_script.
  destruct (String.eqb input_type "direct"); [steps_auto|].
  destruct (String.eqb input_type "voice"); [|steps_auto].
  destruct (voice msg); [|steps_auto].
  do 2 (refine (steps_bind _ _ _ _ _); [steps_auto|intros _]).
  refine (steps_bind_val _ (has_ext ".ogg") _ _ (named_temporary_file_ext _ _) _ _);
    [steps_auto|intros temp_path Hext].
  steps_auto.
Qed.

Lemma steps_temp_apify_read_script env msg user_id user_state input_type :
  steps temp_step (ApifyScraper.read_script env msg user_id user_state input_type).
Proof.
  unfold ApifyScraper.read_script.
  destruct (_ && _); [cbv zeta; steps_auto|].
  destruct (String.eqb input_type "direct"); [steps_auto|].
  destruct (String.eqb input_type "voice"); [|steps_auto].
  destruct (voice msg); [|steps_auto].
  refine (steps_bind _ _ _ _ _); [steps_auto|intros _].
  refine (steps_bind_val _ (has_ext ".ogg") _ _ (named_temporary_file_ext _ _) _ _);
    [steps_auto|intros temp_path Hext].
  steps_auto.
Qed.

Global Hint Resolve steps_temp_bot_read_script steps_temp_apify_read_script : steps.


(** ** Rules for [hoare] *)

Lemma hoare_ret {A} P (a : A) (Q : A → World → Prop) E :
  (∀ w, P w → Q a w) → hoare P (mret a) Q E.
Proof. intros H w Hw. by apply H. Qed.

Lemma hoare_raise {A} P e (Q : A → World → Prop) E :
  (∀ w, P w → E w) → hoare P (raise e) Q E.
Proof. intros H w Hw. by apply H. Qed.

Lemma hoare_return {A} P (Q : A → World → Prop) E :
  (∀ w, P w → E w) → hoare P return_ Q E.
Proof. intros H w Hw. by apply H. Qed.

Lemma hoare_bind {A B} P (m : M A) (f : A → M B) Q1 Q E :
  hoare P m Q1 E → (∀ a, hoare (Q1 a) (f a) Q E) → hoare P (m ≫= f) Q E.
Proof.
  intros Hm Hf w Hw. rewrite bind_run. specialize (Hm w Hw).
  destruct (m w) as [[a| |e|] w1]; try done. by apply Hf.
Qed.

Lemma hoare_post {A} P (m : M A) (Q Q' : A → World → Prop) E :
  hoare P m Q E → (∀ a w, Q a w → Q' a w) → hoare P m Q' E.
Proof.
  intros Hm HQ w Hw. specialize (Hm w Hw).
  destruct (m w) as [[a| |e|] w1]; try done. by apply HQ.
Qed.

Lemma hoare_stable (R : World → World → Prop) {A} (P E : World → Prop) (m : M A) :
  (∀ w w', P w → R w w' → P w') → (∀ w, P w → E w) →
  steps R m → hoare P m (λ _, P) E.
Proof.
  intros HP HE Hm w Hw. specialize (Hm w).
  destruct (m w) as [[a| |e|] w1]; cbn [snd] in Hm; try done; eauto.
Qed.

Lemma hoare_try_except {A} P (body : M A) handler Q E :
  hoare P body Q E → (∀ e, hoare E (handler e) Q E) →
  hoare P (try_except body handler) Q E.
Proof.
  intros Hb Hh w Hw. unfold try_except. specialize (Hb w Hw).
  destruct (body w) as [[a| |e|] w1]; try done. by apply Hh.
Qed.

Lemma hoare_wrap_errors {A} P (body : M A) Q E :
  hoare P body Q E → hoare P (wrap_errors body) Q E.
Proof.
  intros Hb. apply hoare_try_except; [done|].
  intros e. destruct (is_RequestException e); by apply hoare_raise.
Qed.

Lemma hoare_world {A} P (m : M A) S w :
  hoare P m (λ _, S) S → P w → (m w).1 ≠ Diverged → S (m w).2.
Proof.
  intros Hm Hw Hend. specialize (Hm w Hw).
  by destruct (m w) as [[a| |e|] w1].
Qed.

(** ** Calls that produce an artifact *)

Lemma hoare_quiet w0 {A} (m : M A) :
  steps quiet m → hoare (quiet w0) m (λ _, quiet w0) (quiet w0).
Proof.
  apply (hoare_stable quiet); [|done]. intros w w' ??. by transitivity w.
Qed.

Tactic Notation "hoare_quiet_bind" "as" simple_intropattern(x) :=
  refine (hoare_bind _ _ _ _ _ _ (hoare_quiet _ _ _) _); [steps_auto|intros x].

Lemma write_produces ext w0 path data :
  has_ext ext path →
  hoare (quiet w0) (write_file path data;; mret path)
    (λ p w', produced ext w0 p w') (quiet w0).
Proof.
  intros Hext w [Hf Hr (evs & Ht & Hq)].
  change ((write_file path data;; mret path) w)
    with (Normal path, log [EvWrite path] (set_files (<[path := data]> (files w)) w)).
  split; [done|done| | |].
  - exists evs. cbn. rewrite Ht. by rewrite <- (assoc_L (++)).
  - cbn. rewrite lookup_insert_eq. by eexists.
  - intros q Hq'. cbn. rewrite lookup_insert_ne by done. by rewrite Hf.
Qed.

Lemma generate_voice_produces env text eleven_api_key voice_id w0 :
  hoare (quiet w0) (generate_voice env text eleven_api_key voice_id)
    (λ p w', produced ".mp3" w0 p w') (quiet w0).
Proof.
  unfold generate_voice.
  destruct (negb (truthy (strip text))); [by apply hoare_raise|].
  destruct (negb (truthy_opt eleven_api_key)); [by apply hoare_raise|].
  cbv zeta. apply hoare_wrap_errors. hoare_quiet_bind as response.
  destruct (negb (status_code response =? 200)); [by apply hoare_raise|].
  hoare_quiet_bind as h. apply write_produces.
  by exists ("output_" +:+ uuid4_hex env h).
Qed.

Lemma generate_avatar_video_produces env fuel audio_path api_key avatar_id
    max_retries poll_interval w0 :
  hoare (quiet w0)
    (generate_avatar_video env fuel audio_path api_key avatar_id max_retries
       poll_interval)
    (λ p w', produced ".mp4" w0 p w') (quiet w0).
Proof.
  unfold generate_avatar_video. hoare_quiet_bind as found.
  destruct (negb found); [by apply hoare_raise|].
  destruct (negb (truthy_opt api_key)); [by apply hoare_raise|].
  destruct (negb (truthy_opt avatar_id)); [by apply hoare_raise|].
  apply hoare_wrap_errors. hoare_quiet_bind as audio. hoare_quiet_bind as audio_resp.
  destruct (negb (status_code audio_resp =? 200)); [by apply hoare_raise|].
  hoare_quiet_bind as audio_data. hoare_quiet_bind as audio_url.
  hoare_quiet_bind as vid_resp.
  destruct (negb (status_code vid_resp =? 200)); [by apply hoare_raise|].
  hoare_quiet_bind as vid_data. hoare_quiet_bind as video_id.
  hoare_quiet_bind as video_url.
  destruct (negb (truthy_opt video_url)); [by apply hoare_raise|].
  hoare_quiet_bind as vid. hoare_quiet_bind as h. cbv zeta. apply write_produces.
  by exists ("output_video_" +:+ pretty (time_time env h)).
Qed.


(** ** The stages of the [try] block *)

Section stages.
Context (t0 : list event).

Lemma stage0_stable w w' : stage0 t0 w → temp_step w w' → stage0 t0 w'.
Proof.
  intros ((evs & Ht & He) & Hv & Ha) [Hf Hv' Ha' (evs' & Ht' & He')].
  split; [|split].
  - exists (evs ++ evs'). rewrite Ht', Ht, (assoc_L (++)).
    split; [done|]. by apply Forall_app.
  - by rewrite Hv'.
  - destruct Ha' as [->|[t ->]]; [done|]. by intros p.
Qed.

Lemma written1_stable pa w w' : written1 t0 pa w → quiet w w' → written1 t0 pa w'.
Proof.
  intros (Hext & (evs1 & evs2 & Ht & H1 & H2) & Hfile & Hv) [Hf Hr (evs & Ht' & He)].
  split; [done|]. split; [|split].
  - exists evs1, (evs2 ++ evs). rewrite Ht', Ht, <- !(assoc_L (++)).
    split; [done|]. split; [done|]. by apply Forall_app.
  - by rewrite Hf.
  - by rewrite Hr.
Qed.

Lemma stage1_stable pa w w' : stage1 t0 pa w → quiet w w' → stage1 t0 pa w'.
Proof.
  intros [Hw Ha] Hq. split; [by eapply written1_stable|].
  by rewrite (quiet_frame _ _ Hq).
Qed.

Lemma written2_stable pa pv w w' :
  written2 t0 pa pv w → quiet w w' → written2 t0 pa pv w'.
Proof.
  intros (Hea & Hev & (evs1 & evs2 & evs3 & Ht & H1 & H2 & H3) & Hfa & Hfv & Ha)
    [Hf Hr (evs & Ht' & He)].
  split; [done|]. split; [done|]. split; [|split; [|split]].
  - exists evs1, evs2, (evs3 ++ evs). rewrite Ht', Ht, <- !(assoc_L (++)).
    split; [done|]. split; [done|]. split; [done|]. by apply Forall_app.
  - by rewrite Hf.
  - by rewrite Hf.
  - by rewrite Hr.
Qed.

Lemma stage2_stable pa pv w w' :
  stage2 t0 pa pv w → quiet w w' → stage2 t0 pa pv w'.
Proof.
  intros [Hw Hv] Hq. split; [by eapply written2_stable|].
  by rewrite (quiet_frame _ _ Hq).
Qed.

Lemma left_try_stable w w' : left_try t0 w → quiet w w' → left_try t0 w'.
Proof.
  intros [H|[[pa H]|(pa & pv & H)]] Hq.
  - left. eapply stage0_stable; [done|]. by apply quiet_temp_step.
  - right; left. exists pa. by eapply stage1_stable.
  - right; right. exists pa, pv. by eapply stage2_stable.
Qed.

Lemma hoare_stage0 {A} (m : M A) :
  steps temp_step m → hoare (stage0 t0) m (λ _, stage0 t0) (left_try t0).
Proof. apply (hoare_stable temp_step); [apply stage0_stable|by left]. Qed.

Lemma hoare_stage1 pa {A} (m : M A) :
  steps quiet m → hoare (stage1 t0 pa) m (λ _, stage1 t0 pa) (left_try t0).
Proof.
  apply (hoare_stable quiet); [apply stage1_stable|]. right; left. by exists pa.
Qed.

Lemma hoare_stage2 pa pv {A} (m : M A) :
  steps quiet m → hoare (stage2 t0 pa pv) m (λ _, stage2 t0 pa pv) (left_try t0).
Proof.
  apply (hoare_stable quiet); [apply stage2_stable|]. right; right. by exists pa, pv.
Qed.

Lemma hoare_left_try {A} (m : M A) :
  steps quiet m → hoare (left_try t0) m (λ _, left_try t0) (left_try t0).
Proof. apply (hoare_stable quiet); [apply left_try_stable|done]. Qed.

(** Writing the audio artifact takes stage 0 to stage 1. *)
Lemma stage0_produced pa w w' :
  stage0 t0 w → produced ".mp3" w pa w' → written1 t0 pa w'.
Proof.
  intros ((evs & Ht & He) & Hv & Ha) [Hext Hr (evs' & Ht' & He') Hfile Hothers].
  split; [done|]. split; [|split].
  - exists (evs ++ evs'), []. rewrite Ht', Ht, app_nil_r, <- !(assoc_L (++)).
    split; [done|]. split; [|done].
    apply Forall_app. split; [done|]. by apply Forall_quiet_temp.
  - done.
  - by rewrite Hr.
Qed.

Lemma stage1_produced pa pv w w' :
  stage1 t0 pa w → produced ".mp4" w pv w' → written2 t0 pa pv w'.
Proof.
  intros [(Hea & (evs1 & evs2 & Ht & H1 & H2) & Hfa & Hv) Ha]
    [Hext Hr (evs' & Ht' & He') Hfile Hothers].
  split; [done|]. split; [done|]. split; [|split; [|split]].
  - exists evs1, (evs2 ++ evs'), [].
    rewrite Ht', Ht, app_nil_r, <- !(assoc_L (++)).
    split; [done|]. split; [done|]. split; [|done]. by apply Forall_app.
  - rewrite Hothers; [done|]. by apply mp3_not_mp4.
  - done.
  - by rewrite Hr.
Qed.

Lemma hoare_generate_voice env text eleven_api_key voice_id :
  hoare (stage0 t0) (generate_voice env text eleven_api_key voice_id)
    (λ pa, written1 t0 pa) (left_try t0).
Proof.
  intros w Hw.
  pose proof (generate_voice_produces env text eleven_api_key voice_id w w) as H.
  specialize (H (reflexivity w)).
  destruct (generate_voice _ _ _ _ w) as [[pa| |e|] w']; [|..|done].
  - by eapply stage0_produced.
  - left. eapply stage0_stable; [done|]. by apply quiet_temp_step.
  - left. eapply stage0_stable; [done|]. by apply quiet_temp_step.
Qed.

Lemma hoare_generate_avatar_video env fuel pa api_key avatar_id max_retries
    poll_interval :
  hoare (stage1 t0 pa)
    (generate_avatar_video env fuel pa api_key avatar_id max_retries poll_interval)
    (λ pv, written2 t0 pa pv) (left_try t0).
Proof.
  intros w Hw.
  pose proof (generate_avatar_video_produces env fuel pa api_key avatar_id
                max_retries poll_interval w w) as H.
  specialize (H (reflexivity w)).
  destruct (generate_avatar_video _ _ _ _ _ _ _ w) as [[pv| |e|] w']; [|..|done].
  - by eapply stage1_produced.
  - right; left. exists pa. by eapply stage1_stable.
  - right; left. exists pa. by eapply stage1_stable.
Qed.

Lemma hoare_assign_audio pa :
  hoare (written1 t0 pa) (assign_audio (PStr pa)) (λ _, stage1 t0 pa) (left_try t0).
Proof. by intros w (? & ? & ? & ?). Qed.

Lemma hoare_assign_video pa pv :
  hoare (written2 t0 pa pv) (assign_video (PStr pv)) (λ _, stage2 t0 pa pv)
    (left_try t0).
Proof. by intros w (? & ? & ? & ? & ? & ?). Qed.

Lemma stage2_left_try pa pv w : stage2 t0 pa pv w → left_try t0 w.
Proof. right; right. by exists pa, pv. Qed.

(** Either [try] block, with its [except] clause, ends in one of the three
    stages. *)
Lemma bot_try_ends env fuel msg user_state :
  hoare (stage0 t0)
    (try_except (Bot.try_block env fuel msg user_state) (Bot.except_block env))
    (λ _, left_try t0) (left_try t0).
Proof.
  apply hoare_try_except.
  2:{ intros e. apply hoare_left_try. unfold Bot.except_block. steps_auto. }
  unfold Bot.try_block.
  do 2 (eapply hoare_bind; [apply hoare_stage0; steps_auto|intros ?]).
  eapply hoare_bind; [apply hoare_stage0; steps_auto|intros script].
  do 2 (eapply hoare_bind; [apply hoare_stage0; steps_auto|intros ?]).
  eapply hoare_bind; [apply hoare_generate_voice|intros pa].
  eapply hoare_bind; [apply hoare_assign_audio|intros ?].
  do 3 (eapply hoare_bind; [apply hoare_stage1; steps_auto|intros ?]).
  eapply hoare_bind; [apply hoare_generate_avatar_video|intros pv].
  eapply hoare_bind; [apply hoare_assign_video|intros ?].
  eapply hoare_bind; [apply hoare_stage2; steps_auto|intros ?].
  eapply hoare_post; [apply hoare_stage2; steps_auto|].
  intros ? w. apply stage2_left_try.
Qed.

Lemma apify_try_ends env fuel msg user_state :
  hoare (stage0 t0)
    (try_except (ApifyScraper.try_block env fuel msg user_state)
       (ApifyScraper.except_block env))
    (λ _, left_try t0) (left_try t0).
Proof.
  apply hoare_try_except.
  2:{ intros e. apply hoare_left_try. unfold ApifyScraper.except_block. steps_auto. }
  unfold ApifyScraper.try_block. cbv zeta.
  eapply hoare_bind; [apply hoare_stage0; steps_auto|intros input_type].
  destruct (_ && _).
  { eapply hoare_post; [apply hoare_stage0; steps_auto|]. intros ? w. by left. }
  eapply hoare_bind; [apply hoare_stage0; steps_auto|intros bound].
  eapply hoare_bind; [apply hoare_stage0; steps_auto|intros script].
  do 2 (eapply hoare_bind; [apply hoare_stage0; steps_auto|intros ?]).
  eapply hoare_bind; [apply hoare_generate_voice|intros pa].
  eapply hoare_bind; [apply hoare_assign_audio|intros ?].
  eapply hoare_bind; [apply hoare_stage1; steps_auto|intros ?].
  eapply hoare_bind; [apply hoare_generate_avatar_video|intros pv].
  eapply hoare_bind; [apply hoare_assign_video|intros ?].
  eapply hoare_bind; [apply hoare_stage2; steps_auto|intros ?].
  eapply hoare_post; [apply hoare_stage2; steps_auto|].
  intros ? w. apply stage2_left_try.
Qed.

End stages.


(** ** From the stages to a clean disk *)

Lemma temp_events_write evs p : Forall temp_event evs → EvWrite p ∉ evs.
Proof.
  intros H Hin. rewrite Forall_forall in H. by apply (H _ Hin).
Qed.

Lemma quiet_events_write evs p : Forall quiet_event evs → EvWrite p ∉ evs.
Proof. intros H. by apply temp_events_write, Forall_quiet_temp. Qed.

Lemma temp_events_remove evs p :
  Forall temp_event evs → ¬ has_ext ".ogg" p →
  count_occ event_eq_dec evs (EvRemove p) = 0%nat.
Proof.
  intros H Hext. apply count_occ_not_In. rewrite <- list_elem_of_In.
  intros Hin. rewrite Forall_forall in H. by apply Hext, (H _ Hin).
Qed.

Lemma quiet_events_remove evs p :
  Forall quiet_event evs → count_occ event_eq_dec evs (EvRemove p) = 0%nat.
Proof.
  intros H. apply count_occ_not_In. rewrite <- list_elem_of_In.
  intros Hin. rewrite Forall_forall in H. by apply (H _ Hin).
Qed.

Lemma remove_if_bound_file t w :
  remove_if_bound (Some (PFile t)) w = (Raised path_type_error, w).
Proof. reflexivity. Qed.

Lemma cleanup_cleaned user_id t0 w :
  left_try t0 w → cleaned t0 (cleanup user_id w).2.
Proof.
  intros Hw. rewrite cleanup_run.
  set (wa := set_states (delete user_id (USER_STATES w)) w).
  destruct Hw as [((evs & Ht & He) & Hv & Ha)|[[pa H]|(pa & pv & H)]].
  - (* nothing was written *)
    assert (cleaned t0 wa) as Hwa.
    { exists evs. split; [done|]. intros p Hp. by destruct (temp_events_write evs p). }
    rewrite bind_run. change (frame wa) with (frame w).
    destruct (audio_var (frame w)) as [[p|t]|] eqn:Haudio.
    + by destruct (Ha p).
    + by rewrite remove_if_bound_file.
    + change (remove_if_bound None wa) with (Normal (), wa). cbv beta iota.
      rewrite bind_run. unfold locals at 1, act. cbv beta iota.
      change (frame wa) with (frame w). by rewrite Hv.
  - (* the audio artifact was written *)
    destruct H as [(Hext & (evs1 & evs2 & Ht & H1 & H2) & [data Hfile] & Hv) Ha].
    rewrite bind_run. change (frame wa) with (frame w). rewrite Ha.
    rewrite remove_if_bound_run. change (files wa) with (files w). rewrite Hfile.
    cbv beta iota. rewrite bind_run. unfold locals at 1, act. cbv beta iota.
    cbn [frame log set_files]. change (frame wa) with (frame w). rewrite Hv.
    change (remove_if_bound None ?x) with (Normal (), x). cbn [snd].
    exists (evs1 ++ [EvWrite pa] ++ evs2 ++ [EvRemove pa]). split.
    { cbn. rewrite Ht. by rewrite <- !(assoc_L (++)). }
    intros p Hp.
    assert (p = pa) as ->.
    { rewrite !elem_of_app, !list_elem_of_singleton in Hp.
      destruct Hp as [Hp|[Hp|[Hp|Hp]]]; [|congruence| |done].
      - by destruct (temp_events_write evs1 p).
      - by destruct (quiet_events_write evs2 p). }
    split; [apply lookup_delete_eq|].
    rewrite !count_occ_app.
    rewrite (temp_events_remove evs1), (quiet_events_remove evs2)
      by (done || by apply mp3_not_ogg).
    rewrite count_occ_cons_neq by done. by rewrite count_occ_cons_eq.
  - (* both artifacts were written *)
    destruct H as [(Hea & Hev & (evs1 & evs2 & evs3 & Ht & H1 & H2 & H3)
                    & [da Hfa] & [dv Hfv] & Ha) Hv].
    pose proof (mp3_not_mp4 _ _ Hea Hev) as Hne.
    rewrite bind_run. change (frame wa) with (frame w). rewrite Ha.
    rewrite remove_if_bound_run. change (files wa) with (files w). rewrite Hfa.
    cbv beta iota. rewrite bind_run. unfold locals at 1, act. cbv beta iota.
    cbn [frame log set_files]. change (frame wa) with (frame w). rewrite Hv.
    rewrite remove_if_bound_run. cbn [files log set_files].
    change (files wa) with (files w).
    rewrite lookup_delete_ne, Hfv by done. cbn [snd].
    exists (evs1 ++ [EvWrite pa] ++ evs2 ++ [EvWrite pv] ++ evs3
            ++ [EvRemove pa] ++ [EvRemove pv]).
    split.
    { cbn. rewrite Ht. by rewrite <- !(assoc_L (++)). }
    intros p Hp.
    assert (p = pa ∨ p = pv) as Hcase.
    { rewrite !elem_of_app, !list_elem_of_singleton in Hp.
      destruct Hp as [Hp|[Hp|[Hp|[Hp|[Hp|[Hp|Hp]]]]]]; try done.
      - by destruct (temp_events_write evs1 p).
      - left. congruence.
      - by destruct (quiet_events_write evs2 p).
      - right. congruence.
      - by destruct (quiet_events_write evs3 p). }
    destruct Hcase as [-> | ->].
    + split.
      * cbn. rewrite lookup_delete_ne by done. apply lookup_delete_eq.
      * rewrite !count_occ_app.
        rewrite (temp_events_remove evs1), (quiet_events_remove evs2),
          (quiet_events_remove evs3) by (done || by apply mp3_not_ogg).
        rewrite (count_occ_cons_neq _ _ (x:=EvWrite pa)) by done.
        rewrite (count_occ_cons_neq _ _ (x:=EvWrite pv)) by done.
        rewrite count_occ_cons_eq by done.
        by rewrite count_occ_cons_neq by congruence.
    + split.
      * cbn. apply lookup_delete_eq.
      * rewrite !count_occ_app.
        rewrite (temp_events_remove evs1), (quiet_events_remove evs2),
          (quiet_events_remove evs3) by (done || by apply mp4_not_ogg).
        rewrite (count_occ_cons_neq _ _ (x:=EvWrite pa)) by done.
        rewrite (count_occ_cons_neq _ _ (x:=EvWrite pv)) by done.
        rewrite (count_occ_cons_neq _ _ (x:=EvRemove pa)) by congruence.
        by rewrite count_occ_cons_eq.
Qed.

Lemma stage0_fresh_frame w : stage0 (trace w) (set_frame empty_frame w).
Proof.
  split; [|split; [done|by intros p]]. exists []. by rewrite app_nil_r.
Qed.

Lemma handler_cleans body handler user_id w :
  hoare (stage0 (trace w)) (try_except body handler)
    (λ _, left_try (trace w)) (left_try (trace w)) →
  let r := call (try_finally (try_except body handler) (cleanup user_id))
             (set_frame empty_frame w) in
  r.1 ≠ Diverged → cleaned (trace w) r.2.
Proof.
  intros Hbody r Hend. subst r.
  apply call_diverged in Hend. rewrite call_world.
  rewrite try_finally_world by done. apply cleanup_cleaned.
  apply (hoare_world _ _ _ _ Hbody); [apply stage0_fresh_frame|].
  intros Hd. apply Hend. unfold try_finally. by destruct (try_except _ _ _) as [[]].
Qed.



(** ** The handlers return *)

Lemma ends_ret {A} (a : A) : ends (mret a : M A).
Proof. by intros w. Qed.

Lemma ends_raise {A} e : ends (raise e : M A).
Proof. by intros w. Qed.

Lemma ends_return {A} : ends (return_ : M A).
Proof. by intros w. Qed.

Lemma ends_bind {A B} (m : M A) (f : A → M B) :
  ends m → (∀ a, ends (f a)) → ends (m ≫= f).
Proof.
  intros Hm Hf w. rewrite bind_run. specialize (Hm w).
  destruct (m w) as [[a| |e|] w1]; try done. apply Hf.
Qed.

Lemma ends_try_except {A} (body : M A) handler :
  ends body → (∀ e, ends (handler e)) → ends (try_except body handler).
Proof.
  intros Hm Hf w. unfold try_except. specialize (Hm w).
  destruct (body w) as [[a| |e|] w1]; try done. apply Hf.
Qed.

Lemma ends_try_finally {A} (body : M A) final :
  ends body → ends final → ends (try_finally body final).
Proof.
  intros Hm Hf w. unfold try_finally. specialize (Hm w).
  destruct (body w) as [[a| |e|] w1]; try done;
    specialize (Hf w1); by destruct (final w1) as [[[]| |e'|] w2].
Qed.

Lemma ends_call body : ends body → ends (call body).
Proof.
  intros Hm w. unfold call. specialize (Hm w).
  by destruct (body w) as [[[]| |e|] w1].
Qed.

Lemma ends_act {A} (f : World → outcome A * World) :
  (∀ w, (f w).1 ≠ Diverged) → ends (act f).
Proof. done. Qed.

Lemma ends_emit e : ends (emit e).
Proof. by intros w. Qed.

Lemma ends_history : ends history.
Proof. by intros w. Qed.

Lemma ends_of_sum {A} (r : exn + A) : ends (of_sum r).
Proof. intros w. by destruct r. Qed.

Lemma ends_os_path_exists path : ends (os_path_exists path).
Proof. by intros w. Qed.

Lemma ends_open_rb path : ends (open_rb path).
Proof. intros w. unfold open_rb. by destruct (files w !! path). Qed.

Lemma ends_states_setitem user_id key value :
  ends (states_setitem user_id key value).
Proof. intros w. unfold states_setitem, act. by destruct (USER_STATES w !! user_id). Qed.

Lemma ends_os_remove path : ends (os_remove path).
Proof. intros w. rewrite os_remove_run. by destruct (files w !! path). Qed.

Ltac ends_rule :=
  lazymatch goal with
  | |- ends (mret _) => apply ends_ret
  | |- ends (raise _) => apply ends_raise
  | |- ends return_ => apply ends_return
  | |- ends (_ ≫= _) => apply ends_bind; [|intros ?]
  | |- ends (try_except _ _) => apply ends_try_except; [|intros ?]
  | |- ends (try_finally _ _) => apply ends_try_finally
  | |- ends (call _) => apply ends_call
  | |- ends (emit _) => apply ends_emit
  | |- ends history => apply ends_history
  | |- ends (of_sum _) => apply ends_of_sum
  | |- ends (os_path_exists _) => apply ends_os_path_exists
  | |- ends (open_rb _) => apply ends_open_rb
  | |- ends (os_remove _) => apply ends_os_remove
  | |- ends (states_setitem _ _ _) => apply ends_states_setitem
  | |- ends (act _) => by apply ends_act
  | |- ends (if ?b then _ else _) => destruct b
  | |- ends (match ?x with _ => _ end) => destruct x
  | |- ends (from_option _ _ ?x) => destruct x; cbn [from_option]
  | |- ends (let _ := _ in _) => cbv zeta
  end.

Ltac ends_auto :=
  repeat first
    [ ends_rule
    | progress unfold wrap_errors, getitem, json_data, sleep, post, get,
        write_file, send, reply_text, text_strip, named_temporary_file,
        download_to_drive, transcribe, generate_gpt_script,
        scrape_twitter_content, states_get, states_set, states_pop,
        assign_audio, assign_video, locals, exists_val, remove_val,
        remove_if_bound, cleanup, call_handler
    | solve [auto] ].

Section returns.
Context (env : Env) (Hgood : names_completed_videos env).

Lemma ends_poll_body video_id poll_interval video_url retries :
  ends (poll_body env video_id poll_interval video_url retries).
Proof. unfold poll_body. ends_auto. Qed.

(** Fuel equal to what is left of the budget is enough for the loop. *)
Lemma ends_poll_loop video_id max_retries poll_interval fuel video_url retries :
  (Z.to_nat (max_retries - retries) ≤ fuel)%nat →
  ends (poll_loop env video_id max_retries poll_interval fuel video_url retries).
Proof.
  revert video_url retries.
  induction fuel as [|fuel IH]; intros video_url retries Hfuel w;
    rewrite poll_loop_unfold;
    destruct (negb (truthy_opt video_url) && (retries <? max_retries)) eqn:Hc;
    try done.
  - apply andb_true_iff in Hc as [_ Hc%Z.ltb_lt]. lia.
  - apply andb_true_iff in Hc as [Hurl Hlt%Z.ltb_lt].
    assert ((((sleep poll_interval;; mret (video_url, retries + 1))
                ≫= λ st, poll_loop env video_id max_retries poll_interval fuel
                           st.1 st.2)
               (log [EvGet (status_url video_id)] w)).1 ≠ Diverged) as Hretry.
    { rewrite !bind_run.
      destruct (sleep_cases poll_interval (log [EvGet (status_url video_id)] w))
        as [[_ ->]|[_ [e ->]]]; [|done].
      rewrite ret_run. apply IH. cbn [snd]. lia. }
    rewrite bind_run, poll_body_cases.
    pose proof (Hgood (trace w) (status_url video_id)) as Hk.
    destruct (classify _) as [e| |e|url| |]; try done; cbn [fst snd].
    rewrite poll_loop_exit; [done|]. left. by destruct url.
Qed.

Lemma ends_generate_voice text eleven_api_key voice_id :
  ends (generate_voice env text eleven_api_key voice_id).
Proof. unfold generate_voice. ends_auto. Qed.

Lemma ends_generate_avatar_video fuel audio_path api_key avatar_id max_retries
    poll_interval :
  (Z.to_nat max_retries ≤ fuel)%nat →
  ends (generate_avatar_video env fuel audio_path api_key avatar_id max_retries
          poll_interval).
Proof.
  intros Hfuel. unfold generate_avatar_video.
  pose proof (λ vid, ends_poll_loop vid max_retries poll_interval fuel None 0).
  ends_auto; try (by intros w'; destruct (is_RequestException _)).
  apply H. by rewrite Z.sub_0_r.
Qed.

Lemma ends_bot_process_content fuel msg :
  (3 ≤ fuel)%nat → ends (Bot.process_content env fuel msg).
Proof.
  intros Hfuel. pose proof ends_generate_voice.
  pose proof (λ a k v, ends_generate_avatar_video fuel a k v 3 10 Hfuel).
  unfold Bot.process_content, Bot.try_block, Bot.except_block, Bot.read_script.
  ends_auto.
Qed.

Lemma ends_apify_process_content fuel msg :
  (3 ≤ fuel)%nat → ends (ApifyScraper.process_content env fuel msg).
Proof.
  intros Hfuel. pose proof ends_generate_voice.
  pose proof (λ a k v, ends_generate_avatar_video fuel a k v 3 10 Hfuel).
  unfold ApifyScraper.process_content, ApifyScraper.try_block,
    ApifyScraper.except_block, ApifyScraper.read_script.
  ends_auto.
Qed.

End returns.


(** ** Sessions are never empty *)

Lemma session_not_empty (input_type : string) :
  ({[ "input_type" := input_type ]} : gmap string string) ≠ ∅.
Proof. apply insert_non_empty. Qed.

Lemma sessions_nonempty_insert user_id input_type w w' :
  sessions_nonempty w →
  USER_STATES w' = USER_STATES w
  ∨ USER_STATES w' = <[user_id := {[ "input_type" := input_type ]}]> (USER_STATES w) →
  sessions_nonempty w'.
Proof.
  intros Hw [Heq|Heq] uid st; rewrite Heq; [apply Hw|].
  destruct (decide (user_id = uid)) as [->|Hne].
  - rewrite lookup_insert_eq. intros [= <-]. apply session_not_empty.
  - rewrite lookup_insert_ne by done. apply Hw.
Qed.

Ltac button_states env w :=
  cbv zeta; rewrite bind_run;
  let Hs := fresh "Hs" in
  pose proof (steps_send env EvAnswer I w) as [Hs _];
  destruct (send env EvAnswer w) as [[[]| |?|]?]; cbn [snd] in *; try (by left);
  right; rewrite bind_run; unfold states_set at 1, act; cbv beta iota;
  match goal with
  | |- USER_STATES (?m ?w2).2 = _ =>
      let H := fresh in
      assert (steps same_states m) as H by steps_auto;
      rewrite (H w2); cbn; by rewrite Hs
  end.

Lemma bot_handle_button_states env user_id data w :
  USER_STATES (Bot.handle_button env user_id data w).2 = USER_STATES w
  ∨ USER_STATES (Bot.handle_button env user_id data w).2
    = <[user_id := {[ "input_type" := data ]}]> (USER_STATES w).
Proof. unfold Bot.handle_button. button_states env w. Qed.

Lemma apify_handle_button_states env user_id data w :
  USER_STATES (ApifyScraper.handle_button env user_id data w).2 = USER_STATES w
  ∨ USER_STATES (ApifyScraper.handle_button env user_id data w).2
    = <[user_id := {[ "input_type" := data ]}]> (USER_STATES w).
Proof. unfold ApifyScraper.handle_button. button_states env w. Qed.

(** Both [handle_button] functions keep the sessions non-empty, ... *)
Lemma handle_button_nonempty env user_id data w :
  sessions_nonempty w →
  sessions_nonempty (Bot.handle_button env user_id data w).2
  ∧ sessions_nonempty (ApifyScraper.handle_button env user_id data w).2.
Proof.
  intros Hw. split.
  - apply (sessions_nonempty_insert user_id data w); [done|].
    apply bot_handle_button_states.
  - apply (sessions_nonempty_insert user_id data w); [done|].
    apply apify_handle_button_states.
Qed.

(** ... and so do both [process_content] functions. *)
Lemma process_content_nonempty env fuel msg w :
  sessions_nonempty w →
  ((Bot.process_content env fuel msg w).1 ≠ Diverged →
   sessions_nonempty (Bot.process_content env fuel msg w).2)
  ∧ ((ApifyScraper.process_content env fuel msg w).1 ≠ Diverged →
     sessions_nonempty (ApifyScraper.process_content env fuel msg w).2).
Proof.
  intros Hw.
  destruct (USER_STATES w !! from_user_id msg) as [st|] eqn:Hst.
  - pose proof (handlers_pop_session env fuel msg w st Hst) as [Hb Ha].
    split.
    + intros Hend uid st'. rewrite (Hb Hend).
      intros [_ H]%lookup_delete_Some. by apply (Hw uid).
    + intros Hend uid st'. rewrite (Ha (Hw _ _ Hst) Hend).
      intros [_ H]%lookup_delete_Some. by apply (Hw uid).
  - rewrite bot_not_started, apify_not_started by done. split; by intros _.
Qed.


(** ** The conversations, run *)

Lemma not_started_changes_nothing_witness :
  (USER_STATES (Bot.process_content (scripted_env answers_pending_failed) 3
                  hello_msg audio_world).2 = USER_STATES audio_world
   ∧ files (Bot.process_content (scripted_env answers_pending_failed) 3
              hello_msg audio_world).2 = files audio_world
   ∧ trace (Bot.process_content (scripted_env answers_pending_failed) 3
              hello_msg audio_world).2
     = trace audio_world ++ [EvReplyText "⚠️ Please start with /start"]
   ∧ (telegram (scripted_env answers_pending_failed) (trace audio_world) = None →
      (Bot.process_content (scripted_env answers_pending_failed) 3
         hello_msg audio_world).1 = Normal ()))
  ∧ (USER_STATES (ApifyScraper.process_content (scripted_env answers_pending_failed) 3
                    hello_msg audio_world).2 = USER_STATES audio_world
     ∧ files (ApifyScraper.process_content (scripted_env answers_pending_failed) 3
                hello_msg audio_world).2 = files audio_world
     ∧ trace (ApifyScraper.process_content (scripted_env answers_pending_failed) 3
                hello_msg audio_world).2
       = trace audio_world ++ [EvReplyText "Please start with /start"]
     ∧ (telegram (scripted_env answers_pending_failed) (trace audio_world) = None →
        (ApifyScraper.process_content (scripted_env answers_pending_failed) 3
           hello_msg audio_world).1 = Normal ())).
Proof.
  apply (not_started_changes_nothing (scripted_env answers_pending_failed) 3
           hello_msg audio_world).
  reflexivity.
Defined.

Lemma session_never_survives_witness :
  (USER_STATES (Bot.process_content (scripted_env answers_pending_failed) 3
                  handle_msg (chosen "twitter")).2
   = delete 7 (USER_STATES (chosen "twitter"))
   ∧ USER_STATES (Bot.process_content (scripted_env answers_pending_failed) 3
                    handle_msg (chosen "twitter")).2 !! 7 = None)
  ∧ (USER_STATES (ApifyScraper.process_content (scripted_env answers_pending_failed) 3
                    handle_msg (chosen "twitter")).2
     = delete 7 (USER_STATES (chosen "twitter"))
     ∧ USER_STATES (ApifyScraper.process_content (scripted_env answers_pending_failed) 3
                      handle_msg (chosen "twitter")).2 !! 7 = None).
Proof.
  pose proof (session_never_survives (scripted_env answers_pending_failed) 3
                handle_msg (chosen "twitter") {[ "input_type" := "twitter" ]}
                eq_refl) as [Hbot Hapify].
  split.
  - apply Hbot. vm_compute. discriminate.
  - apply Hapify.
    + intros Heq. apply (f_equal (λ d : gmap string string, d !! "input_type")) in Heq.
      vm_compute in Heq. discriminate.
    + vm_compute. discriminate.
Defined.


(** The run behind the witness: the script is sent back, both artifacts are
    made and delivered, and both are removed again. *)
Example bot_hello_world :
  Bot.process_content (scripted_env answers_pending_pending_completed) 3
    hello_msg (chosen "direct")
  = (Normal (),
     {| USER_STATES := ∅; files := ∅;
        trace :=
          [EvReplyText "📝 Processing your script...";
           EvReplyText ("📄 Generated Script:" +:+ nl +:+ nl +:+ "Hello world");
           EvReplyText "🔊 Generating voiceover...";
           EvPost "https://api.elevenlabs.io/v1/text-to-speech/21m00Tcm4TlvDq8ikWAM";
           EvWrite "output_0f3a.mp3";
           EvReplyAudio "output_0f3a.mp3";
           EvReplyText "🎬 Creating avatar video...";
           EvPost upload_url; EvPost generate_url;
           EvGet (status_url "job"); EvSleep 10;
           EvGet (status_url "job"); EvSleep 10;
           EvGet (status_url "job");
           EvGet "https://files/v.mp4";
           EvWrite "output_video_1700000000.mp4";
           EvReplyVideo "output_video_1700000000.mp4";
           EvRemove "output_0f3a.mp3";
           EvRemove "output_video_1700000000.mp4"];
        frame := {| audio_var := Some (PStr "output_0f3a.mp3");
                    video_var := Some (PStr "output_video_1700000000.mp4") |} |}).
Proof. vm_compute. reflexivity. Qed.

(** C1, at the input where it fails.  User 7 chose the Twitter mode and
    sends a handle, then a keyword.  The first message is answered with the
    request for a keyword, but the [finally] block has already dropped the
    session and the handle with it: the second message finds no session, is
    answered with the request to start over, and no scrape is ever made. *)
Theorem handle_lost_before_keyword :
  let env := scripted_env answers_pending_pending_completed in
  let first := ApifyScraper.process_content env 3 handle_msg (chosen "twitter") in
  let second := ApifyScraper.process_content env 3 keyword_msg first.2 in
  first.1 = Normal ()
  ∧ trace first.2
    = [EvReplyText ("Got handle @elonmusk" +:+ nl +:+ "Now send a keyword to search:")]
  ∧ USER_STATES first.2 !! 7 = None
  ∧ second.1 = Normal ()
  ∧ trace second.2
    = [EvReplyText ("Got handle @elonmusk" +:+ nl +:+ "Now send a keyword to search:");
       EvReplyText "Please start with /start"]
  ∧ USER_STATES second.2 !! 7 = None.
Proof. vm_compute. repeat split; reflexivity. Qed.

(** The same for every environment: after any message that found a
    session, the next message of that user finds none. *)
Lemma keyword_never_collected env fuel msg1 msg2 w user_state :
  from_user_id msg2 = from_user_id msg1 →
  USER_STATES w !! from_user_id msg1 = Some user_state → user_state ≠ ∅ →
  let first := ApifyScraper.process_content env fuel msg1 w in
  first.1 ≠ Diverged →
  ApifyScraper.process_content env fuel msg2 first.2
  = (match telegram env (trace first.2) with
     | Some ex => Raised ex
     | None => Normal ()
     end,
     log [EvReplyText "Please start with /start"] (set_frame empty_frame first.2)).
Proof.
  intros Huser Hst Hne first Hend. apply apify_not_started. rewrite Huser.
  subst first.
  rewrite (proj2 (handlers_pop_session env fuel msg1 w user_state Hst)) by done.
  apply lookup_delete_eq.
Qed.

(** Had the session survived the first message, the second would have
    been taken as the keyword and the scrape made. *)
Example keyword_branch :
  let env := scripted_env answers_pending_pending_completed in
  let w := {| USER_STATES :=
                {[ 7 := {[ "input_type" := "twitter"; "handle" := "elonmusk" ]} ]};
              files := ∅; trace := []; frame := empty_frame |} in
  take 2 (trace (ApifyScraper.process_content env 3 keyword_msg w).2)
  = [EvReplyText "Scraping tweets for @elonmusk with keyword 'ai'...";
     EvScrape ("from:elonmusk " +:+ dquote +:+ "ai" +:+ dquote)].
Proof. vm_compute. reflexivity. Qed.


(** * More of the code *)

(** ** voice_gen.py beyond its validation *)


(** [generate_voice] once both checks have passed, by what the one request
    it makes comes back with. *)
Lemma generate_voice_run env text eleven_api_key voice_id w :
  truthy (strip text) = true → truthy_opt eleven_api_key = true →
  generate_voice env text eleven_api_key voice_id w =
  match requests_post env (trace w) (tts_url voice_id) with
  | inl e => (Raised (wrapped e), log [EvPost (tts_url voice_id)] w)
  | inr r =>
      if status_code r =? 200 then
        let audio_path :=
          "output_" +:+ uuid4_hex env (trace w ++ [EvPost (tts_url voice_id)])
          +:+ ".mp3" in
        (Normal audio_path,
         log [EvPost (tts_url voice_id); EvWrite audio_path]
           (set_files (<[audio_path := content r]> (files w)) w))
      else
        (Raised (Exception ("Unexpected error: Voice generation failed. Status code: "
                            +:+ pretty (status_code r) +:+ ", Response: "
                            +:+ resp_text r)),
         log [EvPost (tts_url voice_id)] w)
  end.
Proof.
  intros Htext Hkey. unfold generate_voice. rewrite Htext, Hkey.
  change (negb true) with false. cbv iota zeta.
  unfold wrap_errors, try_except. rewrite bind_run, post_run.
  fold (tts_url voice_id).
  destruct (requests_post env (trace w) (tts_url voice_id)) as [e|r].
  - unfold wrapped. by destruct (is_RequestException e).
  - destruct (status_code r =? 200); [|reflexivity].
    change (negb true) with false. cbv iota.
    rewrite bind_run. unfold history at 1. cbv beta iota zeta.
    rewrite write_file_run. cbn [trace log].
    f_equal. unfold log, set_files. cbn. by rewrite <- (assoc_L (++)).
Qed.

(** X1.  A successful synthesis makes one request, to the endpoint of the
    chosen voice, and writes the body of the answer to the file
    [output_<uuid>.mp3], the path it returns; no other file changes. *)
Theorem generate_voice_writes_the_answer env text eleven_api_key voice_id w r :
  truthy (strip text) = true → truthy_opt eleven_api_key = true →
  requests_post env (trace w) (tts_url voice_id) = inr r →
  status_code r = 200 →
  let audio_path :=
    "output_" +:+ uuid4_hex env (trace w ++ [EvPost (tts_url voice_id)])
    +:+ ".mp3" in
  ∃ w',
    generate_voice env text eleven_api_key voice_id w = (Normal audio_path, w')
    ∧ trace w' = trace w ++ [EvPost (tts_url voice_id); EvWrite audio_path]
    ∧ files w' !! audio_path = Some (content r)
    ∧ (∀ path, path ≠ audio_path → files w' !! path = files w !! path)
    ∧ USER_STATES w' = USER_STATES w.
Proof.
  intros Htext Hkey Hpost Hcode audio_path.
  rewrite generate_voice_run, Hpost, Hcode by done.
  change (200 =? 200) with true. cbv iota zeta.
  eexists. split; [reflexivity|].
  split; [done|]. split; [apply lookup_insert_eq|]. split; [|done].
  intros path Hne. cbn. by rewrite lookup_insert_ne.
Qed.

Lemma generate_voice_writes_the_answer_witness :
  ∃ w',
    generate_voice (scripted_env answers_pending_failed) "Hello world"
      (Some "secret") default_voice_id (chosen "direct")
    = (Normal "output_0f3a.mp3", w')
    ∧ trace w' = trace (chosen "direct")
                 ++ [EvPost (tts_url default_voice_id); EvWrite "output_0f3a.mp3"]
    ∧ files w' !! "output_0f3a.mp3" = Some "AUDIO"
    ∧ (∀ path, path ≠ "output_0f3a.mp3" →
         files w' !! path = files (chosen "direct") !! path)
    ∧ USER_STATES w' = USER_STATES (chosen "direct").
Proof.
  apply (generate_voice_writes_the_answer (scripted_env answers_pending_failed)
           "Hello world" (Some "secret") default_voice_id (chosen "direct")
           (ok_response "AUDIO"
              {[ "url" := "https://files/a.mp3"; "video_id" := "job" ]}));
    reflexivity.
Defined.

(** X2.  A synthesis that fails after the checks made exactly one request
    (nothing is retried), wrote no file, and raises a plain [Exception]:
    with the prefix [Network error: ] when the request itself raised a
    [RequestException], with [Unexpected error: ] when it raised anything
    else or was answered with a status other than 200. *)
Theorem generate_voice_fails_clean env text eleven_api_key voice_id w :
  truthy (strip text) = true → truthy_opt eleven_api_key = true →
  (∀ e, requests_post env (trace w) (tts_url voice_id) = inl e →
     generate_voice env text eleven_api_key voice_id w
     = (Raised (wrapped e), log [EvPost (tts_url voice_id)] w))
  ∧ (∀ r, requests_post env (trace w) (tts_url voice_id) = inr r →
       status_code r ≠ 200 →
       generate_voice env text eleven_api_key voice_id w
       = (Raised (Exception ("Unexpected error: Voice generation failed. Status code: "
                             +:+ pretty (status_code r) +:+ ", Response: "
                             +:+ resp_text r)),
          log [EvPost (tts_url voice_id)] w)).
Proof.
  intros Htext Hkey. split.
  - intros e He. by rewrite generate_voice_run, He.
  - intros r Hr Hcode. rewrite generate_voice_run, Hr by done.
    by rewrite (proj2 (Z.eqb_neq _ _) Hcode).
Qed.

Lemma generate_voice_fails_clean_witness :
  generate_voice offline_env "Hello world" (Some "secret") default_voice_id
    audio_world
  = (Raised (Exception "Network error: Connection refused"),
     log [EvPost (tts_url default_voice_id)] audio_world)
  ∧ generate_voice (rejecting_env 401 "Unauthorized")
      "Hello world" (Some "secret") default_voice_id audio_world
    = (Raised (Exception "Unexpected error: Voice generation failed. Status code: 401, Response: Unauthorized"),
       log [EvPost (tts_url default_voice_id)] audio_world).
Proof.
  split.
  - apply (proj1 (generate_voice_fails_clean offline_env "Hello world"
                    (Some "secret") default_voice_id audio_world
                    eq_refl eq_refl) (RequestException "Connection refused")).
    reflexivity.
  - apply (proj2 (generate_voice_fails_clean (rejecting_env 401 "Unauthorized")
                    "Hello world" (Some "secret") default_voice_id audio_world
                    eq_refl eq_refl)
             {| status_code := 401; resp_text := "Unauthorized";
                content := ""; json := None; json_error := not_json |}).
    + reflexivity.
    + vm_compute. discriminate.
Defined.


(** ** video_gen.py beyond the three scenarios *)

(** X3.  With the audio file in place, the renderer checks the key and
    then the avatar id before anything else: a missing or empty key, or,
    the key being there, a missing or empty avatar id, raises [ValueError],
    unwrapped, with no request sent and the world as it was. *)
Theorem render_validates_first env fuel audio_path api_key avatar_id
    max_retries poll_interval w :
  is_Some (files w !! audio_path) →
  let render := generate_avatar_video env fuel audio_path api_key avatar_id
                  max_retries poll_interval w in
  (truthy_opt api_key = false →
     render = (Raised (ValueError "HeyGen API key is required."), w))
  ∧ (truthy_opt api_key = true → truthy_opt avatar_id = false →
       render = (Raised (ValueError "Avatar ID is required."), w)).
Proof.
  intros H render. subst render. unfold generate_avatar_video.
  rewrite bind_run, os_path_exists_run. cbv beta iota.
  rewrite bool_decide_eq_true_2 by done.
  split.
  - intros Hkey. by rewrite Hkey.
  - intros Hkey Hav. by rewrite Hkey, Hav.
Qed.

Lemma render_validates_first_witness :
  generate_avatar_video offline_env 3 "output_0f3a.mp3" None None
    3 10 audio_world
  = (Raised (ValueError "HeyGen API key is required."), audio_world)
  ∧ generate_avatar_video offline_env 3 "output_0f3a.mp3" (Some "secret") (Some "")
      3 10 audio_world
    = (Raised (ValueError "Avatar ID is required."), audio_world).
Proof.
  split.
  - apply (proj1 (render_validates_first offline_env 3 "output_0f3a.mp3"
                    None None 3 10 audio_world
                    (ex_intro _ "AUDIO" eq_refl))).
    reflexivity.
  - apply (proj2 (render_validates_first offline_env 3 "output_0f3a.mp3"
                    (Some "secret") (Some "") 3 10 audio_world
                    (ex_intro _ "AUDIO" eq_refl))).
    + reflexivity.
    + reflexivity.
Defined.

(** The renderer once its arguments have passed the checks: the [try]
    block from the upload on. *)
Lemma render_checked env fuel audio_path api_key avatar_id max_retries
    poll_interval w :
  is_Some (files w !! audio_path) →
  truthy_opt api_key = true → truthy_opt avatar_id = true →
  generate_avatar_video env fuel audio_path api_key avatar_id max_retries
    poll_interval w
  = match requests_post env (trace w) upload_url with
    | inl e => (Raised (wrapped e), log [EvPost upload_url] w)
    | inr audio_resp =>
        wrap_errors
          (if negb (status_code audio_resp =? 200) then
             raise (Exception ("Audio upload failed. Status code: "
                               +:+ pretty (status_code audio_resp)
                               +:+ ", Response: " +:+ resp_text audio_resp))
           else
             audio_data ← json_data audio_resp;
             audio_url ← getitem audio_data "url";
             vid_resp ← post env generate_url;
             if negb (status_code vid_resp =? 200) then
               raise (Exception ("Video generation request failed. Status code: "
                                 +:+ pretty (status_code vid_resp)
                                 +:+ ", Response: " +:+ resp_text vid_resp))
             else
               vid_data ← json_data vid_resp;
               video_id ← getitem vid_data "video_id";
               poll_and_download env fuel video_id max_retries poll_interval)
          (log [EvPost upload_url] w)
    end.
Proof.
  intros [data Haudio] Hkey Havatar. unfold generate_avatar_video.
  rewrite bind_run, os_path_exists_run. cbv beta iota. rewrite Haudio.
  rewrite bool_decide_eq_true_2 by eauto. rewrite Hkey, Havatar.
  change (negb true) with false; cbv iota.
  unfold wrap_errors, try_except.
  rewrite bind_run, (open_rb_run _ _ _ Haudio). cbv beta iota.
  rewrite bind_run, post_run.
  destruct (requests_post env (trace w) upload_url) as [e|r]; [|reflexivity].
  unfold wrapped. by destruct (is_RequestException e).
Qed.

(** X4.  A non-success answer to the upload, or to the job submission
    after a successful upload, ends the call at once: no further request is
    made, nothing is polled, no file is written. *)
Theorem render_rejection_is_terminal env fuel audio_path api_key avatar_id
    max_retries poll_interval w :
  is_Some (files w !! audio_path) →
  truthy_opt api_key = true → truthy_opt avatar_id = true →
  let render := generate_avatar_video env fuel audio_path api_key avatar_id
                  max_retries poll_interval w in
  (∀ r, requests_post env (trace w) upload_url = inr r → status_code r ≠ 200 →
     render
     = (Raised (Exception ("Unexpected error: Audio upload failed. Status code: "
                           +:+ pretty (status_code r) +:+ ", Response: "
                           +:+ resp_text r)),
        log [EvPost upload_url] w))
  ∧ (∀ r1 j1 d1 r2,
       requests_post env (trace w) upload_url = inr r1 → status_code r1 = 200 →
       json r1 = Some j1 → j1 !! "data" = Some d1 → is_Some (d1 !! "url") →
       requests_post env (trace w ++ [EvPost upload_url]) generate_url = inr r2 →
       status_code r2 ≠ 200 →
       render
       = (Raised (Exception ("Unexpected error: Video generation request failed. Status code: "
                             +:+ pretty (status_code r2) +:+ ", Response: "
                             +:+ resp_text r2)),
          log [EvPost upload_url; EvPost generate_url] w)).
Proof.
  intros Haudio Hkey Havatar render. subst render.
  rewrite render_checked by done. split.
  - intros r Hr Hcode. rewrite Hr. unfold wrap_errors, try_except.
    by rewrite (proj2 (Z.eqb_neq _ _) Hcode).
  - intros r1 j1 d1 r2 Hr1 Hc1 Hj1 Hd1 [url Hurl] Hr2 Hc2.
    rewrite Hr1, Hc1, Z.eqb_refl. change (negb true) with false; cbv iota.
    unfold wrap_errors, try_except, json_data. rewrite Hj1.
    rewrite bind_run, (getitem_run _ _ _ _ Hd1).
    rewrite bind_run, (getitem_run _ _ _ _ Hurl).
    rewrite bind_run, post_run. cbn [trace log]. rewrite Hr2.
    rewrite (proj2 (Z.eqb_neq _ _) Hc2). cbn [negb]. cbv beta iota.
    by rewrite log_log.
Qed.

Lemma render_rejection_is_terminal_witness :
  generate_avatar_video (rejecting_env 413 "Payload Too Large") 3
    "output_0f3a.mp3" (Some "secret") (Some "avatar") 3 10 audio_world
  = (Raised (Exception "Unexpected error: Audio upload failed. Status code: 413, Response: Payload Too Large"),
     log [EvPost upload_url] audio_world)
  ∧ generate_avatar_video submit_rejecting_env 3
      "output_0f3a.mp3" (Some "secret") (Some "avatar") 3 10 audio_world
    = (Raised (Exception "Unexpected error: Video generation request failed. Status code: 500, Response: Internal Server Error"),
       log [EvPost upload_url; EvPost generate_url] audio_world).
Proof.
  split.
  - apply (proj1 (render_rejection_is_terminal (rejecting_env 413 "Payload Too Large")
                    3 "output_0f3a.mp3" (Some "secret") (Some "avatar") 3 10
                    audio_world (ex_intro _ "AUDIO" eq_refl) eq_refl eq_refl)
             {| status_code := 413; resp_text := "Payload Too Large";
                content := ""; json := None; json_error := not_json |}).
    + reflexivity.
    + vm_compute. discriminate.
  - apply (proj2 (render_rejection_is_terminal submit_rejecting_env
                    3 "output_0f3a.mp3" (Some "secret") (Some "avatar") 3 10
                    audio_world (ex_intro _ "AUDIO" eq_refl) eq_refl eq_refl)
             (ok_response "" {[ "url" := "https://files/a.mp3" ]})
             {[ "data" := {[ "url" := "https://files/a.mp3" ]} ]}
             {[ "url" := "https://files/a.mp3" ]}
             {| status_code := 500; resp_text := "Internal Server Error";
                content := ""; json := None; json_error := not_json |}).
    + reflexivity.
    + reflexivity.
    + reflexivity.
    + reflexivity.
    + by eexists.
    + reflexivity.
    + vm_compute. discriminate.
Defined.








(** X7.  Against a service that never reports a job completed without a
    video URL, the poll loop started with [retries] used up makes at most
    [max_retries - retries] queries and as many sleeps, so a call waits no
    longer than [max_retries] times [poll_interval]; and with that much
    fuel the loop, and the whole call, ends. *)
Theorem poll_loop_within_budget env video_id max_retries poll_interval fuel
    video_url retries w :
  names_completed_videos env →
  let budget := Z.to_nat (max_retries - retries) in
  (∃ evs,
     (poll_loop env video_id max_retries poll_interval fuel video_url retries w).2
     = log evs w
     ∧ (polls video_id evs ≤ budget)%nat
     ∧ (sleeps poll_interval evs ≤ budget)%nat)
  ∧ ((budget ≤ fuel)%nat →
     (poll_loop env video_id max_retries poll_interval fuel video_url retries w).1
     ≠ Diverged)
  ∧ (∀ audio_path api_key avatar_id,
       (Z.to_nat max_retries ≤ fuel)%nat →
       (generate_avatar_video env fuel audio_path api_key avatar_id max_retries
          poll_interval w).1 ≠ Diverged).
Proof.
  intros Hgood budget. split; [|split].
  - subst budget. revert video_url retries w.
    induction fuel as [|fuel IH]; intros video_url retries w;
      rewrite poll_loop_unfold;
      (destruct (negb (truthy_opt video_url) && (retries <? max_retries)) eqn:Hc;
       [|exists []; rewrite log_nil; split; [done|]; split; cbn; lia]).
    { exists []. rewrite log_nil. split; [done|]. split; cbn; lia. }
    apply andb_true_iff in Hc as [Hurl Hlt%Z.ltb_lt].
    assert (sleeps poll_interval [EvGet (status_url video_id)] = 0%nat) as Hs0
      by (unfold sleeps; by rewrite count_occ_cons_neq).
    assert (sleeps poll_interval
              [EvGet (status_url video_id); EvSleep poll_interval] = 1%nat) as Hs1.
    { unfold sleeps. rewrite count_occ_cons_neq by done.
      by rewrite count_occ_cons_eq. }
    set (retry := (sleep poll_interval;; mret (video_url, retries + 1))
                  ≫= λ st, poll_loop env video_id max_retries poll_interval fuel
                             st.1 st.2).
    assert (∃ evs,
      (retry (log [EvGet (status_url video_id)] w)).2 = log evs w
      ∧ (polls video_id evs ≤ Z.to_nat (max_retries - retries))%nat
      ∧ (sleeps poll_interval evs ≤ Z.to_nat (max_retries - retries))%nat)
      as Hretry.
    { subst retry. rewrite !bind_run.
      destruct (sleep_cases poll_interval (log [EvGet (status_url video_id)] w))
        as [[_ ->]|[_ [e ->]]].
      - rewrite ret_run, log_log. cbn [fst snd].
        change ([EvGet (status_url video_id)] ++ [EvSleep poll_interval])
          with [EvGet (status_url video_id); EvSleep poll_interval].
        destruct (IH video_url (retries + 1)
                    (log [EvGet (status_url video_id); EvSleep poll_interval] w))
          as (evs & -> & Hp & Hs).
        exists ([EvGet (status_url video_id); EvSleep poll_interval] ++ evs).
        rewrite log_log. split; [done|].
        rewrite polls_app, polls_query_sleep. unfold sleeps in *.
        rewrite count_occ_app, Hs1. lia.
      - exists [EvGet (status_url video_id)]. split; [done|].
        rewrite polls_query, Hs0. lia. }
    rewrite bind_run, poll_body_cases.
    pose proof (Hgood (trace w) (status_url video_id)) as Hk.
    destruct (classify _) as [e| |e|url| |]; cbn [fst snd].
    + exists [EvGet (status_url video_id)]. split; [done|].
      rewrite polls_query, Hs0. lia.
    + exact Hretry.
    + exists [EvGet (status_url video_id)]. split; [done|].
      rewrite polls_query, Hs0. lia.
    + rewrite poll_loop_exit by (left; by destruct url).
      exists [EvGet (status_url video_id)]. split; [done|].
      rewrite polls_query, Hs0. lia.
    + exists [EvGet (status_url video_id)]. split; [done|].
      rewrite polls_query, Hs0. lia.
    + exact Hretry.
  - intros Hfuel. by apply ends_poll_loop.
  - intros audio_path api_key avatar_id Hfuel.
    by apply ends_generate_avatar_video.
Qed.

Lemma poll_loop_within_budget_witness :
  (∃ evs,
     (poll_loop (scripted_env answers_pending_failed) "job" 3 10 3 None 0
        audio_world).2 = log evs audio_world
     ∧ (polls "job" evs ≤ Z.to_nat (3 - 0))%nat
     ∧ (sleeps 10 evs ≤ Z.to_nat (3 - 0))%nat)
  ∧ ((Z.to_nat (3 - 0) ≤ 3)%nat →
     (poll_loop (scripted_env answers_pending_failed) "job" 3 10 3 None 0
        audio_world).1 ≠ Diverged)
  ∧ (∀ audio_path api_key avatar_id,
       (Z.to_nat 3 ≤ 3)%nat →
       (generate_avatar_video (scripted_env answers_pending_failed) 3 audio_path
          api_key avatar_id 3 10 audio_world).1 ≠ Diverged).
Proof.
  apply (poll_loop_within_budget (scripted_env answers_pending_failed) "job" 3 10
           3 None 0 audio_world).
  intros h url. unfold scripted_env. cbn [requests_get].
  destruct (String.eqb url (status_url "job")).
  - destruct (polls "job" h); vm_compute; discriminate.
  - vm_compute. discriminate.
Defined.




(** ** The menu and the mode selection *)

Lemma sleep_negative seconds w :
  - sleep_max ≤ seconds < 0 →
  sleep seconds w = (Raised (ValueError "sleep length must be non-negative"), w).
Proof.
  intros [Hmin Hneg]. unfold sleep.
  rewrite (proj2 (Z.ltb_ge _ _) Hmin).
  rewrite (proj2 (Z.ltb_ge _ _)) by (unfold sleep_max; lia).
  by rewrite (proj2 (Z.ltb_lt _ _) Hneg).
Qed.

(** X17.  A negative poll interval is found only when the loop first has to
    wait: the upload, the submission and one status query are made, and
    when that query's answer is one to retry, [time.sleep] raises the
    [ValueError] that the closing [except] wraps; nothing is retried and no
    file is written. *)
Theorem render_negative_interval env w audio_path api_key avatar_id video_id
    poll_interval max_retries fuel :
  reaches_poll env w audio_path api_key avatar_id video_id →
  0 < max_retries → (0 < fuel)%nat →
  retried (requests_get env (trace w ++ [EvPost upload_url; EvPost generate_url])
             (status_url video_id)) →
  - sleep_max ≤ poll_interval < 0 →
  generate_avatar_video env fuel audio_path api_key avatar_id max_retries
    poll_interval w
  = (Raised (Exception "Unexpected error: sleep length must be non-negative"),
     log [EvPost upload_url; EvPost generate_url; EvGet (status_url video_id)] w).
Proof.
  intros Hreach Hmax Hfuel Hretry Hneg. destruct fuel as [|fuel]; [lia|].
  rewrite (render_run _ _ _ _ _ _ video_id) by done.
  unfold wrap_errors, try_except, poll_and_download.
  rewrite bind_run, poll_loop_unfold.
  rewrite (proj2 (Z.ltb_lt _ _) Hmax).
  change (negb (truthy_opt None) && true) with true. cbv iota.
  rewrite bind_run, poll_body_cases. cbn [trace log].
  assert ((sleep poll_interval;; mret (None : option string, 0 + 1))
            (log [EvGet (status_url video_id)]
               (log [EvPost upload_url; EvPost generate_url] w))
          = (Raised (ValueError "sleep length must be non-negative"),
             log [EvPost upload_url; EvPost generate_url;
                  EvGet (status_url video_id)] w)) as Hwait.
  { by rewrite bind_run, sleep_negative, log_log. }
  destruct Hretry as [-> | ->]; by rewrite Hwait.
Qed.

Lemma render_negative_interval_witness :
  generate_avatar_video (scripted_env answers_bad_gateway) 3
    "output_0f3a.mp3" (Some "secret") (Some "avatar") 3 (-1) audio_world
  = (Raised (Exception "Unexpected error: sleep length must be non-negative"),
     log [EvPost upload_url; EvPost generate_url; EvGet (status_url "job")]
       audio_world).
Proof.
  apply (render_negative_interval (scripted_env answers_bad_gateway) audio_world
           "output_0f3a.mp3" (Some "secret") (Some "avatar") "job" (-1) 3 3).
  - split; [by eexists|reflexivity|reflexivity|..].
    + eexists _, _, _. repeat split; [reflexivity..|]. by eexists.
    + eexists _, _, _. repeat split; reflexivity.
  - lia.
  - lia.
  - right. reflexivity.
  - unfold sleep_max. lia.
Defined.

Lemma send_run env e w :
  send env e w =
  (match telegram env (trace w) with
   | Some ex => Raised ex
   | None => Normal ()
   end, log [e] w).
Proof.
  unfold send, history, emit.
  rewrite bind_run. cbv beta iota. rewrite bind_run. cbv beta iota.
  by destruct (telegram env (trace w)).
Qed.

Lemma button_run env prompts user_id data w :
  (send env EvAnswer;;
   let input_type := data in
   states_set user_id {[ "input_type" := input_type ]};;
   prompt ← getitem prompts input_type;
   send env (EvEditMessage prompt)) w
  = button_outcome env prompts user_id data w.
Proof.
  unfold button_outcome. rewrite bind_run, send_run.
  destruct (telegram env (trace w)); [done|]. cbv beta iota zeta.
  rewrite bind_run. unfold states_set at 1, act. cbv beta iota.
  rewrite bind_run. unfold getitem.
  destruct (prompts !! data) as [prompt|]; [|done].
  unfold mret at 1, M_ret. cbv beta iota. by rewrite send_run.
Qed.

(** X9.  Choosing a mode replaces whatever session the user had (a handle
    already collected is dropped) by one that only holds the new mode, and
    touches no other user's session; with data that has no prompt the
    session is stored all the same before the [KeyError]; and when the
    callback cannot even be answered the store is left alone. *)
Theorem handle_button_replaces_session env user_id data w :
  Bot.handle_button env user_id data w
  = button_outcome env Bot.prompts user_id data w
  ∧ ApifyScraper.handle_button env user_id data w
    = button_outcome env ApifyScraper.prompts user_id data w
  ∧ ∀ prompts,
      let r := button_outcome env prompts user_id data w in
      files r.2 = files w
      ∧ (telegram env (trace w) = None →
         USER_STATES r.2 !! user_id = Some {[ "input_type" := data ]}
         ∧ ∀ other, other ≠ user_id →
             USER_STATES r.2 !! other = USER_STATES w !! other)
      ∧ (is_Some (telegram env (trace w)) → USER_STATES r.2 = USER_STATES w).
Proof.
  split; [apply button_run|]. split; [apply button_run|].
  intros prompts r. subst r. unfold button_outcome.
  destruct (telegram env (trace w)) as [ex|].
  - split; [done|]. split; [done|]. by intros _.
  - cbv zeta.
    destruct (prompts !! data);
      (split; [done|]; split; [|by intros [? ?]]; intros _; cbn;
       split; [apply lookup_insert_eq|];
       intros other Hne; by rewrite lookup_insert_ne).
Qed.

(** X10.  Every button of the menu has a prompt in both files, so that
    selecting it ends normally (Telegram permitting) with the prompt shown;
    and for every such mode [bot.py] binds [script] or returns before using
    it. *)
Theorem menu_is_consistent label data :
  (label, data) ∈ keyboard →
  (∃ prompt, Bot.prompts !! data = Some prompt)
  ∧ (∃ prompt, ApifyScraper.prompts !! data = Some prompt)
  ∧ (∀ env user_id w, telegram_up env →
       (Bot.handle_button env user_id data w).1 = Normal ()
       ∧ (ApifyScraper.handle_button env user_id data w).1 = Normal ())
  ∧ (∀ env msg w, (Bot.read_script env msg data w).1 ≠ Normal None).
Proof.
  intros Hin.
  assert (data = "direct" ∨ data = "twitter" ∨ data = "voice") as Hdata.
  { unfold keyboard in Hin. rewrite !elem_of_cons in Hin.
    destruct Hin as [H|[H|[H|H]]]; [injection H as _ ->; auto..|].
    by apply elem_of_nil in H. }
  assert ((∃ prompt, Bot.prompts !! data = Some prompt)
          ∧ (∃ prompt, ApifyScraper.prompts !! data = Some prompt)) as [Hb Ha].
  { destruct Hdata as [-> | [-> | ->]]; split; eexists; reflexivity. }
  split; [done|]. split; [done|]. split.
  - intros env user_id w Hup.
    unfold Bot.handle_button, ApifyScraper.handle_button.
    rewrite !button_run. unfold button_outcome. rewrite !Hup.
    by destruct Hb as [pb ->], Ha as [pa ->].
  - intros env msg w. unfold Bot.read_script.
    destruct Hdata as [-> | [-> | ->]].
    + change (String.eqb "direct" "direct") with true. cbv iota.
      rewrite bind_run. destruct (text_strip msg w) as [[s| |e|] w1]; try done.
      rewrite bind_run. by destruct (reply_text env _ w1) as [[[]| |e|] w2].
    + change (String.eqb "twitter" "direct") with false.
      change (String.eqb "twitter" "voice") with false.
      change (String.eqb "twitter" "twitter") with true. cbv iota.
      rewrite bind_run. by destruct (reply_text env _ w) as [[[]| |e|] w1].
    + change (String.eqb "voice" "direct") with false.
      change (String.eqb "voice" "voice") with true. cbv iota.
      destruct (voice msg).
      2:{ rewrite bind_run. by destruct (reply_text env _ w) as [[[]| |e|] w1]. }
      assert (∀ {A} (m : M A) (f : A → M (option string)),
                (∀ a w', (f a w').1 ≠ Normal None) →
                ∀ w', ((m ≫= f) w').1 ≠ Normal None) as Hbind.
      { intros A m f Hf w'. rewrite bind_run.
        by destruct (m w') as [[a| |e|] w'']. }
      revert w. by repeat (apply Hbind; intros ??).
Qed.

Lemma menu_is_consistent_witness :
  (∃ prompt, Bot.prompts !! "voice" = Some prompt)
  ∧ (∃ prompt, ApifyScraper.prompts !! "voice" = Some prompt)
  ∧ (∀ env user_id w, telegram_up env →
       (Bot.handle_button env user_id "voice" w).1 = Normal ()
       ∧ (ApifyScraper.handle_button env user_id "voice" w).1 = Normal ())
  ∧ (∀ env msg w, (Bot.read_script env msg "voice" w).1 ≠ Normal None).
Proof.
  apply (menu_is_consistent "🎤 Voice Idea" "voice").
  vm_compute. do 2 right. left.
Defined.


Lemma handle_button_replaces_session_witness :
  USER_STATES (button_outcome (scripted_env answers_pending_failed)
                 ApifyScraper.prompts 7 "direct" two_sessions).2 !! 7
  = Some {[ "input_type" := "direct" ]}
  ∧ ∀ other, other ≠ 7 →
      USER_STATES (button_outcome (scripted_env answers_pending_failed)
                     ApifyScraper.prompts 7 "direct" two_sessions).2 !! other
      = USER_STATES two_sessions !! other.
Proof.
  exact (proj1 (proj2 (proj2 (proj2
           (handle_button_replaces_session (scripted_env answers_pending_failed)
              7 "direct" two_sessions))
           ApifyScraper.prompts)) eq_refl).
Defined.

(** ** The handlers at their edges *)

Lemma named_temporary_file_run env suffix w :
  named_temporary_file env suffix w
  = (Normal (mkstemp env (trace w) +:+ suffix),
     set_files (<[mkstemp env (trace w) +:+ suffix := ""]> (files w)) w).
Proof. reflexivity. Qed.

Lemma download_to_drive_run env path w :
  download_to_drive env path w
  = match telegram env (trace w) with
    | Some ex => (Raised ex, log [EvDownloadToDrive path] w)
    | None =>
        (Normal (),
         set_files (<[path := voice_note env (trace w)]> (files w))
           (log [EvDownloadToDrive path] w))
    end.
Proof.
  unfold download_to_drive. rewrite bind_run. unfold history at 1. cbv beta iota.
  rewrite bind_run, send_run. by destruct (telegram env (trace w)).
Qed.

Lemma transcribe_run env path w :
  transcribe env path w
  = (match whisper env (trace w) with
     | inl e => Raised e
     | inr transcript => Normal transcript
     end, log [EvTranscribe path] w).
Proof.
  unfold transcribe, history, emit, of_sum.
  rewrite bind_run. cbv beta iota. rewrite bind_run. cbv beta iota.
  by destruct (whisper env (trace w)).
Qed.

(** The [finally] block in a frame without variables only drops the
    session. *)
Lemma cleanup_empty_frame user_id w :
  audio_var (frame w) = None → video_var (frame w) = None →
  cleanup user_id w
  = (Normal (), set_states (delete user_id (USER_STATES w)) w).
Proof.
  intros Ha Hv. rewrite cleanup_run. cbn [frame set_states]. rewrite Ha.
  rewrite bind_run. change (remove_if_bound None ?x) with (Normal (), x).
  cbv beta iota. rewrite bind_run. unfold locals at 1, act. cbv beta iota.
  cbn [frame set_states]. by rewrite Hv.
Qed.

(** Whatever the [finally] block does to the trace is a call of
    [os.remove]. *)
Lemma remove_if_bound_trace var w :
  ∃ evs, trace (remove_if_bound var w).2 = trace w ++ evs
         ∧ Forall is_remove evs
         ∧ frame (remove_if_bound var w).2 = frame w.
Proof.
  destruct var as [[p|t]|].
  - rewrite remove_if_bound_run. destruct (files w !! p).
    + exists [EvRemove p]. split; [done|]. split; [|done].
      constructor; [by eexists|constructor].
    + exists []. by rewrite app_nil_r.
  - exists []. by rewrite app_nil_r.
  - exists []. by rewrite app_nil_r.
Qed.

Lemma cleanup_trace user_id w :
  ∃ evs, trace (cleanup user_id w).2 = trace w ++ evs ∧ Forall is_remove evs.
Proof.
  rewrite cleanup_run.
  set (wa := set_states (delete user_id (USER_STATES w)) w).
  destruct (remove_if_bound_trace (audio_var (frame w)) wa) as (e1 & Ht1 & Hr1 & Hf1).
  rewrite bind_run.
  destruct (remove_if_bound (audio_var (frame w)) wa) as [[[]| |e|] wb];
    cbn [snd] in *; try by exists e1.
  rewrite bind_run. unfold locals at 1, act. cbv beta iota.
  destruct (remove_if_bound_trace (video_var (frame wb)) wb) as (e2 & Ht2 & Hr2 & _).
  exists (e1 ++ e2). rewrite Ht2, Ht1, (assoc_L (++)).
  split; [done|]. by apply Forall_app.
Qed.

(** A [try] statement whose body raises: the [except] clause answers, the
    [finally] block removes. *)
Lemma handler_reports body (notice : exn → string) env user_id w e w1 :
  body (set_frame empty_frame w) = (Raised e, w1) →
  ∃ evs,
    trace (call (try_finally
                   (try_except body (λ e, reply_text env (notice e)))
                   (cleanup user_id))
             (set_frame empty_frame w)).2
    = trace w1 ++ EvReplyText (notice e) :: evs
    ∧ Forall is_remove evs.
Proof.
  intros Hbody. rewrite call_world.
  unfold try_finally, try_except. rewrite Hbody, reply_text_run.
  set (w2 := log [EvReplyText (notice e)] w1).
  destruct (cleanup_trace user_id w2) as (evs & Ht & Hr).
  exists evs. split; [|done].
  assert (trace w2 = trace w1 ++ [EvReplyText (notice e)]) as Hw2 by done.
  rewrite Hw2, <- (assoc_L (++)) in Ht.
  destruct (telegram env (trace w1));
    by destruct (cleanup user_id w2) as [[[]| |e'|] w3].
Qed.

(** X11.  Whatever exception the [try] block of a handler raises, the
    handler answers the user with it, [str(e)] after a fixed prefix, and
    after that answer only removes files. *)
Theorem errors_are_reported env fuel msg w user_state e w1 :
  USER_STATES w !! from_user_id msg = Some user_state →
  (Bot.try_block env fuel msg user_state (set_frame empty_frame w) = (Raised e, w1) →
   ∃ evs,
     trace (Bot.process_content env fuel msg w).2
     = trace w1 ++ EvReplyText ("⚠️ An error occurred: " +:+ str_exn e) :: evs
     ∧ Forall is_remove evs)
  ∧ (user_state ≠ ∅ →
     ApifyScraper.try_block env fuel msg user_state (set_frame empty_frame w)
     = (Raised e, w1) →
     ∃ evs,
       trace (ApifyScraper.process_content env fuel msg w).2
       = trace w1 ++ EvReplyText ("Error occurred: " +:+ str_exn e) :: evs
       ∧ Forall is_remove evs).
Proof.
  intros Hst. split.
  - intros Hbody. rewrite (bot_started env fuel msg w user_state Hst).
    by apply (handler_reports _ (λ e, "⚠️ An error occurred: " +:+ str_exn e)).
  - intros Hne Hbody. rewrite (apify_started env fuel msg w user_state Hst Hne).
    by apply (handler_reports _ (λ e, "Error occurred: " +:+ str_exn e)).
Qed.

Lemma errors_are_reported_witness :
  ∃ evs,
    trace (Bot.process_content (rejecting_env 401 "Unauthorized") 3 hello_msg
             (chosen "direct")).2
    = trace (Bot.try_block (rejecting_env 401 "Unauthorized") 3 hello_msg
               {[ "input_type" := "direct" ]}
               (set_frame empty_frame (chosen "direct"))).2
      ++ EvReplyText ("⚠️ An error occurred: "
                      +:+ "Unexpected error: Voice generation failed. Status code: 401, Response: Unauthorized")
         :: evs
    ∧ Forall is_remove evs.
Proof.
  apply (proj1 (errors_are_reported (rejecting_env 401 "Unauthorized") 3 hello_msg
                  (chosen "direct") {[ "input_type" := "direct" ]}
                  (Exception "Unexpected error: Voice generation failed. Status code: 401, Response: Unauthorized")
                  _ eq_refl)).
  vm_compute. reflexivity.
Defined.


(** A [try] statement that ends without local variables for the [finally]
    block to look at. *)
Lemma handler_quiet_exit body handler user_id w o w1 :
  body w = (o, w1) → o = Normal () ∨ o = Returned →
  audio_var (frame w1) = None → video_var (frame w1) = None →
  call (try_finally (try_except body handler) (cleanup user_id)) w
  = (Normal (), set_states (delete user_id (USER_STATES w1)) w1).
Proof.
  intros Hbody Ho Ha Hv. unfold call, try_finally, try_except. rewrite Hbody.
  destruct Ho as [-> | ->]; by rewrite (cleanup_empty_frame _ _ Ha Hv).
Qed.

Lemma handler_caught body handler user_id w e w1 w2 :
  body w = (Raised e, w1) → handler e w1 = (Normal (), w2) →
  audio_var (frame w2) = None → video_var (frame w2) = None →
  call (try_finally (try_except body handler) (cleanup user_id)) w
  = (Normal (), set_states (delete user_id (USER_STATES w2)) w2).
Proof.
  intros Hbody Hh Ha Hv. unfold call, try_finally, try_except.
  rewrite Hbody, Hh. by rewrite (cleanup_empty_frame _ _ Ha Hv).
Qed.

Lemma answered_then (first second : M unit) w user_id evs1 evs2 :
  answered (first w) w user_id evs1 →
  (∀ w1, USER_STATES w1 !! user_id = None →
         answered (second w1) w1 user_id evs2) →
  answered ((first;; second) w) w user_id (evs1 ++ evs2).
Proof.
  intros (Ho & Ht & Hf & Hs) Hsecond.
  unfold answered. rewrite bind_run.
  destruct (first w) as [[[]| |e|] w1]; try done. cbn [fst snd] in *.
  destruct (Hsecond w1) as (Ho2 & Ht2 & Hf2 & Hs2).
  { rewrite Hs. apply lookup_delete_eq. }
  split; [done|]. rewrite Ht2, Ht, Hf2, Hf, Hs2, Hs, (assoc_L (++)).
  split; [done|]. split; [done|]. by rewrite delete_delete_eq.
Qed.

Lemma bot_not_started_answered env fuel msg w :
  telegram_up env → USER_STATES w !! from_user_id msg = None →
  answered (Bot.process_content env fuel msg w) w (from_user_id msg)
    [EvReplyText "⚠️ Please start with /start"].
Proof.
  intros Hup Hnone. rewrite (bot_not_started _ _ _ _ Hnone), Hup.
  split; [done|]. split; [done|]. split; [done|].
  cbn [snd log set_frame USER_STATES]. by rewrite delete_id.
Qed.

Lemma apify_not_started_answered env fuel msg w :
  telegram_up env → USER_STATES w !! from_user_id msg = None →
  answered (ApifyScraper.process_content env fuel msg w) w (from_user_id msg)
    [EvReplyText "Please start with /start"].
Proof.
  intros Hup Hnone. rewrite (apify_not_started _ _ _ _ Hnone), Hup.
  split; [done|]. split; [done|]. split; [done|].
  cbn [snd log set_frame USER_STATES]. by rewrite delete_id.
Qed.

Lemma session_has_input_type (user_state : gmap string string) v :
  user_state !! "input_type" = Some v → user_state ≠ ∅.
Proof. intros H ->. by rewrite lookup_empty in H. Qed.

(** One message to [bot.py] in the twitter mode, or without a recording in
    the voice mode. *)
Lemma bot_notice env fuel msg w user_state :
  telegram_up env →
  USER_STATES w !! from_user_id msg = Some user_state →
  (user_state !! "input_type" = Some "twitter" →
   answered (Bot.process_content env fuel msg w) w (from_user_id msg)
     [EvReplyText "⚠️ Twitter scraping is currently paused. Use /start to choose another option."])
  ∧ (user_state !! "input_type" = Some "voice" → voice msg = false →
     answered (Bot.process_content env fuel msg w) w (from_user_id msg)
       [EvReplyText "⚠️ Please send a voice message."]).
Proof.
  intros Hup Hst. rewrite (bot_started env fuel msg w user_state Hst).
  split.
  - intros Hit.
    erewrite handler_quiet_exit; [| |by right|..]; cycle 1.
    { unfold Bot.try_block. rewrite bind_run, (getitem_run _ _ _ _ Hit).
      rewrite bind_run. unfold Bot.read_script.
      change (String.eqb "twitter" "direct") with false.
      change (String.eqb "twitter" "voice") with false.
      change (String.eqb "twitter" "twitter") with true. cbv iota.
      rewrite bind_run, reply_text_run, Hup. reflexivity. }
    { reflexivity. }
    { reflexivity. }
    done.
  - intros Hit Hvoice.
    erewrite handler_quiet_exit; [| |by right|..]; cycle 1.
    { unfold Bot.try_block. rewrite bind_run, (getitem_run _ _ _ _ Hit).
      rewrite bind_run. unfold Bot.read_script.
      change (String.eqb "voice" "direct") with false.
      change (String.eqb "voice" "voice") with true. cbv iota.
      rewrite Hvoice.
      rewrite bind_run, reply_text_run, Hup. reflexivity. }
    { reflexivity. }
    { reflexivity. }
    done.
Qed.

Lemma apify_notice env fuel msg w user_state :
  telegram_up env →
  USER_STATES w !! from_user_id msg = Some user_state →
  user_state !! "input_type" = Some "voice" → voice msg = false →
  answered (ApifyScraper.process_content env fuel msg w) w (from_user_id msg)
    [EvReplyText "Send a voice message."].
Proof.
  intros Hup Hst Hit Hvoice.
  rewrite (apify_started env fuel msg w user_state Hst
             (session_has_input_type _ _ Hit)).
  erewrite handler_quiet_exit; [| |by right|..]; cycle 1.
  { unfold ApifyScraper.try_block. cbv zeta.
    rewrite bind_run, (getitem_run _ _ _ _ Hit).
    change (String.eqb "voice" "twitter") with false.
    change (false && ?b) with false. cbv iota.
    rewrite bind_run. unfold ApifyScraper.read_script.
    change (String.eqb "voice" "twitter") with false.
    change (false && ?b) with false. change (false && ?b) with false.
    change (String.eqb "voice" "direct") with false.
    change (String.eqb "voice" "voice") with true. cbv iota.
    rewrite Hvoice.
    rewrite bind_run, reply_text_run, Hup. reflexivity. }
  { reflexivity. }
  { reflexivity. }
  done.
Qed.

(** X12.  A message that the chosen mode cannot use costs the session: in
    [bot.py] any message in the twitter mode, and in both files a message
    without a recording in the voice mode, is answered with a notice, and
    whatever the same user sends next is answered with the request to
    start over. *)
Theorem notice_costs_the_session env fuel msg next w user_state :
  telegram_up env →
  USER_STATES w !! from_user_id msg = Some user_state →
  from_user_id next = from_user_id msg →
  (user_state !! "input_type" = Some "twitter" →
   answered ((Bot.process_content env fuel msg;;
              Bot.process_content env fuel next) w) w (from_user_id msg)
     [EvReplyText "⚠️ Twitter scraping is currently paused. Use /start to choose another option.";
      EvReplyText "⚠️ Please start with /start"])
  ∧ (user_state !! "input_type" = Some "voice" → voice msg = false →
     answered ((Bot.process_content env fuel msg;;
                Bot.process_content env fuel next) w) w (from_user_id msg)
       [EvReplyText "⚠️ Please send a voice message.";
        EvReplyText "⚠️ Please start with /start"]
     ∧ answered ((ApifyScraper.process_content env fuel msg;;
                  ApifyScraper.process_content env fuel next) w) w
         (from_user_id msg)
         [EvReplyText "Send a voice message.";
          EvReplyText "Please start with /start"]).
Proof.
  intros Hup Hst Hnext.
  destruct (bot_notice env fuel msg w user_state Hup Hst) as [Htw Hvo].
  split; [|split].
  - intros Hit.
    apply (answered_then _ _ w (from_user_id msg) [_] [_]); [by apply Htw|].
    intros w1 Hnone. rewrite <- Hnext.
    apply bot_not_started_answered; [done|]. by rewrite Hnext.
  - apply (answered_then _ _ w (from_user_id msg) [_] [_]); [by apply Hvo|].
    intros w1 Hnone. rewrite <- Hnext.
    apply bot_not_started_answered; [done|]. by rewrite Hnext.
  - apply (answered_then _ _ w (from_user_id msg) [_] [_]);
      [by apply (apify_notice env fuel msg w user_state)|].
    intros w1 Hnone. rewrite <- Hnext.
    apply apify_not_started_answered; [done|]. by rewrite Hnext.
Qed.

Lemma notice_costs_the_session_witness :
  answered ((Bot.process_content (scripted_env answers_pending_failed) 3 hello_msg;;
             Bot.process_content (scripted_env answers_pending_failed) 3 voice_msg)
              (chosen "voice")) (chosen "voice") 7
    [EvReplyText "⚠️ Please send a voice message.";
     EvReplyText "⚠️ Please start with /start"]
  ∧ answered ((ApifyScraper.process_content (scripted_env answers_pending_failed) 3 hello_msg;;
               ApifyScraper.process_content (scripted_env answers_pending_failed) 3 voice_msg)
                (chosen "voice")) (chosen "voice") 7
      [EvReplyText "Send a voice message.";
       EvReplyText "Please start with /start"].
Proof.
  apply (proj2 (notice_costs_the_session (scripted_env answers_pending_failed) 3
                  hello_msg voice_msg (chosen "voice") {[ "input_type" := "voice" ]}
                  (λ _, eq_refl) eq_refl eq_refl) eq_refl eq_refl).
Defined.


Lemma generate_voice_rejects env text eleven_api_key voice_id w :
  truthy (strip text) = false ∨ truthy_opt eleven_api_key = false →
  generate_voice env text eleven_api_key voice_id w
  = (Raised (ValueError (rejection text)), w).
Proof.
  intros H. unfold generate_voice, rejection.
  destruct (truthy (strip text)) eqn:Htext; [|done].
  destruct H as [H|H]; [discriminate|]. by rewrite H.
Qed.

Lemma strip_blank s : truthy s = false → truthy (strip s) = false.
Proof. by destruct s. Qed.

Lemma text_strip_run msg t w :
  text msg = Some t → text_strip msg w = (Normal (strip t), w).
Proof. intros H. unfold text_strip. by rewrite H. Qed.

(** X13.  In the direct mode a text that is blank once stripped, or a
    missing [ELEVEN_LABS_API_KEY], is found only by [generate_voice]: the
    user is shown the script and the progress notice, then the
    [ValueError], the text being looked at before the key; no request is
    sent, no file is written, and the session is gone. *)
Theorem direct_mode_validation env fuel msg w user_state t :
  telegram_up env →
  USER_STATES w !! from_user_id msg = Some user_state →
  user_state !! "input_type" = Some "direct" →
  text msg = Some t →
  truthy (strip t) = false
  ∨ truthy_opt (getenv env "ELEVEN_LABS_API_KEY") = false →
  answered (Bot.process_content env fuel msg w) w (from_user_id msg)
    [EvReplyText "📝 Processing your script...";
     EvReplyText ("📄 Generated Script:" +:+ nl +:+ nl +:+ strip t);
     EvReplyText "🔊 Generating voiceover...";
     EvReplyText ("⚠️ An error occurred: " +:+ rejection (strip t))]
  ∧ answered (ApifyScraper.process_content env fuel msg w) w (from_user_id msg)
      [EvReplyText ("Generated Script:" +:+ nl +:+ nl +:+ strip t);
       EvReplyText "Generating voiceover...";
       EvReplyText ("Error occurred: " +:+ rejection (strip t))].
Proof.
  intros Hup Hst Hit Htext Hbad.
  assert (truthy (strip (strip t)) = false
          ∨ truthy_opt (getenv env "ELEVEN_LABS_API_KEY") = false) as Hbad'.
  { destruct Hbad as [H|H]; [left; by apply strip_blank|by right]. }
  split.
  - rewrite (bot_started env fuel msg w user_state Hst).
    erewrite handler_caught; cycle 1.
    { unfold Bot.try_block. rewrite bind_run, (getitem_run _ _ _ _ Hit).
      rewrite bind_run. unfold Bot.read_script.
      change (String.eqb "direct" "direct") with true. cbv iota.
      rewrite bind_run, (text_strip_run _ _ _ Htext).
      rewrite bind_run, reply_text_run, Hup, ret_run.
      rewrite bind_run. cbn [from_option]. rewrite ret_run.
      rewrite bind_run, reply_text_run, Hup.
      rewrite bind_run, reply_text_run, Hup.
      rewrite bind_run, (generate_voice_rejects _ _ _ _ _ Hbad').
      reflexivity. }
    { unfold Bot.except_block. rewrite reply_text_run, Hup.
      cbn [str_exn]. reflexivity. }
    { reflexivity. }
    { reflexivity. }
    split; [done|]. split; [|done].
    cbn [snd trace log set_states set_frame]. by rewrite <- !(assoc_L (++)).
  - rewrite (apify_started env fuel msg w user_state Hst
               (session_has_input_type _ _ Hit)).
    erewrite handler_caught; cycle 1.
    { unfold ApifyScraper.try_block. cbv zeta.
      rewrite bind_run, (getitem_run _ _ _ _ Hit).
      change (String.eqb "direct" "twitter") with false.
      change (false && ?b) with false. cbv iota.
      rewrite bind_run. unfold ApifyScraper.read_script.
      change (String.eqb "direct" "twitter") with false.
      change (false && ?b) with false. change (false && ?b) with false.
      change (String.eqb "direct" "direct") with true. cbv iota.
      rewrite bind_run, (text_strip_run _ _ _ Htext), ret_run.
      rewrite bind_run. cbn [from_option]. rewrite ret_run.
      rewrite bind_run, reply_text_run, Hup.
      rewrite bind_run, reply_text_run, Hup.
      rewrite bind_run, (generate_voice_rejects _ _ _ _ _ Hbad').
      reflexivity. }
    { unfold ApifyScraper.except_block. rewrite reply_text_run, Hup.
      cbn [str_exn]. reflexivity. }
    { reflexivity. }
    { reflexivity. }
    split; [done|]. split; [|done].
    cbn [snd trace log set_states set_frame]. by rewrite <- !(assoc_L (++)).
Qed.

Lemma direct_mode_validation_witness :
  (answered (Bot.process_content keyless_env 3 hello_msg (chosen "direct"))
     (chosen "direct") 7
     [EvReplyText "📝 Processing your script...";
      EvReplyText ("📄 Generated Script:" +:+ nl +:+ nl +:+ "Hello world");
      EvReplyText "🔊 Generating voiceover...";
      EvReplyText "⚠️ An error occurred: ElevenLabs API key is required."]
   ∧ answered (ApifyScraper.process_content keyless_env 3 hello_msg (chosen "direct"))
       (chosen "direct") 7
       [EvReplyText ("Generated Script:" +:+ nl +:+ nl +:+ "Hello world");
        EvReplyText "Generating voiceover...";
        EvReplyText "Error occurred: ElevenLabs API key is required."])
  ∧ (answered (Bot.process_content keyless_env 3 blank_msg (chosen "direct"))
       (chosen "direct") 7
       [EvReplyText "📝 Processing your script...";
        EvReplyText ("📄 Generated Script:" +:+ nl +:+ nl +:+ "");
        EvReplyText "🔊 Generating voiceover...";
        EvReplyText "⚠️ An error occurred: Text cannot be empty."]
     ∧ answered (ApifyScraper.process_content keyless_env 3 blank_msg (chosen "direct"))
         (chosen "direct") 7
         [EvReplyText ("Generated Script:" +:+ nl +:+ nl +:+ "");
          EvReplyText "Generating voiceover...";
          EvReplyText "Error occurred: Text cannot be empty."]).
Proof.
  split.
  - apply (direct_mode_validation keyless_env 3 hello_msg (chosen "direct")
             {[ "input_type" := "direct" ]} "Hello world"
             (λ _, eq_refl) eq_refl eq_refl eq_refl (or_intror eq_refl)).
  - apply (direct_mode_validation keyless_env 3 blank_msg (chosen "direct")
             {[ "input_type" := "direct" ]}
             (String (ascii_of_nat 194) (String (ascii_of_nat 160) " "))
             (λ _, eq_refl) eq_refl eq_refl eq_refl (or_introl eq_refl)).
Defined.



(** X14.  When the transcription of a voice message fails, the recording
    that was downloaded under a temporary [.ogg] name stays on disk: the
    [os.remove] after the transcription is skipped and the [finally] block
    does not know the name.  [bot.py] reports the error and ends normally;
    in [apify_scraper.py], where [audio_file] is by then bound to the open
    file, the [finally] block itself raises the [TypeError] of
    [os.path.exists], after the report. *)
Theorem failed_transcription_leaves_the_recording env fuel msg w user_state e :
  telegram_up env → (∀ h, whisper env h = inl e) →
  USER_STATES w !! from_user_id msg = Some user_state →
  user_state !! "input_type" = Some "voice" → voice msg = true →
  (let h := trace w ++ [EvReplyText "🎤 Transcribing your voice message...";
                        EvGetFile] in
   let temp_path := mkstemp env h +:+ ".ogg" in
   let r := Bot.process_content env fuel msg w in
   r.1 = Normal ()
   ∧ trace r.2 = h ++ [EvDownloadToDrive temp_path; EvTranscribe temp_path;
                       EvReplyText ("⚠️ An error occurred: " +:+ str_exn e)]
   ∧ files r.2 !! temp_path = Some (voice_note env h)
   ∧ USER_STATES r.2 = delete (from_user_id msg) (USER_STATES w))
  ∧ (let h := trace w ++ [EvGetFile] in
     let temp_path := mkstemp env h +:+ ".ogg" in
     let r := ApifyScraper.process_content env fuel msg w in
     r.1 = Raised path_type_error
     ∧ trace r.2 = h ++ [EvDownloadToDrive temp_path; EvTranscribe temp_path;
                         EvReplyText ("Error occurred: " +:+ str_exn e)]
     ∧ files r.2 !! temp_path = Some (voice_note env h)
     ∧ USER_STATES r.2 = delete (from_user_id msg) (USER_STATES w)).
Proof.
  intros Hup Hwhisper Hst Hit Hvoice. split.
  - cbv zeta. rewrite (bot_started env fuel msg w user_state Hst).
    erewrite handler_caught; cycle 1.
    { unfold Bot.try_block. rewrite bind_run, (getitem_run _ _ _ _ Hit).
      rewrite bind_run. unfold Bot.read_script.
      change (String.eqb "voice" "direct") with false.
      change (String.eqb "voice" "voice") with true. cbv iota.
      rewrite Hvoice.
      rewrite bind_run, reply_text_run, Hup.
      rewrite bind_run, send_run, Hup.
      rewrite bind_run, named_temporary_file_run.
      rewrite bind_run, download_to_drive_run, Hup.
      rewrite bind_run. erewrite open_rb_run; [|apply lookup_insert_eq].
      rewrite bind_run, transcribe_run, Hwhisper.
      reflexivity. }
    { unfold Bot.except_block. rewrite reply_text_run, Hup. reflexivity. }
    { reflexivity. }
    { reflexivity. }
    split; [done|].
    cbn [snd trace files USER_STATES log set_states set_frame set_files].
    split; [by rewrite <- !(assoc_L (++))|]. split; [|done].
    rewrite <- !(assoc_L (++)). apply lookup_insert_eq.
  - cbv zeta.
    eassert (ApifyScraper.process_content env fuel msg w = _) as ->.
    { rewrite (apify_started env fuel msg w user_state Hst
                 (session_has_input_type _ _ Hit)).
      unfold call, try_finally, try_except.
    unfold ApifyScraper.try_block at 1. cbv zeta.
    rewrite bind_run, (getitem_run _ _ _ _ Hit).
    change (String.eqb "voice" "twitter") with false.
    change (false && ?b) with false. cbv iota.
    rewrite bind_run. unfold ApifyScraper.read_script.
    change (String.eqb "voice" "twitter") with false.
    change (false && ?b) with false. change (false && ?b) with false.
    change (String.eqb "voice" "direct") with false.
    change (String.eqb "voice" "voice") with true. cbv iota.
    rewrite Hvoice.
    rewrite bind_run, send_run, Hup.
    rewrite bind_run, named_temporary_file_run.
    rewrite bind_run, download_to_drive_run, Hup.
    rewrite bind_run. erewrite open_rb_run; [|apply lookup_insert_eq].
    rewrite bind_run. unfold assign_audio at 1, act. cbv beta iota.
    rewrite bind_run, transcribe_run, Hwhisper.
    unfold ApifyScraper.except_block. rewrite reply_text_run, Hup.
    rewrite cleanup_run.
    cbn [snd fst trace files USER_STATES frame audio_var log set_states
           set_frame set_files].
    rewrite bind_run.
    change (remove_if_bound (Some (PFile ?p)) ?x) with (Raised path_type_error : outcome (), x).
    reflexivity. }
    cbn [snd fst trace files USER_STATES frame audio_var log set_states
           set_frame set_files].
    split; [done|].
    split; [by rewrite <- !(assoc_L (++))|]. split; [|done].
    apply lookup_insert_eq.
Qed.

Lemma failed_transcription_leaves_the_recording_witness :
  (let r := Bot.process_content (rejecting_env 500 "down") 3 voice_msg
              (chosen "voice") in
   r.1 = Normal ()
   ∧ trace r.2 = [EvReplyText "🎤 Transcribing your voice message..."; EvGetFile]
                 ++ [EvDownloadToDrive "/tmp/tmpk3x9.ogg";
                     EvTranscribe "/tmp/tmpk3x9.ogg";
                     EvReplyText "⚠️ An error occurred: unavailable"]
   ∧ files r.2 !! "/tmp/tmpk3x9.ogg" = Some "OGG"
   ∧ USER_STATES r.2 = delete 7 (USER_STATES (chosen "voice")))
  ∧ (let r := ApifyScraper.process_content (rejecting_env 500 "down") 3 voice_msg
                (chosen "voice") in
     r.1 = Raised path_type_error
     ∧ trace r.2 = [EvGetFile]
                   ++ [EvDownloadToDrive "/tmp/tmpk3x9.ogg";
                       EvTranscribe "/tmp/tmpk3x9.ogg";
                       EvReplyText "Error occurred: unavailable"]
     ∧ files r.2 !! "/tmp/tmpk3x9.ogg" = Some "OGG"
     ∧ USER_STATES r.2 = delete 7 (USER_STATES (chosen "voice"))).
Proof.
  apply (failed_transcription_leaves_the_recording (rejecting_env 500 "down") 3
           voice_msg (chosen "voice") {[ "input_type" := "voice" ]}
           (ServiceError "unavailable")
           (λ _, eq_refl) (λ _, eq_refl) eq_refl eq_refl eq_refl).
Defined.


(** X15.  [scrape_twitter_content] returns the contents of the first items
    of the search, five at most and all of them when there are five or
    fewer; it returns no tweet only when the search found none; and the
    slice [tweets[:5]] that [process_content] takes of its result drops
    nothing. *)
Theorem scrape_twitter_content_bounds env handle keyword w tweets w' :
  scrape_twitter_content env handle keyword w = (Normal tweets, w') →
  ∃ items,
    snscrape env (trace w) ("from:" +:+ handle +:+ " " +:+ dquote +:+ keyword +:+ dquote)
    = inr items
    ∧ tweets `prefix_of` items
    ∧ length tweets = (length items `min` 5)%nat
    ∧ (tweets = [] ↔ items = [])
    ∧ take 5 tweets = tweets
    ∧ files w' = files w ∧ USER_STATES w' = USER_STATES w.
Proof.
  unfold scrape_twitter_content. cbv zeta.
  rewrite bind_run. unfold history at 1. cbv beta iota.
  rewrite bind_run. unfold emit at 1. cbv beta iota.
  rewrite bind_run. unfold of_sum. cbn [trace log].
  destruct (snscrape env (trace w) _) as [e|items]; [done|].
  rewrite ret_run. intros [= <- <-]. exists items.
  split; [done|]. split; [apply prefix_take|].
  split; [rewrite length_take; lia|].
  split; [|split; [|done]].
  - by destruct items.
  - rewrite take_take. by rewrite Nat.min_id.
Qed.

Lemma scrape_twitter_content_bounds_witness :
  ∃ items,
    snscrape (scripted_env answers_pending_failed) []
      ("from:" +:+ "elonmusk" +:+ " " +:+ dquote +:+ "ai" +:+ dquote)
    = inr items
    ∧ ["first tweet"; "second tweet"] `prefix_of` items
    ∧ length ["first tweet"; "second tweet"] = (length items `min` 5)%nat
    ∧ (["first tweet"; "second tweet"] = [] ↔ items = [])
    ∧ take 5 ["first tweet"; "second tweet"] = ["first tweet"; "second tweet"]
    ∧ files (log [EvScrape ("from:" +:+ "elonmusk" +:+ " " +:+ dquote +:+ "ai" +:+ dquote)]
               (chosen "twitter"))
      = files (chosen "twitter")
    ∧ USER_STATES (log [EvScrape ("from:" +:+ "elonmusk" +:+ " " +:+ dquote +:+ "ai" +:+ dquote)]
                     (chosen "twitter"))
      = USER_STATES (chosen "twitter").
Proof.
  apply (scrape_twitter_content_bounds (scripted_env answers_pending_failed)
           "elonmusk" "ai" (chosen "twitter")).
  reflexivity.
Defined.

Lemma unlisted_mode data :
  Bot.prompts !! data = None →
  String.eqb data "direct" = false ∧ String.eqb data "voice" = false
  ∧ String.eqb data "twitter" = false.
Proof.
  intros H. repeat split; apply String.eqb_neq; intros ->; by vm_compute in H.
Qed.

Lemma prompts_same_keys data :
  ApifyScraper.prompts !! data = None ↔ Bot.prompts !! data = None.
Proof.
  unfold ApifyScraper.prompts, Bot.prompts.
  rewrite <- !not_elem_of_list_to_map. cbn [fmap list_fmap fst]. done.
Qed.

(** X16.  A callback whose data is not a key of [prompts] leaves a session
    behind before [handle_button] raises the [KeyError]; the next message of
    that user finds no branch that binds [script], so that the user is told
    of the [UnboundLocalError], and the session is dropped. *)
Theorem unlisted_mode_is_reported env fuel msg data w :
  telegram_up env → Bot.prompts !! data = None →
  (let r1 := Bot.handle_button env (from_user_id msg) data w in
   let r2 := Bot.process_content env fuel msg r1.2 in
   r1.1 = Raised (KeyError data)
   ∧ r2.1 = Normal ()
   ∧ trace r2.2
     = trace w ++ [EvAnswer;
                   EvReplyText ("⚠️ An error occurred: "
                                +:+ str_exn (UnboundLocalError "script"))]
   ∧ files r2.2 = files w
   ∧ USER_STATES r2.2 = delete (from_user_id msg) (USER_STATES w))
  ∧ (let r1 := ApifyScraper.handle_button env (from_user_id msg) data w in
     let r2 := ApifyScraper.process_content env fuel msg r1.2 in
     r1.1 = Raised (KeyError data)
     ∧ r2.1 = Normal ()
     ∧ trace r2.2
       = trace w ++ [EvAnswer;
                     EvReplyText ("Error occurred: "
                                  +:+ str_exn (UnboundLocalError "script"))]
     ∧ files r2.2 = files w
     ∧ USER_STATES r2.2 = delete (from_user_id msg) (USER_STATES w)).
Proof.
  intros Hup Hnone.
  destruct (unlisted_mode data Hnone) as (Hd & Hv & Ht).
  split; cbv zeta.
  - assert (Bot.handle_button env (from_user_id msg) data w
            = button_outcome env Bot.prompts (from_user_id msg) data w)
      as -> by apply button_run.
    unfold button_outcome. rewrite Hup, Hnone.
    cbn [fst snd]. split; [done|].
    set (w1 := set_states _ _).
    assert (USER_STATES w1 !! from_user_id msg = Some {[ "input_type" := data ]})
      as Hst by apply lookup_insert_eq.
    rewrite (bot_started env fuel msg w1 _ Hst).
    erewrite handler_caught; cycle 1.
    { unfold Bot.try_block.
      rewrite bind_run, (getitem_run _ _ data) by apply lookup_singleton_eq.
      rewrite bind_run. unfold Bot.read_script. rewrite Hd, Hv, Ht, ret_run.
      rewrite bind_run. reflexivity. }
    { unfold Bot.except_block. rewrite reply_text_run, Hup. reflexivity. }
    { reflexivity. }
    { reflexivity. }
    split; [done|]. subst w1.
    cbn [snd trace files USER_STATES log set_states set_frame set_files].
    split; [by rewrite <- !(assoc_L (++))|]. split; [done|].
    apply delete_insert_eq.
  - assert (ApifyScraper.handle_button env (from_user_id msg) data w
            = button_outcome env ApifyScraper.prompts (from_user_id msg) data w)
      as -> by apply button_run.
    unfold button_outcome.
    rewrite Hup, (proj2 (prompts_same_keys data) Hnone).
    cbn [fst snd]. split; [done|].
    set (w1 := set_states _ _).
    assert (USER_STATES w1 !! from_user_id msg = Some {[ "input_type" := data ]})
      as Hst by apply lookup_insert_eq.
    rewrite (apify_started env fuel msg w1 _ Hst)
      by (apply (session_has_input_type _ data), lookup_singleton_eq).
    erewrite handler_caught; cycle 1.
    { unfold ApifyScraper.try_block. cbv zeta.
      rewrite bind_run, (getitem_run _ _ data) by apply lookup_singleton_eq.
      rewrite Ht. change (false && ?b) with false. cbv iota.
      rewrite bind_run. unfold ApifyScraper.read_script.
      rewrite Hd, Hv, Ht.
      change (false && ?b) with false. change (false && ?b) with false.
      cbv iota. rewrite ret_run.
      rewrite bind_run. reflexivity. }
    { unfold ApifyScraper.except_block. rewrite reply_text_run, Hup. reflexivity. }
    { reflexivity. }
    { reflexivity. }
    split; [done|]. subst w1.
    cbn [snd trace files USER_STATES log set_states set_frame set_files].
    split; [by rewrite <- !(assoc_L (++))|]. split; [done|].
    apply delete_insert_eq.
Qed.

Lemma unlisted_mode_is_reported_witness :
  let r1 := Bot.handle_button (scripted_env answers_pending_failed) 7 "poll"
              (chosen "voice") in
  let r2 := Bot.process_content (scripted_env answers_pending_failed) 3 hello_msg
              r1.2 in
  r1.1 = Raised (KeyError "poll")
  ∧ r2.1 = Normal ()
  ∧ trace r2.2
    = [EvAnswer;
       EvReplyText ("⚠️ An error occurred: "
                    +:+ str_exn (UnboundLocalError "script"))]
  ∧ files r2.2 = ∅
  ∧ USER_STATES r2.2 = delete 7 (USER_STATES (chosen "voice")).
Proof.
  exact (proj1 (unlisted_mode_is_reported (scripted_env answers_pending_failed) 3
                  hello_msg "poll" (chosen "voice") (λ _, eq_refl) eq_refl)).
Defined.
